(** * PubMatic RTD provider: floor-config merge, timeout race, bounded retry

    A shallow embedding of [modules/pubmaticRtdProvider.ts].

    - JavaScript values are the inductive [value]; objects are finite maps
      from property names to values ([gmap string value]).
    - Numbers are exact rationals ([Q]): NaN, the infinities and the rounding
      of IEEE doubles are outside the model.
    - Synchronous code runs in the writer/exception monad [Eff]: it returns
      or throws, and leaves a list of [event]s (log lines, calls to
      collaborators).
    - Asynchronous code runs in [Async]: given the instant at which it
      starts, it yields the promise it produces (the instant and the way it
      settles, or [Never]) and the time-stamped events it performs.
    - Module-level variables ([cachedBrowserType], [cachedUtmValue]) are
      passed explicitly. *)

From Stdlib Require Import ZArith QArith Qminmax Lqa Lia Ascii String.
From stdpp Require Import base option strings gmap list pretty.

#[global] Set Warnings "-register-all".

(* ================================================================== *)
(** * JavaScript values *)
(* ================================================================== *)

Module JS.

(** Arrays and functions are objects too: besides their elements (their
    name), they carry a map of named own properties, empty for everything
    that comes out of [JSON.parse]. *)
Inductive value : Type :=
| VUndefined
| VNull
| VBool (b : bool)
| VNum (q : Q)
| VStr (s : string)
| VFun (name : string) (props : gmap string value)
| VArr (elems : list value) (props : gmap string value)
| VObj (props : gmap string value).

Abbreviation object := (gmap string value).

(** Exceptions carry the thrown value. *)
Inductive outcome (A : Type) : Type :=
| Ok (a : A)
| Throw (e : value).
Arguments Ok {A} a.
Arguments Throw {A} e.

Definition TypeError (msg : string) : value := VObj {[ "name" := VStr "TypeError"; "message" := VStr msg ]}.
Definition ReferenceError (msg : string) : value := VObj {[ "name" := VStr "ReferenceError"; "message" := VStr msg ]}.
Definition Error (msg : string) : value := VObj {[ "name" := VStr "Error"; "message" := VStr msg ]}.

(** [!!v] (ToBoolean). *)
Definition truthy (v : value) : bool :=
  match v with
  | VUndefined | VNull => false
  | VBool b => b
  | VNum q => negb (Qeq_bool q 0)
  | VStr s => negb (String.eqb s "")
  | VFun _ _ | VArr _ _ | VObj _ => true
  end.

(** [v === undefined || v === null]: what [??] and [?.] test. *)
Definition nullish (v : value) : bool :=
  match v with
  | VUndefined | VNull => true
  | _ => false
  end.

Definition is_undefined (v : value) : bool :=
  match v with
  | VUndefined => true
  | _ => false
  end.

(** [typeof v === 'object'] *)
Definition typeof_object (v : value) : bool :=
  match v with
  | VNull | VArr _ _ | VObj _ => true
  | _ => false
  end.

(** [typeof v === 'number'] *)
Definition typeof_number (v : value) : bool :=
  match v with
  | VNum _ => true
  | _ => false
  end.

(** Own enumerable string-keyed properties, as the object spread [{...v}]
    copies them: the named properties of an object, the indices of an array
    or of a string, nothing for the other primitives. *)
Definition index_props (l : list value) : object :=
  list_to_map (imap (λ i x, (pretty i, x)) l).

Definition chars (s : string) : list value :=
  (λ c, VStr (String c EmptyString)) <$> String.list_ascii_of_string s.

Definition spread_props (v : value) : object :=
  match v with
  | VObj m => m
  | VArr l m => m ∪ index_props l
  | VStr s => index_props (chars s)
  | VFun _ m => m
  | _ => ∅
  end.

(** [v.k] for a property name [k] that no prototype defines (every name the
    module reads is such a name): the own property, or [undefined]; reading
    a property of [undefined] or [null] throws. *)
Definition get_prop (v : value) (k : string) : outcome value :=
  match v with
  | VUndefined | VNull => Throw (TypeError ("Cannot read properties of undefined or null: " +:+ k))
  | VObj m | VArr _ m | VFun _ m => Ok (default VUndefined (m !! k))
  | _ => Ok VUndefined
  end.

(** [v?.k] *)
Definition get_opt (v : value) (k : string) : value :=
  match v with
  | VObj m | VArr _ m | VFun _ m => default VUndefined (m !! k)
  | _ => VUndefined
  end.

(** [v.k = x] in strict mode (ES modules): creating a property on a
    primitive throws. The result is the updated object. *)
Definition set_prop (v : value) (k : string) (x : value) : outcome value :=
  match v with
  | VObj m => Ok (VObj (<[k := x]> m))
  | VArr l m => Ok (VArr l (<[k := x]> m))
  | VFun f m => Ok (VFun f (<[k := x]> m))
  | VUndefined | VNull => Throw (TypeError ("Cannot set properties of undefined or null: " +:+ k))
  | _ => Throw (TypeError ("Cannot create property on a primitive: " +:+ k))
  end.

(** [delete v.k] *)
Definition delete_prop (v : value) (k : string) : value :=
  match v with
  | VObj m => VObj (delete k m)
  | VArr l m => VArr l (delete k m)
  | VFun f m => VFun f (delete k m)
  | _ => v
  end.

(** An object in the wide sense: anything that can hold properties. *)
Definition is_object (v : value) : bool :=
  match v with
  | VObj _ | VArr _ _ | VFun _ _ => true
  | _ => false
  end.

(** [a ?? b] *)
Definition coalesce (a b : value) : value := if nullish a then b else a.

(** [a || b] *)
Definition or_else (a b : value) : value := if truthy a then a else b.

End JS.
Export JS.

(* ================================================================== *)
(** * Effects of synchronous code *)
(* ================================================================== *)

(** What the module does to the world around it. *)
Inductive event : Type :=
| LogError (msg : string)
| LogInfo (msg : string)
| SetTimeout (ms : Q)
| ClearTimeout
| Fetch (url : string)
| SetCountry (c : value)
| SetConfig (cfg : value)
| ConfigMerged
| Callback
| ContinueAuction (hookConfig : value)
| MergeDeep (target source : value).

(** A synchronous computation: the events it performed, and how it ended. *)
Definition Eff (A : Type) : Type := list event * outcome A.

Module EffMonad.

Definition ret {A} (a : A) : Eff A := ([], Ok a).

Definition throw {A} (e : value) : Eff A := ([], Throw e).

Definition bind {A B} (c : Eff A) (k : A → Eff B) : Eff B :=
  match c with
  | (evs, Ok a) => let '(evs', r) := k a in (evs ++ evs', r)
  | (evs, Throw e) => (evs, Throw e)
  end.

Definition emit (e : event) : Eff unit := ([e], Ok tt).

Definition of_outcome {A} (o : outcome A) : Eff A := ([], o).

(** [try { c } catch (error) { h error }] *)
Definition try_catch {A} (c : Eff A) (h : value → Eff A) : Eff A :=
  match c with
  | (evs, Ok a) => (evs, Ok a)
  | (evs, Throw e) => let '(evs', r) := h e in (evs ++ evs', r)
  end.

End EffMonad.

Declare Scope eff_scope.
Delimit Scope eff_scope with eff.
Notation "x <- c ;; k" := (EffMonad.bind c (λ x, k))
  (at level 100, c at next level, right associativity) : eff_scope.
Notation "c ;;; k" := (EffMonad.bind c (λ _, k))
  (at level 100, right associativity) : eff_scope.

(* ================================================================== *)
(** * Constants *)
(* ================================================================== *)

Module CONSTANTS.
Definition SUBMODULE_NAME : string := "pubmatic".
Definition REAL_TIME_MODULE : string := "realTimeData".
Definition LOG_PRE_FIX : string := "PubMatic-Rtd-Provider: ".
Definition UTM : string := "utm_".
Module UTM_VALUES.
Definition TRUE : string := "1".
Definition FALSE : string := "0".
End UTM_VALUES.
Module TIME_OF_DAY_VALUES.
Definition MORNING : string := "morning".
Definition AFTERNOON : string := "afternoon".
Definition EVENING : string := "evening".
Definition NIGHT : string := "night".
End TIME_OF_DAY_VALUES.
Module ENDPOINTS.
Definition BASEURL : string := "https://ads.pubmatic.com/AdServer/js/pwt".
Definition FLOORS : string := "floors.json".
Definition CONFIGS : string := "config.json".
End ENDPOINTS.
End CONSTANTS.

(** [defaultValueTemplate] *)
Definition defaultValueTemplate : object :=
  {[ "currency" := VStr "USD";
     "skipRate" := VNum 0;
     "schema" := VObj {[ "fields" := VArr [VStr "mediaType"; VStr "size"] ∅ ]} ]}.

(* ================================================================== *)
(** * Derived signals *)
(* ================================================================== *)

(** [getCurrentTimeOfDay]; [currentHour] is [new Date().getHours()]. *)
Definition getCurrentTimeOfDay (currentHour : Z) : string :=
  if (currentHour <? 5)%Z then CONSTANTS.TIME_OF_DAY_VALUES.NIGHT
  else if (currentHour <? 12)%Z then CONSTANTS.TIME_OF_DAY_VALUES.MORNING
  else if (currentHour <? 17)%Z then CONSTANTS.TIME_OF_DAY_VALUES.AFTERNOON
  else if (currentHour <? 19)%Z then CONSTANTS.TIME_OF_DAY_VALUES.EVENING
  else CONSTANTS.TIME_OF_DAY_VALUES.NIGHT.

(* ================================================================== *)
(** * Collaborators outside the module *)
(* ================================================================== *)

Module utils.

(** Modelled from the spec: [isPlainObject] of [src/utils.js], which is not
    among the sources. The merge fails closed on a profile configuration
    that is "missing ... or malformed": only an ordinary object (neither an
    array, a function nor a primitive) is a plain object. *)
Definition isPlainObject (v : value) : bool :=
  match v with
  | VObj _ => true
  | _ => false
  end.

(** Modelled from the spec: [isEmpty] of [src/utils.js], which is not among
    the sources. The merge fails closed on an "empty" profile configuration:
    a falsy value, an array or a string of length zero, or an object without
    own enumerable properties. *)
Definition isEmpty (v : value) : bool :=
  if negb (truthy v) then true
  else match v with
       | VArr l _ => bool_decide (l = [])
       | VStr s => String.eqb s ""
       | _ => bool_decide (spread_props v = ∅)
       end.

(** Modelled from the spec: [isStr] of [src/utils.js], which is not among
    the sources: the publisher and profile identifiers must be strings. *)
Definition isStr (v : value) : bool :=
  match v with
  | VStr _ => true
  | _ => false
  end.

(** Modelled from the spec: [isFn] of [src/utils.js], which is not among
    the sources. *)
Definition isFn (v : value) : bool :=
  match v with
  | VFun _ _ => true
  | _ => false
  end.

End utils.

Module config.

(** Modelled from the spec: [conf.getConfig] of [src/config.js], which is
    not among the sources. The process-wide auction configuration is a
    store of named blocks ([floors], [realTimeData]); reading a block that
    was never set gives [undefined]. *)
Definition getConfig (conf : object) (name : string) : value :=
  default VUndefined (conf !! name).

End config.

(* ================================================================== *)
(** * Floor-config merge *)
(* ================================================================== *)

Import EffMonad.
Local Open Scope eff_scope.

(** The derivation functions handed to the floor-rule evaluator. *)
Definition additionalSchemaFields : object :=
  {[ "deviceType" := VFun "getDeviceType" ∅;
     "timeOfDay" := VFun "getCurrentTimeOfDay" ∅;
     "browser" := VFun "getBrowserType" ∅;
     "os" := VFun "getOs" ∅;
     "utm" := VFun "getUtm" ∅;
     "country" := VFun "getCountry" ∅ ]}.

(** [getFloorsConfig(floorsData, profileConfigs)]; [conf] is the
    process-wide configuration that [conf.getConfig('floors')] reads. The
    function also writes through two aliases, which the result does not
    depend on: [delete defaultFloorConfig.endpoint] removes the field from
    the stored page-level block, and the skip-rate assignment updates the
    caller's [floorsData] object. *)
Definition getFloorsConfig (conf : object) (floorsData profileConfigs : value) : Eff value :=
  if negb (utils.isPlainObject profileConfigs) || utils.isEmpty profileConfigs then
    emit (LogError (CONSTANTS.LOG_PRE_FIX +:+ " profileConfigs is not an object or is empty"));;;
    ret VUndefined
  else
    let defaultFloorConfig := coalesce (config.getConfig conf "floors") (VObj ∅) in
    let defaultFloorConfig :=
      if truthy (get_opt defaultFloorConfig "endpoint")
      then delete_prop defaultFloorConfig "endpoint"
      else defaultFloorConfig in
    let typedConfig := profileConfigs in
    plugins <- of_outcome (get_prop typedConfig "plugins");;
    let dynamicFloors := get_opt plugins "dynamicFloors" in
    if negb (truthy (get_opt dynamicFloors "enabled")) || negb (truthy (get_opt dynamicFloors "config")) then
      ret VUndefined
    else
      dynamicFloors_config <- of_outcome (get_prop dynamicFloors "config");;
      let config := VObj (spread_props dynamicFloors_config) in
      let defaultValues := coalesce (get_opt config "defaultValues") (VObj ∅) in
      let finalFloorsData :=
        coalesce floorsData
          (VObj (<["values" := VObj (spread_props defaultValues)]> defaultValueTemplate)) in
      let config := delete_prop config "defaultValues" in
      finalFloorsData <-
        (if negb (is_undefined (get_opt config "skipRate"))
         then of_outcome (set_prop finalFloorsData "skipRate" (get_opt config "skipRate"))
         else ret finalFloorsData);;
      ret (VObj {[ "floors" :=
        VObj (<["additionalSchemaFields" := VObj additionalSchemaFields]>
               (<["data" := finalFloorsData]>
                 (spread_props config ∪ spread_props defaultFloorConfig))) ]}).

(* ================================================================== *)
(** * Browser and UTM signals *)
(* ================================================================== *)

(** [BROWSER_REGEX_MAP]: the source text of each pattern (all carry the [i]
    flag) and the browser id. *)
Definition BROWSER_REGEX_MAP : list (string * Z) :=
  [ ("\b(?:crios)\/([-\w\.]+)", 1%Z);
    ("(edg|edge)(?:e|ios|a)?(?:\/([-\w\.]+))?", 2%Z);
    ("(opera|opr)(?:.+version\/|[\/\s]+)([-\w\.]+)", 3%Z);
    ("(?:ms|\()(ie) ([-\w\.]+)|(?:trident\/[-\w\.]+)", 4%Z);
    ("fxios\/([-\w\.]+)", 5%Z);
    ("((?:fban\/fbios|fb_iab\/fb4a)(?!.+fbav)|;fbav\/([-\w\.]+);)", 6%Z);
    (" wv\).+(chrome)\/([-\w\.]+)", 7%Z);
    ("droid.+ version\/([-\w\.]+)\b.+(?:mobile safari|safari)", 8%Z);
    ("(chrome|crios)(?:\/v?([-\w\.]+))?\b", 9%Z);
    ("version\/([-\w.,]+) .*mobile\/\w+ (safari)", 10%Z);
    ("version\/([-\w(\.|,)]+) .*(mobile ?safari|safari)", 11%Z);
    ("(firefox)\/([-\w\.]+)", 12%Z) ].

(** The browser state the two signal functions read. Every read is an
    [outcome]: it may throw (an undeclared global, a throwing getter, a
    built-in rejecting its argument). The built-ins ([RegExp.prototype.test],
    [String], [URL], [URLSearchParams]) are taken as given. *)
Record ambient : Type := {
  (** [getLowEntropySUA()] of [src/fpd/sua.js] *)
  getLowEntropySUA : outcome value;
  (** evaluating the identifier [navigator] *)
  read_navigator : outcome value;
  (** reading [.userAgent] of a navigator that is neither undefined nor null *)
  read_userAgent : value → outcome value;
  (** [new RegExp(source, 'i').test(s)] *)
  RegExp_test : string → string → bool;
  (** [String(v)], as [RegExp.prototype.test] coerces its argument *)
  ToString : value → outcome string;
  (** evaluating the identifier [window] *)
  read_window : outcome value;
  (** reading [.location] of a window that is neither undefined nor null *)
  read_location : value → outcome value;
  (** reading [.href] of a location that is neither undefined nor null *)
  read_href : value → outcome value;
  (** [new URL(v)] *)
  new_URL : value → outcome value;
  (** [new URLSearchParams(v).toString()] *)
  URLSearchParams_toString : value → outcome string
}.

(** [String.prototype.toLowerCase], on the ASCII letters. *)
Definition lower_ascii (c : ascii) : ascii :=
  let n := Ascii.nat_of_ascii c in
  if (65 <=? n)%nat && (n <=? 90)%nat then Ascii.ascii_of_nat (n + 32) else c.

Fixpoint toLowerCase (s : string) : string :=
  match s with
  | EmptyString => EmptyString
  | String c s' => String (lower_ascii c) (toLowerCase s')
  end.

(** [s.includes(sub)] *)
Fixpoint includes (s sub : string) : bool :=
  String.prefix sub s ||
  match s with
  | EmptyString => false
  | String _ s' => includes s' sub
  end.

(** [l.map(f)] for an [f] that may throw. *)
Fixpoint map_outcome {A B} (f : A → outcome B) (l : list A) : outcome (list B) :=
  match l with
  | [] => Ok []
  | x :: l' =>
      match f x with
      | Throw e => Throw e
      | Ok y =>
          match map_outcome f l' with
          | Throw e => Throw e
          | Ok ys => Ok (y :: ys)
          end
      end
  end.

(** [b => b.brand.toLowerCase()] *)
Definition brand_lower (b : value) : outcome string :=
  match get_prop b "brand" with
  | Throw e => Throw e
  | Ok (VStr s) => Ok (toLowerCase s)
  | Ok _ => Throw (TypeError "b.brand.toLowerCase is not a function")
  end.

(** [sua?.browsers?.map(b => b.brand.toLowerCase()).join(' ') || ''] *)
Definition brandName_of (sua : value) : outcome string :=
  let browsers := get_opt sua "browsers" in
  if nullish browsers then Ok ""
  else match browsers with
       | VArr l _ =>
           match map_outcome brand_lower l with
           | Throw e => Throw e
           | Ok names => Ok (String.concat " " names)
           end
       | _ => Throw (TypeError "sua.browsers.map is not a function")
       end.

(** [BROWSER_REGEX_MAP.find(({ regex }) => regex.test(s))] *)
Definition find_browser (amb : ambient) (s : string) : option (string * Z) :=
  List.find (λ entry, RegExp_test amb entry.1 s) BROWSER_REGEX_MAP.

(** [m?.id] of a table entry, [0] standing for the missing id. *)
Definition entry_id (m : option (string * Z)) : Z :=
  match m with
  | Some (_, id) => id
  | None => 0
  end.

(** [getBrowserType]; the module variable [cachedBrowserType] comes in as an
    argument and goes out next to the result. *)
Definition getBrowserType (amb : ambient) (cachedBrowserType : option string)
  : Eff (string * option string) :=
  match cachedBrowserType with
  | Some cached => ret (cached, cachedBrowserType)
  | None =>
    try_catch
      (sua <- of_outcome (getLowEntropySUA amb);;
       brandName <- of_outcome (brandName_of sua);;
       let browserMatch :=
         if negb (String.eqb brandName "") then find_browser amb brandName else None in
       if negb (entry_id browserMatch =? 0)%Z then
         let cached := pretty (entry_id browserMatch) in
         ret (cached, Some cached)
       else
         navigator <- of_outcome (read_navigator amb);;
         userAgent <- (if nullish navigator then ret VUndefined
                       else of_outcome (read_userAgent amb navigator));;
         if negb (truthy userAgent) then
           ret ("0", Some "0")
         else
           subject <- of_outcome (match userAgent with
                                  | VStr s => Ok s
                                  | _ => ToString amb userAgent
                                  end);;
           let match_ := find_browser amb subject in
           let cached := pretty (entry_id match_) in
           ret (cached, Some cached))
      (λ error,
         emit (LogError (CONSTANTS.LOG_PRE_FIX +:+ " Error getting browser type:"));;;
         ret ("0", Some "0"))
  end.

(** [getUtm]; the module variable [cachedUtmValue] comes in as an argument
    and goes out next to the result. *)
Definition getUtm (amb : ambient) (cachedUtmValue : option string)
  : Eff (string * option string) :=
  match cachedUtmValue with
  | Some cached => ret (cached, cachedUtmValue)
  | None =>
    try_catch
      (window <- of_outcome (read_window amb);;
       location <- (if nullish window
                    then throw (TypeError "Cannot read properties of undefined or null: location")
                    else of_outcome (read_location amb window));;
       href <- (if nullish location then ret VUndefined
                else of_outcome (read_href amb location));;
       url <- of_outcome (new_URL amb (or_else href (VStr "")));;
       urlParams <- of_outcome (URLSearchParams_toString amb (get_opt url "search"));;
       let cached :=
         if includes urlParams CONSTANTS.UTM
         then CONSTANTS.UTM_VALUES.TRUE
         else CONSTANTS.UTM_VALUES.FALSE in
       ret (cached, Some cached))
      (λ error,
         emit (LogError (CONSTANTS.LOG_PRE_FIX +:+ " Error getting UTM:"));;;
         ret (CONSTANTS.UTM_VALUES.FALSE, Some CONSTANTS.UTM_VALUES.FALSE))
  end.

(* ================================================================== *)
(** * Promises and asynchronous code *)
(* ================================================================== *)

(** Instants and durations are milliseconds. *)
Abbreviation time := Q.

Inductive settled (A : Type) : Type :=
| Fulfilled (v : A)
| Rejected (e : value).
Arguments Fulfilled {A} v.
Arguments Rejected {A} e.

(** A promise is known by the instant at which it settles and by how it
    settles; [Never] is a promise that stays pending. *)
Inductive Promise (A : Type) : Type :=
| Settles (t : time) (r : settled A)
| Never.
Arguments Settles {A} t r.
Arguments Never {A}.

Definition trace : Type := list (time * event).

(** Asynchronous code, started at a given instant: the promise of its
    result and the events it performs, each with its instant. Code that
    does not wait settles at the instant it starts. *)
Definition Async (A : Type) : Type := time → Promise A * trace.

Module AsyncMonad.

Definition ret {A} (a : A) : Async A :=
  λ now, (Settles now (Fulfilled a), []).

Definition throw {A} (e : value) : Async A :=
  λ now, (Settles now (Rejected e), []).

Definition bind {A B} (c : Async A) (k : A → Async B) : Async B :=
  λ now,
    match c now with
    | (Settles t (Fulfilled a), tr) => let '(p, tr') := k a t in (p, tr ++ tr')
    | (Settles t (Rejected e), tr) => (Settles t (Rejected e), tr)
    | (Never, tr) => (Never, tr)
    end.

(** [Date.now()] *)
Definition date_now : Async time :=
  λ now, (Settles now (Fulfilled now), []).

Definition emit (e : event) : Async unit :=
  λ now, (Settles now (Fulfilled tt), [(now, e)]).

(** Synchronous code inside asynchronous code. *)
Definition lift {A} (c : Eff A) : Async A :=
  λ now,
    (Settles now (match c.2 with Ok a => Fulfilled a | Throw e => Rejected e end),
     (λ e, (now, e)) <$> c.1).

(** [await p]: resume when [p] has settled, not before now. *)
Definition await {A} (p : Promise A) : Async A :=
  λ now,
    match p with
    | Settles t r => (Settles (Qmax now t) r, [])
    | Never => (Never, [])
    end.

(** [await f(...)] for a function [f] that returns a promise. *)
Definition await_call {A} (f : time → Promise A * trace) : Async A :=
  λ now,
    let '(p, tr) := f now in
    let '(p', tr') := await p now in
    (p', tr ++ tr').

(** [await new Promise(resolve => setTimeout(resolve, ms))] *)
Definition sleep (ms : Q) : Async unit :=
  λ now, (Settles (now + ms) (Fulfilled tt), [(now, SetTimeout ms)]).

(** [try { c } catch (error) { h error }], and [p.catch(h)] for the promise
    of [c]. *)
Definition try_catch {A} (c : Async A) (h : value → Async A) : Async A :=
  λ now,
    match c now with
    | (Settles t (Rejected e), tr) => let '(p, tr') := h e t in (p, tr ++ tr')
    | r => r
    end.

(** [try { c } finally { f }], and [p.finally(f)] for the promise of [c]:
    [f] runs however [c] settles and keeps the result of [c] unless [f]
    itself throws. *)
Definition try_finally {A} (c : Async A) (f : Async unit) : Async A :=
  λ now,
    match c now with
    | (Settles t r, tr) =>
        match f t with
        | (Settles t' (Fulfilled _), tr') => (Settles t' r, tr ++ tr')
        | (Settles t' (Rejected e), tr') => (Settles t' (Rejected e), tr ++ tr')
        | (Never, tr') => (Never, tr ++ tr')
        end
    | (Never, tr) => (Never, tr)
    end.

(** Calling an asynchronous function without awaiting it: the caller goes
    on at once and holds the promise. *)
Definition start {A} (c : Async A) : Async (Promise A) :=
  λ now, let '(p, tr) := c now in (Settles now (Fulfilled p), tr).

End AsyncMonad.

Declare Scope async_scope.
Delimit Scope async_scope with async.
Notation "x <- c ;; k" := (AsyncMonad.bind c (λ x, k))
  (at level 100, c at next level, right associativity) : async_scope.
Notation "c ;;; k" := (AsyncMonad.bind c (λ _, k))
  (at level 100, right associativity) : async_scope.

(** The promise that settles first; of two that settle at the same instant,
    the one listed first. *)
Definition earlier {A} (p q : Promise A) : Promise A :=
  match p, q with
  | Settles t _, Settles t' _ => if Qle_bool t t' then p else q
  | Never, _ => q
  | _, Never => p
  end.

(** [Promise.race(ps)] *)
Definition race {A} (ps : list (Promise A)) : Promise A :=
  foldr earlier Never ps.

(** The wait of [setTimeout(handler, ms)]. The timer keeps its delay in a
    signed 32-bit integer: a delay above 2147483647 ms does not fit, and
    the timer then fires at once. *)
Definition setTimeout_delay (ms : Q) : Q :=
  if Qle_bool ms 2147483647 then ms else 0%Q.

(** [new Promise(resolve => setTimeout(() => resolve(undefined), ms))] for a
    timer set at [now]: it fires when the wait of [setTimeout] is over,
    unless [clearTimeout] ran by then. *)
Definition timeout_promise (now : time) (ms : Q) (cleared : option time) : Promise value :=
  let fires := (now + setTimeout_delay ms)%Q in
  match cleared with
  | Some t => if Qle_bool t fires then Never else Settles fires (Fulfilled VUndefined)
  | None => Settles fires (Fulfilled VUndefined)
  end.

Definition settle_time {A} (p : Promise A) : option time :=
  match p with
  | Settles t _ => Some t
  | Never => None
  end.

(** [withTimeout(promise, ms)], called at [now]: the promise it returns and
    the events that follow from the call. *)
Definition withTimeout (promise : Promise value) (ms : Q) (now : time) : Promise value * trace :=
  if Qle_bool ms 0 then (promise, [])
  else
    let '(finalized, tr1) :=
      AsyncMonad.try_finally (AsyncMonad.await promise) (AsyncMonad.emit ClearTimeout) now in
    let timeoutPromise := timeout_promise now ms (settle_time finalized) in
    let '(result, tr2) :=
      AsyncMonad.try_catch
        (AsyncMonad.await (race [finalized; timeoutPromise]))
        (λ error,
           AsyncMonad.bind
             (AsyncMonad.emit (LogError (CONSTANTS.LOG_PRE_FIX +:+ " Timeout error:")))
             (λ _, AsyncMonad.ret VUndefined)) now in
    (result, (now, SetTimeout ms) :: tr1 ++ tr2).

(* ================================================================== *)
(** * Remote fetch with retry *)
(* ================================================================== *)

Inductive fetch_type : Type := FLOORS | CONFIGS.

(** [`${type}`] *)
Definition type_name (type : fetch_type) : string :=
  match type with
  | FLOORS => "FLOORS"
  | CONFIGS => "CONFIGS"
  end.

(** [CONSTANTS.ENDPOINTS[type]] *)
Definition ENDPOINTS_of (type : fetch_type) : string :=
  match type with
  | FLOORS => CONSTANTS.ENDPOINTS.FLOORS
  | CONFIGS => CONSTANTS.ENDPOINTS.CONFIGS
  end.

(** What the module reads of a [Response]. *)
Record response : Type := {
  ok : bool;
  status : Z;
  (** [response.headers?.get('country_code')]; [None] is [null] *)
  country_code : option string;
  (** [response.json()] *)
  json : Promise value
}.

(** The network: [fetch(url, ...)] called at an instant gives a promise of a
    response. *)
Definition network : Type := string → time → Promise response.

(** White space as [String.prototype.trim] strips it, among the characters
    of a byte string. *)
Definition is_space (c : ascii) : bool :=
  let n := Ascii.nat_of_ascii c in
  ((9 <=? n)%nat && (n <=? 13)%nat) || (n =? 32)%nat || (n =? 160)%nat.

Fixpoint trim_start (s : string) : string :=
  match s with
  | String c s' => if is_space c then trim_start s' else s
  | EmptyString => EmptyString
  end.

Fixpoint trim_end (s : string) : string :=
  match s with
  | String c s' =>
      match trim_end s' with
      | EmptyString => if is_space c then EmptyString else String c EmptyString
      | rest => String c rest
      end
  | EmptyString => EmptyString
  end.

Definition trim (s : string) : string := trim_end (trim_start s).

(** [s.split(',')[0]] *)
Fixpoint first_segment (s : string) : string :=
  match s with
  | String c s' => if Ascii.eqb c "," then EmptyString else String c (first_segment s')
  | EmptyString => EmptyString
  end.

(** [cc ? cc.split(',')?.map(code => code.trim())[0] : undefined] *)
Definition country_of (cc : option string) : value :=
  match cc with
  | Some s => if negb (String.eqb s "") then VStr (trim (first_segment s)) else VUndefined
  | None => VUndefined
  end.

Section fetchData.
Import AsyncMonad.
Local Open Scope async_scope.

(** [fetchData(publisherId, profileId, type, retries)]; [retries] is a
    count, [2] when the caller leaves it out. *)
Fixpoint fetchData (net : network) (publisherId profileId : string) (type : fetch_type)
    (retries : nat) : Async value :=
  try_catch
    (let endpoint := ENDPOINTS_of type in
     let baseURL :=
       match type with
       | FLOORS => CONSTANTS.ENDPOINTS.BASEURL +:+ "/floors"
       | CONFIGS => CONSTANTS.ENDPOINTS.BASEURL
       end in
     let url := baseURL +:+ "/" +:+ publisherId +:+ "/" +:+ profileId +:+ "/" +:+ endpoint in
     response <- await_call (λ now, (net url now, [(now, Fetch url)]));;
     if negb (ok response) then
       throw (Error ("HTTP error! status: " +:+ pretty (status response)))
     else
       (match type with
        | FLOORS => emit (SetCountry (country_of (country_code response)))
        | CONFIGS => ret tt
        end);;;
       await (json response))
    (λ error,
       match retries with
       | S retries' =>
           emit (LogInfo (CONSTANTS.LOG_PRE_FIX +:+ " Retrying " +:+ type_name type
                          +:+ " fetch, attempts remaining: " +:+ pretty retries));;;
           sleep 1000;;;
           fetchData net publisherId profileId type retries'
       | O =>
           emit (LogError (CONSTANTS.LOG_PRE_FIX +:+ " Error while fetching "
                           +:+ type_name type +:+ ":"));;;
           ret VUndefined
       end).

End fetchData.

Definition default_retries : nat := 2.

(* ================================================================== *)
(** * Initialisation and the merge pipeline *)
(* ================================================================== *)

(** The collaborators of the module. *)
Record host : Type := {
  net : network;
  (** the process-wide configuration, as it stands at each instant *)
  conf : time → object;
  (** the binding imported from [./priceFloors.js] *)
  continueAuction : value;
  (** how a call [continueAuction(hookConfig)] ends *)
  continueAuction_call : value → outcome unit;
  (** how a call [mergeDeep(target, source)] ends *)
  mergeDeep_call : value → value → outcome unit
}.

(** The wait granted to the floor rules (the first lines of the merge
    step): [conf_realTimeData] is [conf.getConfig('realTimeData')], [now] is
    [Date.now()]. *)
Definition remainingTime (conf_realTimeData : value) (initTime now : time) : Q :=
  let rtdConfig := or_else conf_realTimeData (VObj ∅) in
  let configWithTypes := rtdConfig in
  let auctionDelay :=
    match get_opt configWithTypes "auctionDelay" with
    | VNum d => d
    | _ => 0%Q
    end in
  let maxWaitTime := Qmax ((8 # 10) * auctionDelay)%Q 0%Q in
  let elapsedTime := (now - initTime)%Q in
  Qmax (maxWaitTime - elapsedTime)%Q 0%Q.

Section init.
Import AsyncMonad.
Local Open Scope async_scope.

(** The handler that [init] attaches to [_fetchConfigPromise] with [then]. *)
Definition merge_step (h : host) (initTime : time)
    (_fetchFloorRulesPromise : Promise value) (profileConfigs : value) : Async unit :=
  try_finally
    (try_catch
       (now <- date_now;;
        let remainingTime :=
          remainingTime (config.getConfig (conf h now) CONSTANTS.REAL_TIME_MODULE) initTime now in
        floorsData <- await_call (withTimeout _fetchFloorRulesPromise remainingTime);;
        now' <- date_now;;
        floorsConfig <- lift (getFloorsConfig (conf h now') floorsData profileConfigs);;
        if truthy floorsConfig then emit (SetConfig floorsConfig) else ret tt)
       (λ error,
          emit (LogError (CONSTANTS.LOG_PRE_FIX +:+ " Error processing floors data:"))))
    (emit ConfigMerged).

(** [_fetchConfigPromise.then(...).catch(...)] *)
Definition merge_pipeline (h : host) (initTime : time)
    (_fetchFloorRulesPromise _fetchConfigPromise : Promise value) : Async unit :=
  try_catch
    (profileConfigs <- await _fetchConfigPromise;;
     merge_step h initTime _fetchFloorRulesPromise profileConfigs)
    (λ error,
       emit (LogError (CONSTANTS.LOG_PRE_FIX +:+ " Error fetching configuration:"));;;
       emit ConfigMerged).

(** The text of a value known to be a string. *)
Definition str_of (v : value) : string :=
  match v with
  | VStr s => s
  | _ => ""
  end.

(** [init(config, userConsent)] *)
Definition init (h : host) (config : value) : Async bool :=
  try_catch
    (initTime <- date_now;;
     let params := or_else (get_opt config "params") (VObj ∅) in
     publisherId <- lift (EffMonad.of_outcome (get_prop params "publisherId"));;
     profileId <- lift (EffMonad.of_outcome (get_prop params "profileId"));;
     if negb (truthy publisherId) || negb (utils.isStr publisherId) then
       throw (Error (if negb (truthy publisherId) then "Missing publisher Id."
                     else "Publisher Id should be a string."))
     else if negb (truthy profileId) || negb (utils.isStr profileId) then
       throw (Error (if negb (truthy profileId) then "Missing profile Id."
                     else "Profile Id should be a string."))
     else if negb (utils.isFn (continueAuction h)) then
       throw (Error "continueAuction is not a function. Please ensure to add priceFloors module.")
     else
       floorPromise <- start (fetchData (net h) (str_of publisherId) (str_of profileId)
                                FLOORS default_retries);;
       configPromise <- start (fetchData (net h) (str_of publisherId) (str_of profileId)
                                 CONFIGS default_retries);;
       let _fetchFloorRulesPromise := floorPromise in
       let _fetchConfigPromise := configPromise in
       start (merge_pipeline h initTime _fetchFloorRulesPromise _fetchConfigPromise);;;
       ret true)
    (λ error,
       emit (LogError (CONSTANTS.LOG_PRE_FIX +:+ " Initialization error:"));;;
       ret false).

End init.

(** [configMergedPromise]: resolved by the first call of [configMerged()]
    among the events of a run. *)
Definition configMergedPromise (tr : trace) : Promise unit :=
  race ((λ te, match te.2 with
               | ConfigMerged => Settles te.1 (Fulfilled tt)
               | _ => Never
               end) <$> tr).

(* ================================================================== *)
(** * Bid-request enrichment *)
(* ================================================================== *)

(** The first statements of [getBidRequestData] after the guard: make sure
    [reqBidsConfigObj.ortb2Fragments.bidder] exists. The result is the
    request object as the assignments leave it. *)
Definition ensure_fragments (reqBidsConfigObj : value) : outcome value :=
  let ortb2Fragments := get_opt reqBidsConfigObj "ortb2Fragments" in
  if negb (truthy ortb2Fragments) then
    set_prop reqBidsConfigObj "ortb2Fragments" (VObj {[ "bidder" := VObj ∅ ]})
  else if negb (truthy (get_opt ortb2Fragments "bidder")) then
    match set_prop ortb2Fragments "bidder" (VObj ∅) with
    | Ok ortb2Fragments' => set_prop reqBidsConfigObj "ortb2Fragments" ortb2Fragments'
    | Throw e => Throw e
    end
  else Ok reqBidsConfigObj.

(** A call of the host's [callback]: the call is an event, and it ends as
    the host's function ends, returning or throwing. *)
Definition call_callback (callback : outcome unit) : Eff unit :=
  ([Callback], callback).

(** The body of the [try] in the handler attached to [configMergedPromise];
    [_country] is the module variable as the handler finds it. *)
Definition enrich (h : host) (_country : value) (reqBidsConfigObj : value) : Eff unit :=
  let hookConfig :=
    VObj {[ "reqBidsConfigObj" := reqBidsConfigObj;
            "context" := VNull;
            "nextFn" := VFun "nextFn" ∅;
            "haveExited" := VBool false;
            "timer" := VNull ]} in
  (EffMonad.emit (ContinueAuction hookConfig);;;
   EffMonad.of_outcome (continueAuction_call h hookConfig);;;
   if truthy _country then
     let ortb2 := VObj {[ "user" := VObj {[ "ext" := VObj {[ "ctr" := _country ]} ]} ]} in
     ortb2Fragments <- EffMonad.of_outcome (get_prop reqBidsConfigObj "ortb2Fragments");;
     bidder <- EffMonad.of_outcome (get_prop ortb2Fragments "bidder");;
     let source := VObj {[ CONSTANTS.SUBMODULE_NAME := ortb2 ]} in
     EffMonad.emit (MergeDeep bidder source);;;
     EffMonad.of_outcome (mergeDeep_call h bidder source)
   else EffMonad.ret tt)%eff.

Section getBidRequestData.
Import AsyncMonad.
Local Open Scope async_scope.

(** [getBidRequestData(reqBidsConfigObj, callback, config, userConsent)];
    [gate] is the module's [configMergedPromise]. A rejected result stands
    for an exception thrown by the call itself. *)
Definition getBidRequestData (h : host) (gate : Promise unit) (_country : value)
    (reqBidsConfigObj : value) (callback : outcome unit) : Async unit :=
  if negb (truthy reqBidsConfigObj) || negb (typeof_object reqBidsConfigObj) then
    emit (LogError (CONSTANTS.LOG_PRE_FIX +:+ " Invalid bid request config object"));;;
    lift (call_callback callback)
  else
    reqBidsConfigObj <- lift (EffMonad.of_outcome (ensure_fragments reqBidsConfigObj));;
    start
      (try_catch
         (await gate;;;
          try_finally
            (try_catch
               (lift (enrich h _country reqBidsConfigObj))
               (λ error,
                  emit (LogError (CONSTANTS.LOG_PRE_FIX
                                  +:+ " Error in processing bid request data:"))))
            (lift (call_callback callback)))
         (λ error,
            emit (LogError (CONSTANTS.LOG_PRE_FIX +:+ " Error in updating floors:"));;;
            lift (call_callback callback)));;;
    ret tt.

End getBidRequestData.

Definition is_Callback (e : event) : bool :=
  match e with
  | Callback => true
  | _ => false
  end.

Definition is_ConfigMerged (e : event) : bool :=
  match e with
  | ConfigMerged => true
  | _ => false
  end.

Definition is_Fetch (e : event) : bool :=
  match e with
  | Fetch _ => true
  | _ => false
  end.

(** How many events of a kind a run holds. *)
Definition count (kind : event → bool) (tr : trace) : nat :=
  length (List.filter (λ te, kind te.2) tr).

(* ================================================================== *)
(** * Vocabulary of the statements *)
(* ================================================================== *)

(** The parts of the inputs that the merge looks at. *)
Definition plugin_of (profileConfigs : value) : value :=
  get_opt (get_opt profileConfigs "plugins") "dynamicFloors".

Definition page_floors (conf : object) : value :=
  coalesce (config.getConfig conf "floors") (VObj ∅).

(** The page-level block as it enters the merge: without its [endpoint]
    when that field is truthy. *)
Definition page_part (conf : object) : object :=
  spread_props
    (if truthy (get_opt (page_floors conf) "endpoint")
     then delete_prop (page_floors conf) "endpoint"
     else page_floors conf).

(** The plugin configuration as it enters the merge: without
    [defaultValues]. *)
Definition plugin_part (profileConfigs : value) : object :=
  delete "defaultValues" (spread_props (get_opt (plugin_of profileConfigs) "config")).

(** The floor data before the skip-rate overlay. *)
Definition base_floorsData (floorsData profileConfigs : value) : value :=
  coalesce floorsData
    (VObj (<["values" :=
             VObj (spread_props
                     (coalesce
                        (get_opt (VObj (spread_props (get_opt (plugin_of profileConfigs) "config")))
                           "defaultValues")
                        (VObj ∅)))]> defaultValueTemplate)).

(** [config.skipRate] *)
Definition plugin_skipRate (profileConfigs : value) : value :=
  default VUndefined (plugin_part profileConfigs !! "skipRate").

Definition merged (conf : object) (profileConfigs data : value) : value :=
  VObj {[ "floors" :=
    VObj (<["additionalSchemaFields" := VObj additionalSchemaFields]>
           (<["data" := data]> (plugin_part profileConfigs ∪ page_part conf))) ]}.

(** The composition of the [floors] block as the specification words it,
    at one input: a key that the page-level block and the plugin
    configuration share takes the plugin's value (the two computed fields
    apart), and without an [endpoint] in the plugin configuration there is
    none in the output. *)
Definition later_wins_as_stated (conf : object) (floorsData profileConfigs : value) : Prop :=
  ∀ floors,
    (getFloorsConfig conf floorsData profileConfigs).2 = Ok (VObj {[ "floors" := VObj floors ]}) →
    let page := spread_props (page_floors conf) in
    let plugin := spread_props (get_opt (plugin_of profileConfigs) "config") in
    (∀ k pv cv, k ≠ "data" → k ≠ "additionalSchemaFields" →
       page !! k = Some pv → plugin !! k = Some cv → floors !! k = Some cv)
    ∧ (plugin !! "endpoint" = None → floors !! "endpoint" = None).

Module Samples.

(** A profile with the dynamic-floors plugin enabled; [config] is the
    plugin's own configuration. *)
Definition profile (config : value) : value :=
  VObj {[ "plugins" := VObj {[ "dynamicFloors" :=
    VObj {[ "enabled" := VBool true; "config" := config ]} ]} ]}.

Definition plugin_config : value :=
  VObj {[ "skipRate" := VNum 25;
          "enforcement" := VObj {[ "enforceJS" := VBool true ]};
          "defaultValues" := VObj {[ "*|*" := VNum (1 # 2) ]} ]}.

(** Floor data as the floors endpoint serves it. *)
Definition fetched_floors : value :=
  VObj {[ "currency" := VStr "USD";
          "skipRate" := VNum 10;
          "schema" := VObj {[ "fields" := VArr [VStr "mediaType"; VStr "size"] ∅ ]};
          "values" := VObj {[ "banner|300x250" := VNum 2 ]} ]}.

(** A page that set [floors] itself, with an empty [endpoint] and default
    values of its own. *)
Definition page_conf : object :=
  {[ "floors" := VObj {[ "endpoint" := VStr "";
                         "defaultValues" := VObj {[ "*|*" := VNum 3 ]};
                         "enforcement" := VObj {[ "enforceJS" := VBool false ]} ]} ]}.

(** A page whose [floors] block names a floors endpoint. *)
Definition page_conf_endpoint : object :=
  {[ "floors" := VObj {[ "endpoint" := VObj {[ "url" := VStr "https://floors.example/rules.json" ]};
                         "enforcement" := VObj {[ "enforceJS" := VBool false ]} ]} ]}.

(** The [floors] block that the merge returns on a sample page. *)
Definition merged_floors (conf : object) : object :=
  match (getFloorsConfig conf fetched_floors (profile plugin_config)).2 with
  | Ok out => spread_props (get_opt out "floors")
  | Throw _ => ∅
  end.

End Samples.

(** The strings [getBrowserType] can return: the ids of the table in
    decimal, and ['0']. *)
Definition browser_results : list string :=
  "0" :: ((λ entry : string * Z, pretty entry.2) <$> BROWSER_REGEX_MAP).

(** The strings [getUtm] can return. *)
Definition utm_results : list string :=
  [CONSTANTS.UTM_VALUES.TRUE; CONSTANTS.UTM_VALUES.FALSE].

(** Successive calls of a cached signal function, one per browser state:
    each call finds the cache as the call before left it (a call that
    throws leaves it untouched). *)
Fixpoint calls (f : ambient → option string → Eff (string * option string))
    (cached : option string) (ambs : list ambient) : list (outcome string) :=
  match ambs with
  | [] => []
  | amb :: ambs' =>
      match (f amb cached).2 with
      | Ok (s, cached') => Ok s :: calls f cached' ambs'
      | Throw e => Throw e :: calls f cached ambs'
      end
  end.

(** A browser in which every read throws. *)
Definition hostile : ambient :=
  {| getLowEntropySUA := Throw (Error "sua");
     read_navigator := Throw (ReferenceError "navigator is not defined");
     read_userAgent := λ _, Throw (Error "userAgent");
     RegExp_test := λ _ _, false;
     ToString := λ _, Throw (TypeError "Cannot convert object to primitive value");
     read_window := Throw (ReferenceError "window is not defined");
     read_location := λ _, Throw (Error "location");
     read_href := λ _, Throw (Error "href");
     new_URL := λ _, Throw (TypeError "Invalid URL");
     URLSearchParams_toString := λ _, Throw (Error "URLSearchParams") |}.

Definition rejects {A} (p : Promise A) : Prop :=
  ∃ t e, p = Settles t (Rejected e).


(** The rejection guarantee of [withTimeout] as the specification words it,
    at one input: whatever the ceiling, a rejection of the wrapped promise
    does not come out. *)
Definition no_rejection_as_stated (promise : Promise value) (ms : Q) (now : time) : Prop :=
  rejects promise → ¬ rejects (withTimeout promise ms now).1.

Section attempt.
Import AsyncMonad.
Local Open Scope async_scope.

(** One attempt: the [try] block of [fetchData]. *)
Definition attempt (net : network) (publisherId profileId : string) (type : fetch_type)
  : Async value :=
  let endpoint := ENDPOINTS_of type in
  let baseURL :=
    match type with
    | FLOORS => CONSTANTS.ENDPOINTS.BASEURL +:+ "/floors"
    | CONFIGS => CONSTANTS.ENDPOINTS.BASEURL
    end in
  let url := baseURL +:+ "/" +:+ publisherId +:+ "/" +:+ profileId +:+ "/" +:+ endpoint in
  response <- await_call (λ now, (net url now, [(now, Fetch url)]));;
  if negb (ok response) then
    throw (Error ("HTTP error! status: " +:+ pretty (status response)))
  else
    (match type with
     | FLOORS => emit (SetCountry (country_of (country_code response)))
     | CONFIGS => ret tt
     end);;;
    await (json response).

End attempt.

(** The URL that [fetchData] requests. *)
Definition url_of (publisherId profileId : string) (type : fetch_type) : string :=
  match type with
  | FLOORS => CONSTANTS.ENDPOINTS.BASEURL +:+ "/floors"
  | CONFIGS => CONSTANTS.ENDPOINTS.BASEURL
  end +:+ "/" +:+ publisherId +:+ "/" +:+ profileId +:+ "/" +:+ ENDPOINTS_of type.

Module Net.
Local Open Scope Q_scope.

Definition unavailable : response :=
  {| ok := false; status := 503; country_code := None; json := Never |}.

Definition served (body : value) (t : time) : response :=
  {| ok := true; status := 200; country_code := Some " IN , US";
     json := Settles t (Fulfilled body) |}.

(** A network that answers after 10 ms, with status 503 to requests made
    before the instant [up] and with [body] from then on. *)
Definition flaky (up : time) (body : value) : network :=
  λ url t,
    if Qle_bool up t
    then Settles (t + 10) (Fulfilled (served body (t + 15)))
    else Settles (t + 10) (Fulfilled unavailable).

(** A network on which every request fails after 10 ms. *)
Definition down : network :=
  λ url t, Settles (t + 10) (Rejected (TypeError "Failed to fetch")).

End Net.

(** [realTimeData.auctionDelay], taken as 0 when it is missing or is not a
    number. *)
Definition auctionDelay_of (conf_realTimeData : value) : Q :=
  match get_opt (or_else conf_realTimeData (VObj ∅)) "auctionDelay" with
  | VNum d => d
  | _ => 0%Q
  end.

(** The wait granted to the floor rules as the specification words it, at
    one input: the auction delay less the time elapsed since [init], not
    below zero. *)
Definition budget_as_stated (conf_realTimeData : value) (initTime now : time) : Prop :=
  (remainingTime conf_realTimeData initTime now
   == Qmax (auctionDelay_of conf_realTimeData - (now - initTime)) 0)%Q.

(** The events of the merge step once the wait for the floor rules is over,
    at [t]: what [getFloorsConfig] logged, then [setConfig] if it returned a
    configuration or the error log if it threw, then [configMerged()]. *)
Definition merge_events (t : time) (floorsConfig : Eff value) : trace :=
  ((λ e, (t, e)) <$> floorsConfig.1)
  ++ match floorsConfig.2 with
     | Ok out => if truthy out then [(t, SetConfig out)] else []
     | Throw _ =>
         [(t, LogError (CONSTANTS.LOG_PRE_FIX +:+ " Error processing floors data:"))]
     end
  ++ [(t, ConfigMerged)].

Module Page.
Local Open Scope Q_scope.

(** A site whose two endpoints answer after 40 ms (floors) and 100 ms
    (profile configuration). *)
Definition site : network :=
  λ url t,
    if String.eqb url (url_of "5890" "1234" FLOORS)
    then Settles (t + 40) (Fulfilled (Net.served Samples.fetched_floors (t + 45)))
    else Settles (t + 100)
           (Fulfilled (Net.served (Samples.profile Samples.plugin_config) (t + 100))).

(** A host with an auction delay of 1000 ms, the price-floors module
    loaded, and collaborators that return normally. *)
Definition host : host :=
  {| net := site;
     conf := λ _, {[ "realTimeData" := VObj {[ "auctionDelay" := VNum 1000 ]} ]};
     continueAuction := VFun "continueAuction" ∅;
     continueAuction_call := λ _, Ok tt;
     mergeDeep_call := λ _ _, Ok tt |}.

(** The configuration given to [init]. *)
Definition module_config : value :=
  VObj {[ "name" := VStr "pubmatic";
          "params" := VObj {[ "publisherId" := VStr "5890"; "profileId" := VStr "1234" ]} ]}.

(** A bid request as the auction engine hands it over. *)
Definition request : value :=
  VObj {[ "adUnits" := VArr [] ∅;
          "ortb2Fragments" := VObj {[ "bidder" := VObj ∅ ]} ]}.

(** A run of [init] at instant 0, and the gate it leaves. *)
Definition init_run : Promise bool * trace := init host module_config 0.

Definition gate : Promise unit := configMergedPromise init_run.2.

End Page.

(** A network on which no request and no body stays pending. *)
Definition responsive (net : network) : Prop :=
  ∀ url t,
    match net url t with
    | Settles _ (Fulfilled resp) => json resp ≠ Never
    | Settles _ (Rejected _) => True
    | Never => False
    end.

(* ================================================================== *)
(** * Vocabulary of the further properties *)
(* ================================================================== *)

Definition is_SetCountry (e : event) : bool :=
  match e with
  | SetCountry _ => true
  | _ => false
  end.

Definition is_SetConfig (e : event) : bool :=
  match e with
  | SetConfig _ => true
  | _ => false
  end.

Definition is_SetTimeout (e : event) : bool :=
  match e with
  | SetTimeout _ => true
  | _ => false
  end.

Definition is_ClearTimeout (e : event) : bool :=
  match e with
  | ClearTimeout => true
  | _ => false
  end.

Definition is_LogError (e : event) : bool :=
  match e with
  | LogError _ => true
  | _ => false
  end.

Definition is_ContinueAuction (e : event) : bool :=
  match e with
  | ContinueAuction _ => true
  | _ => false
  end.

Definition is_MergeDeep (e : event) : bool :=
  match e with
  | MergeDeep _ _ => true
  | _ => false
  end.

(** [config?.params || {}], and the two identifiers [init] reads from it. *)
Definition params_of (config : value) : value :=
  or_else (get_opt config "params") (VObj ∅).

Definition publisherId_of (config : value) : value :=
  get_opt (params_of config) "publisherId".

Definition profileId_of (config : value) : value :=
  get_opt (params_of config) "profileId".

(** What [init] asks of its parameters: two non-empty strings, and the
    price-floors module loaded. *)
Definition init_accepts (h : host) (config : value) : Prop :=
  ∃ publisherId profileId,
    publisherId_of config = VStr publisherId ∧ publisherId ≠ ""
    ∧ profileId_of config = VStr profileId ∧ profileId ≠ ""
    ∧ utils.isFn (continueAuction h) = true.

(** The requests of a run: the instant and the URL of each [fetch]. *)
Definition fetches (tr : trace) : list (time * string) :=
  omap (λ te, match te.2 with
              | Fetch url => Some (te.1, url)
              | _ => None
              end) tr.

(** Instants in order, each at least [gap] after the one before. *)
Fixpoint spaced (gap : Q) (ts : list time) : Prop :=
  match ts with
  | t :: ((t' :: _) as rest) => (t + gap <= t')%Q ∧ spaced gap rest
  | _ => True
  end.

(** The kinds of event the merge pipeline performs. *)
Definition pipeline_event (e : event) : bool :=
  is_SetTimeout e || is_ClearTimeout e || is_LogError e || is_SetConfig e || is_ConfigMerged e.

(** Every character of a string passes a test. *)
Fixpoint all_chars (P : ascii → bool) (s : string) : bool :=
  match s with
  | EmptyString => true
  | String c s' => P c && all_chars P s'
  end.

Definition not_comma (c : ascii) : bool := negb (Ascii.eqb c ",").

Definition first_char (s : string) : option ascii :=
  match s with
  | String c _ => Some c
  | EmptyString => None
  end.

Fixpoint last_char (s : string) : option ascii :=
  match s with
  | EmptyString => None
  | String c EmptyString => Some c
  | String _ s' => last_char s'
  end.

(** No white space at either end. *)
Definition trimmed (s : string) : Prop :=
  (∀ c, first_char s = Some c → is_space c = false)
  ∧ (∀ c, last_char s = Some c → is_space c = false).

(** [n] as a number of milliseconds or of seconds. *)
Definition Q_of_nat (n : nat) : Q := inject_Z (Z.of_nat n).

Module Browser.

(** Firefox on a desktop: no client hints, a user-agent string, and a
    matcher that knows the Firefox pattern only. *)
Definition firefox : ambient :=
  {| getLowEntropySUA := Ok VUndefined;
     read_navigator := Ok (VObj ∅);
     read_userAgent := λ _,
       Ok (VStr "Mozilla/5.0 (X11; Linux x86_64; rv:109.0) Gecko/20100101 Firefox/115.0");
     RegExp_test := λ source subject,
       String.eqb source "(firefox)\/([-\w\.]+)" && includes (toLowerCase subject) "firefox/";
     ToString := λ _, Ok "[object Object]";
     read_window := Ok (VObj ∅);
     read_location := λ _, Ok (VObj ∅);
     read_href := λ _, Ok (VStr "https://example.com/article?id=7&utm_source=newsletter");
     new_URL := λ _, Ok (VObj {[ "search" := VStr "?id=7&utm_source=newsletter" ]});
     URLSearchParams_toString := λ _, Ok "id=7&utm_source=newsletter" |}.

End Browser.

(** [config.defaultValues ?? {}] for the plugin's configuration. *)
Definition plugin_defaultValues (profileConfigs : value) : value :=
  coalesce
    (default VUndefined (spread_props (get_opt (plugin_of profileConfigs) "config")
                         !! "defaultValues"))
    (VObj ∅).

(** The guard of [getBidRequestData]: the request is an object. *)
Definition valid_request (reqBidsConfigObj : value) : bool :=
  negb (negb (truthy reqBidsConfigObj) || negb (typeof_object reqBidsConfigObj)).

(** The argument of [continueAuction] for a request. *)
Definition hookConfig_of (reqBidsConfigObj : value) : value :=
  VObj {[ "reqBidsConfigObj" := reqBidsConfigObj;
          "context" := VNull;
          "nextFn" := VFun "nextFn" ∅;
          "haveExited" := VBool false;
          "timer" := VNull ]}.

(** What is merged into the bidder fragments for a country. *)
Definition country_source (_country : value) : value :=
  VObj {[ CONSTANTS.SUBMODULE_NAME :=
            VObj {[ "user" := VObj {[ "ext" := VObj {[ "ctr" := _country ]} ]} ]} ]}.

(** [reqBidsConfigObj.ortb2Fragments.bidder], read without throwing. *)
Definition bidder_of (reqBidsConfigObj : value) : value :=
  get_opt (get_opt reqBidsConfigObj "ortb2Fragments") "bidder".

Module Stalled.

(** A network on which no request is ever answered. *)
Definition silent : network := λ url t, Never.

(** The sample page on that network. *)
Definition host : host :=
  {| net := silent;
     conf := conf Page.host;
     continueAuction := continueAuction Page.host;
     continueAuction_call := continueAuction_call Page.host;
     mergeDeep_call := mergeDeep_call Page.host |}.

End Stalled.

(* ================================================================== *)
(** * Proof tools *)
(* ================================================================== *)

(** Linear arithmetic with [Qmax]: name each maximum and keep what
    [Q.max_spec] says of it. *)
Ltac qmax :=
  repeat match goal with
         | |- context [Qmax ?a ?b] =>
             let H := fresh "Hmax" in
             pose proof (Q.max_spec a b) as H;
             generalize dependent (Qmax a b); intros
         | H : context [Qmax ?a ?b] |- _ =>
             let H := fresh "Hmax" in
             pose proof (Q.max_spec a b) as H;
             generalize dependent (Qmax a b); intros
         end;
  lra.


(* ================================================================== *)
(** * Properties of the floor-config merge *)
(* ================================================================== *)

Section getFloorsConfig_facts.
Import EffMonad.

Variable conf : object.
Variables floorsData profileConfigs : value.

Lemma getFloorsConfig_unusable :
  utils.isPlainObject profileConfigs = false ∨ utils.isEmpty profileConfigs = true →
  (getFloorsConfig conf floorsData profileConfigs).2 = Ok VUndefined.
Proof.
  intros H. unfold getFloorsConfig.
  destruct H as [-> | ->]; rewrite ?orb_true_r; reflexivity.
Qed.

Lemma getFloorsConfig_disabled :
  truthy (get_opt (plugin_of profileConfigs) "enabled") = false
  ∨ truthy (get_opt (plugin_of profileConfigs) "config") = false →
  (getFloorsConfig conf floorsData profileConfigs).2 = Ok VUndefined.
Proof.
  intros H. unfold getFloorsConfig.
  destruct (negb (utils.isPlainObject profileConfigs) || utils.isEmpty profileConfigs) eqn:Hguard;
    [reflexivity|].
  apply orb_false_elim in Hguard as [Hplain _]. apply negb_false_iff in Hplain.
  destruct profileConfigs as [| | | | | | |m]; try discriminate.
  unfold plugin_of in H. cbn [get_prop get_opt of_outcome bind] in *.
  destruct H as [-> | ->]; rewrite ?orb_true_r; reflexivity.
Qed.

(** With a usable profile and an enabled plugin, the merge is the overlay
    of the skip rate followed by the composition of the [floors] block. *)
Lemma getFloorsConfig_enabled :
  utils.isPlainObject profileConfigs = true →
  utils.isEmpty profileConfigs = false →
  truthy (get_opt (plugin_of profileConfigs) "enabled") = true →
  truthy (get_opt (plugin_of profileConfigs) "config") = true →
  (getFloorsConfig conf floorsData profileConfigs).2 =
    if is_undefined (plugin_skipRate profileConfigs)
    then Ok (merged conf profileConfigs (base_floorsData floorsData profileConfigs))
    else match set_prop (base_floorsData floorsData profileConfigs) "skipRate"
                 (plugin_skipRate profileConfigs) with
         | Ok data => Ok (merged conf profileConfigs data)
         | Throw e => Throw e
         end.
Proof.
  intros Hplain Hempty Hen Hcfg. unfold getFloorsConfig.
  rewrite Hplain, Hempty. cbn [negb orb].
  destruct profileConfigs as [| | | | | | |m]; try discriminate.
  unfold plugin_of in *. cbn [get_prop get_opt of_outcome bind] in *.
  rewrite Hen, Hcfg. cbn [negb orb].
  set (dyn := get_opt (default VUndefined (m !! "plugins")) "dynamicFloors") in *.
  assert (Hget : get_prop dyn "config" = Ok (get_opt dyn "config")).
  { destruct dyn; try reflexivity; discriminate. }
  rewrite Hget. cbn [of_outcome bind delete_prop get_opt spread_props].
  unfold plugin_skipRate, plugin_part, plugin_of. cbn [get_opt]. fold dyn.
  destruct (is_undefined (default VUndefined (delete "defaultValues" (spread_props (get_opt dyn "config")) !! "skipRate")));
    cbn [negb].
  - reflexivity.
  - unfold base_floorsData, plugin_of. cbn [get_opt]. fold dyn.
    destruct (set_prop _ _ _); reflexivity.
Qed.

End getFloorsConfig_facts.

(** No index of an array is called [endpoint]. *)
Lemma pretty_N_go_not_e x s :
  (∀ s', s ≠ String "e" s') → ∀ s', pretty_N_go x s ≠ String "e" s'.
Proof.
  revert s. induction (N.lt_wf_0 x) as [x _ IH]; intros s Hs.
  assert (x = 0 ∨ 0 < x)%N as [->|?] by lia.
  - by rewrite pretty_N_go_0.
  - rewrite pretty_N_go_step by done. apply IH.
    { by apply N.div_lt. }
    intros s'. unfold pretty_N_char. by repeat case_match.
Qed.

Lemma pretty_nat_not_endpoint (i : nat) : pretty i ≠ "endpoint".
Proof.
  unfold pretty, pretty_nat, pretty, pretty_N.
  case_decide; [done|]. apply pretty_N_go_not_e. done.
Qed.

Lemma index_props_endpoint (l : list value) : index_props l !! "endpoint" = None.
Proof.
  unfold index_props. apply not_elem_of_list_to_map_1.
  rewrite list_elem_of_fmap. intros ([k v] & Hk & Hin). simpl in Hk.
  apply elem_of_lookup_imap_1 in Hin as (i & x & Heq & _).
  injection Heq as -> ->. by eapply pretty_nat_not_endpoint.
Qed.

Lemma page_part_endpoint (conf : object) :
  truthy (get_opt (page_floors conf) "endpoint") = true →
  page_part conf !! "endpoint" = None.
Proof.
  intros Ht. unfold page_part. rewrite Ht.
  destruct (page_floors conf) as [| | | | |f m|l m|m]; try discriminate; simpl.
  - apply lookup_delete_eq.
  - rewrite lookup_union_None, lookup_delete_eq. split; [done|apply index_props_endpoint].
  - apply lookup_delete_eq.
Qed.

Lemma page_part_other (conf : object) (k : string) :
  k ≠ "endpoint" → page_part conf !! k = spread_props (page_floors conf) !! k.
Proof.
  intros Hk. unfold page_part.
  destruct (truthy _); [|done].
  destruct (page_floors conf) as [| | | | |f m|l m|m]; simpl; try done.
  - by rewrite lookup_delete_ne.
  - rewrite !lookup_union, lookup_delete_ne by done. done.
  - by rewrite lookup_delete_ne.
Qed.

Lemma VObj_inj (m1 m2 : object) : VObj m1 = VObj m2 → m1 = m2.
Proof. by injection 1. Qed.

Lemma floors_block_inj (m1 m2 : object) :
  VObj {[ "floors" := VObj m1 ]} = VObj {[ "floors" := VObj m2 ]} → m1 = m2.
Proof.
  intros H%VObj_inj. apply (f_equal (lookup "floors")) in H.
  rewrite !lookup_singleton_eq in H. apply VObj_inj. congruence.
Qed.

Section getFloorsConfig_claims.

Variable conf : object.
Variables floorsData profileConfigs : value.

(** Every value the merge returns is [undefined] or the composed block. *)
Lemma getFloorsConfig_returns (out : value) :
  (getFloorsConfig conf floorsData profileConfigs).2 = Ok out →
  out = VUndefined
  ∨ ∃ data,
      out = merged conf profileConfigs data
      ∧ (is_undefined (plugin_skipRate profileConfigs) = true
           ∧ data = base_floorsData floorsData profileConfigs
         ∨ is_undefined (plugin_skipRate profileConfigs) = false
           ∧ set_prop (base_floorsData floorsData profileConfigs) "skipRate"
               (plugin_skipRate profileConfigs) = Ok data).
Proof.
  intros Hout.
  destruct (utils.isPlainObject profileConfigs) eqn:Hplain;
    [|rewrite getFloorsConfig_unusable in Hout by auto; left; congruence].
  destruct (utils.isEmpty profileConfigs) eqn:Hempty;
    [rewrite getFloorsConfig_unusable in Hout by auto; left; congruence|].
  destruct (truthy (get_opt (plugin_of profileConfigs) "enabled")) eqn:Hen;
    [|rewrite getFloorsConfig_disabled in Hout by auto; left; congruence].
  destruct (truthy (get_opt (plugin_of profileConfigs) "config")) eqn:Hcfg;
    [|rewrite getFloorsConfig_disabled in Hout by auto; left; congruence].
  rewrite getFloorsConfig_enabled in Hout by done. right.
  destruct (is_undefined (plugin_skipRate profileConfigs)) eqn:Hsr.
  - injection Hout as <-. eauto.
  - destruct (set_prop _ _ _) as [data|] eqn:Hset; [|discriminate].
    injection Hout as <-. eauto.
Qed.

(** C5. Whatever the floor data, [getFloorsConfig] returns [undefined]
    when the profile configuration is missing, is not a plain object or is
    empty, and when [plugins.dynamicFloors] is absent, has [enabled] false
    or has no [config]. *)
Theorem getFloorsConfig_fails_closed :
  profileConfigs = VUndefined
  ∨ utils.isPlainObject profileConfigs = false
  ∨ utils.isEmpty profileConfigs = true
  ∨ plugin_of profileConfigs = VUndefined
  ∨ get_opt (plugin_of profileConfigs) "enabled" = VBool false
  ∨ get_opt (plugin_of profileConfigs) "config" = VUndefined →
  (getFloorsConfig conf floorsData profileConfigs).2 = Ok VUndefined.
Proof.
  intros [-> | [H | [H | [H | [H | H]]]]].
  - reflexivity.
  - apply getFloorsConfig_unusable; auto.
  - apply getFloorsConfig_unusable; auto.
  - apply getFloorsConfig_disabled. left. by rewrite H.
  - apply getFloorsConfig_disabled. left. by rewrite H.
  - apply getFloorsConfig_disabled. right. by rewrite H.
Qed.

(** C6. With a usable profile, an enabled plugin and floor data that was
    fetched (an object), the merge returns a [floors] block whose [data]
    has the plugin configuration's [skipRate] when that is defined, and the
    fetched [skipRate] otherwise. *)
Theorem getFloorsConfig_skipRate :
  utils.isPlainObject profileConfigs = true →
  utils.isEmpty profileConfigs = false →
  truthy (get_opt (plugin_of profileConfigs) "enabled") = true →
  truthy (get_opt (plugin_of profileConfigs) "config") = true →
  is_object floorsData = true →
  ∃ floors data,
    (getFloorsConfig conf floorsData profileConfigs).2 = Ok (VObj {[ "floors" := VObj floors ]})
    ∧ floors !! "data" = Some data
    ∧ get_opt data "skipRate" =
        if is_undefined (plugin_skipRate profileConfigs)
        then get_opt floorsData "skipRate"
        else plugin_skipRate profileConfigs.
Proof.
  intros Hplain Hempty Hen Hcfg Hobj.
  rewrite getFloorsConfig_enabled by done.
  assert (Hbase : base_floorsData floorsData profileConfigs = floorsData).
  { unfold base_floorsData, coalesce. by destruct floorsData. }
  rewrite Hbase.
  destruct (is_undefined (plugin_skipRate profileConfigs)).
  - eexists _, floorsData. split; [reflexivity|].
    rewrite lookup_insert_ne, lookup_insert_eq by done. done.
  - destruct floorsData as [| | | | |f m|l m|m]; try discriminate; simpl;
      (eexists _, _; split; [reflexivity|]);
      rewrite lookup_insert_ne, lookup_insert_eq by done;
      (split; [reflexivity|]); simpl; by rewrite lookup_insert_eq.
Qed.

(** C7, amended. Whenever the merge returns a [floors] block, the block
    holds the derivation functions and the computed floor data, and every
    other key has the value of the plugin configuration (its [defaultValues]
    removed) if that has the key, and of the page-level block (a truthy
    [endpoint] removed) if not. So a shared key other than [data],
    [additionalSchemaFields] and [defaultValues] takes the plugin's value,
    and a truthy page-level [endpoint] does not reach the output. *)
Theorem getFloorsConfig_later_wins (floors : object) :
  (getFloorsConfig conf floorsData profileConfigs).2 = Ok (VObj {[ "floors" := VObj floors ]}) →
  let page := spread_props (page_floors conf) in
  let plugin := spread_props (get_opt (plugin_of profileConfigs) "config") in
  floors !! "additionalSchemaFields" = Some (VObj additionalSchemaFields)
  ∧ (∃ data, floors !! "data" = Some data
       ∧ (data = base_floorsData floorsData profileConfigs
          ∨ set_prop (base_floorsData floorsData profileConfigs) "skipRate"
              (plugin_skipRate profileConfigs) = Ok data))
  ∧ (∀ k, k ≠ "data" → k ≠ "additionalSchemaFields" →
       floors !! k =
         match plugin_part profileConfigs !! k with
         | Some v => Some v
         | None => page_part conf !! k
         end)
  ∧ (∀ k pv cv, k ≠ "data" → k ≠ "additionalSchemaFields" → k ≠ "defaultValues" →
       page !! k = Some pv → plugin !! k = Some cv → floors !! k = Some cv)
  ∧ (truthy (get_opt (page_floors conf) "endpoint") = true →
       plugin !! "endpoint" = None → floors !! "endpoint" = None).
Proof.
  intros Hout page plugin.
  apply getFloorsConfig_returns in Hout as [Hout | (data & Hout & Hdata)]; [discriminate|].
  unfold merged in Hout. apply floors_block_inj in Hout as ->.
  assert (Hother : ∀ k, k ≠ "data" → k ≠ "additionalSchemaFields" →
            (<["additionalSchemaFields" := VObj additionalSchemaFields]>
               (<["data" := data]> (plugin_part profileConfigs ∪ page_part conf)) : object) !! k =
            match plugin_part profileConfigs !! k with
            | Some v => Some v
            | None => page_part conf !! k
            end).
  { intros k Hk1 Hk2. rewrite !lookup_insert_ne by done.
    rewrite lookup_union. destruct (plugin_part profileConfigs !! k), (page_part conf !! k); done. }
  split_and!.
  - apply lookup_insert_eq.
  - exists data. rewrite lookup_insert_ne, lookup_insert_eq by done.
    split; [done|]. destruct Hdata as [[_ ->] | [_ ?]]; auto.
  - exact Hother.
  - intros k pv cv Hk1 Hk2 Hk3 _ Hplugin. rewrite Hother by done.
    unfold plugin_part. rewrite lookup_delete_ne by done.
    fold plugin. by rewrite Hplugin.
  - intros Ht Hplugin. rewrite Hother by done.
    unfold plugin_part. rewrite lookup_delete_ne by done.
    fold plugin. rewrite Hplugin. by apply page_part_endpoint.
Qed.

End getFloorsConfig_claims.

(** C7, as stated, fails on the sample page: the page-level [defaultValues]
    wins over the plugin's, and the empty page-level [endpoint] reaches the
    output. *)
Lemma later_wins_as_stated_fails :
  (getFloorsConfig Samples.page_conf Samples.fetched_floors
     (Samples.profile Samples.plugin_config)).2
    = Ok (VObj {[ "floors" := VObj (Samples.merged_floors Samples.page_conf) ]})
  ∧ spread_props (page_floors Samples.page_conf) !! "defaultValues"
      = Some (VObj {[ "*|*" := VNum 3 ]})
  ∧ spread_props (get_opt (plugin_of (Samples.profile Samples.plugin_config)) "config")
      !! "defaultValues" = Some (VObj {[ "*|*" := VNum (1 # 2) ]})
  ∧ Samples.merged_floors Samples.page_conf !! "defaultValues"
      = Some (VObj {[ "*|*" := VNum 3 ]})
  ∧ Samples.merged_floors Samples.page_conf !! "endpoint" = Some (VStr "")
  ∧ ¬ later_wins_as_stated Samples.page_conf Samples.fetched_floors
        (Samples.profile Samples.plugin_config).
Proof.
  assert (Hout : (getFloorsConfig Samples.page_conf Samples.fetched_floors
                    (Samples.profile Samples.plugin_config)).2
                 = Ok (VObj {[ "floors" := VObj (Samples.merged_floors Samples.page_conf) ]}))
    by (vm_compute; reflexivity).
  split_and!; try (vm_compute; reflexivity).
  intros H. destruct (H _ Hout) as [Hshared _].
  specialize (Hshared "defaultValues" (VObj {[ "*|*" := VNum 3 ]})
                (VObj {[ "*|*" := VNum (1 # 2) ]})).
  assert (Hwrong : Samples.merged_floors Samples.page_conf !! "defaultValues"
                   = Some (VObj {[ "*|*" := VNum (1 # 2) ]})).
  { apply Hshared; try done; vm_compute; reflexivity. }
  vm_compute in Hwrong. discriminate.
Qed.

(** C5 at a profile whose plugin is disabled, with floor data present. *)
Lemma getFloorsConfig_fails_closed_witness :
  get_opt (plugin_of (VObj {[ "plugins" := VObj {[ "dynamicFloors" :=
      VObj {[ "enabled" := VBool false; "config" := Samples.plugin_config ]} ]} ]})) "enabled"
    = VBool false
  ∧ (getFloorsConfig Samples.page_conf Samples.fetched_floors
       (VObj {[ "plugins" := VObj {[ "dynamicFloors" :=
          VObj {[ "enabled" := VBool false; "config" := Samples.plugin_config ]} ]} ]})).2
    = Ok VUndefined.
Proof.
  split; [vm_compute; reflexivity|].
  apply getFloorsConfig_fails_closed.
  right; right; right; right; left. vm_compute. reflexivity.
Defined.

(** C6 at the sample profile (skip rate 25) and fetched floors (skip rate
    10). *)
Lemma getFloorsConfig_skipRate_witness :
  utils.isPlainObject (Samples.profile Samples.plugin_config) = true
  ∧ utils.isEmpty (Samples.profile Samples.plugin_config) = false
  ∧ truthy (get_opt (plugin_of (Samples.profile Samples.plugin_config)) "enabled") = true
  ∧ truthy (get_opt (plugin_of (Samples.profile Samples.plugin_config)) "config") = true
  ∧ is_object Samples.fetched_floors = true
  ∧ ∃ floors data,
      (getFloorsConfig Samples.page_conf Samples.fetched_floors
         (Samples.profile Samples.plugin_config)).2
        = Ok (VObj {[ "floors" := VObj floors ]})
      ∧ floors !! "data" = Some data
      ∧ get_opt data "skipRate" =
          if is_undefined (plugin_skipRate (Samples.profile Samples.plugin_config))
          then get_opt Samples.fetched_floors "skipRate"
          else plugin_skipRate (Samples.profile Samples.plugin_config).
Proof.
  split_and!; try (vm_compute; reflexivity).
  apply getFloorsConfig_skipRate; vm_compute; reflexivity.
Defined.

(** C7 at a page whose [floors] block names an endpoint: the endpoint is
    not in the output. *)
Lemma getFloorsConfig_later_wins_witness :
  (getFloorsConfig Samples.page_conf_endpoint Samples.fetched_floors
     (Samples.profile Samples.plugin_config)).2
    = Ok (VObj {[ "floors" := VObj (Samples.merged_floors Samples.page_conf_endpoint) ]})
  ∧ truthy (get_opt (page_floors Samples.page_conf_endpoint) "endpoint") = true
  ∧ spread_props (get_opt (plugin_of (Samples.profile Samples.plugin_config)) "config")
      !! "endpoint" = None
  ∧ Samples.merged_floors Samples.page_conf_endpoint !! "endpoint" = None.
Proof.
  assert (Hout : (getFloorsConfig Samples.page_conf_endpoint Samples.fetched_floors
                    (Samples.profile Samples.plugin_config)).2
                 = Ok (VObj {[ "floors" :=
                         VObj (Samples.merged_floors Samples.page_conf_endpoint) ]}))
    by (vm_compute; reflexivity).
  split; [exact Hout|].
  split; [vm_compute; reflexivity|].
  split; [vm_compute; reflexivity|].
  apply (getFloorsConfig_later_wins _ _ _ _ Hout); vm_compute; reflexivity.
Defined.

(* ================================================================== *)
(** * Time of day *)
(* ================================================================== *)

(** C9. For a local hour from 0 to 23, [getCurrentTimeOfDay] is [night]
    before 5 and from 19 on, [morning] from 5 to 11, [afternoon] from 12 to
    16 and [evening] at 17 and 18; hours 4, 9, 15, 18 and 20 give night,
    morning, afternoon, evening and night. *)
Theorem getCurrentTimeOfDay_buckets (h : Z) :
  (0 ≤ h ≤ 23)%Z →
  ((h < 5 ∨ 19 ≤ h)%Z → getCurrentTimeOfDay h = "night")
  ∧ ((5 ≤ h ≤ 11)%Z → getCurrentTimeOfDay h = "morning")
  ∧ ((12 ≤ h ≤ 16)%Z → getCurrentTimeOfDay h = "afternoon")
  ∧ ((17 ≤ h ≤ 18)%Z → getCurrentTimeOfDay h = "evening")
  ∧ getCurrentTimeOfDay 4 = "night"
  ∧ getCurrentTimeOfDay 9 = "morning"
  ∧ getCurrentTimeOfDay 15 = "afternoon"
  ∧ getCurrentTimeOfDay 18 = "evening"
  ∧ getCurrentTimeOfDay 20 = "night".
Proof.
  intros Hrange. unfold getCurrentTimeOfDay.
  split_and!; try reflexivity; intros Hh;
    repeat (case_match; try reflexivity); lia.
Qed.

(** C9 at 17 o'clock. *)
Lemma getCurrentTimeOfDay_buckets_witness :
  (0 ≤ 17 ≤ 23)%Z ∧ (17 ≤ 17 ≤ 18)%Z ∧ getCurrentTimeOfDay 17 = "evening".
Proof.
  split; [lia|]. split; [lia|].
  apply (getCurrentTimeOfDay_buckets 17); lia.
Defined.

(* ================================================================== *)
(** * Browser and UTM signals *)
(* ================================================================== *)

Section signals.
Import EffMonad.

Lemma entry_id_results (amb : ambient) (s : string) (b : bool) :
  pretty (entry_id (if b then find_browser amb s else None)) ∈ browser_results.
Proof.
  destruct b; [|by left].
  unfold find_browser, BROWSER_REGEX_MAP. cbn [List.find fst].
  repeat (destruct (RegExp_test amb _ s);
          [apply list_elem_of_In; vm_compute; tauto|]).
  by left.
Qed.

Lemma getBrowserType_fresh (amb : ambient) :
  ∃ evs s, getBrowserType amb None = (evs, Ok (s, Some s)) ∧ s ∈ browser_results.
Proof.
  assert (H0 : "0" ∈ browser_results) by by left.
  unfold getBrowserType, try_catch, bind, of_outcome, ret, throw, emit.
  destruct (getLowEntropySUA amb) as [sua|?]; [|eauto].
  destruct (brandName_of sua) as [brandName|?]; [|eauto].
  destruct (negb (entry_id _ =? 0)%Z).
  { eexists _, _. split; [reflexivity|]. apply entry_id_results. }
  destruct (read_navigator amb) as [navigator|?]; [|eauto].
  destruct (nullish navigator); [eauto|].
  destruct (read_userAgent amb navigator) as [userAgent|?]; [|eauto].
  destruct (negb (truthy userAgent)); [eauto|].
  destruct (match userAgent with VStr s => Ok s | _ => ToString amb userAgent end)
    as [subject|?]; [|eauto].
  eexists _, _. split; [reflexivity|]. apply (entry_id_results amb subject true).
Qed.

Lemma getUtm_fresh (amb : ambient) :
  ∃ evs s, getUtm amb None = (evs, Ok (s, Some s)) ∧ s ∈ utm_results.
Proof.
  assert (H0 : CONSTANTS.UTM_VALUES.FALSE ∈ utm_results) by (right; left).
  assert (H1 : CONSTANTS.UTM_VALUES.TRUE ∈ utm_results) by left.
  unfold getUtm, try_catch, bind, of_outcome, ret, throw, emit.
  destruct (read_window amb) as [window|?]; [|eauto].
  destruct (nullish window); [eauto|].
  destruct (read_location amb window) as [location|?]; [|eauto].
  destruct (nullish location); [|destruct (read_href amb location) as [href|?]; [|eauto]];
    (destruct (new_URL amb _) as [url|?]; [|eauto]);
    (destruct (URLSearchParams_toString amb _) as [urlParams|?]; [|eauto]);
    destruct (includes urlParams CONSTANTS.UTM); eauto.
Qed.

Lemma getBrowserType_cached (amb : ambient) (s : string) :
  getBrowserType amb (Some s) = ([], Ok (s, Some s)).
Proof. reflexivity. Qed.

Lemma getUtm_cached (amb : ambient) (s : string) :
  getUtm amb (Some s) = ([], Ok (s, Some s)).
Proof. reflexivity. Qed.

Lemma calls_results (f : ambient → option string → Eff (string * option string))
    (results : list string) :
  (∀ amb, ∃ evs s, f amb None = (evs, Ok (s, Some s)) ∧ s ∈ results) →
  (∀ amb s, f amb (Some s) = ([], Ok (s, Some s))) →
  ∀ ambs cached,
    (∀ s, cached = Some s → s ∈ results) →
    Forall (λ r, ∃ s, r = Ok s ∧ s ∈ results) (calls f cached ambs).
Proof.
  intros Hfresh Hcached ambs.
  induction ambs as [|amb ambs IH]; intros cached Hinv; [constructor|].
  cbn [calls]. destruct cached as [c|].
  - rewrite Hcached. cbn. constructor; [eauto|]. apply IH. exact Hinv.
  - destruct (Hfresh amb) as (evs & s & -> & Hs). cbn.
    constructor; [eauto|]. apply IH. intros ? [= <-]. exact Hs.
Qed.

(** C10. Called any number of times, in any browser states, from empty
    caches, [getBrowserType] and [getUtm] return every time, with a string
    of their result set; where a read throws or gives nothing, the result
    is ['0']. *)
Theorem signals_total (ambs : list ambient) :
  Forall (λ r, ∃ s, r = Ok s ∧ s ∈ browser_results) (calls getBrowserType None ambs)
  ∧ Forall (λ r, ∃ s, r = Ok s ∧ s ∈ utm_results) (calls getUtm None ambs)
  ∧ (∀ amb e, getLowEntropySUA amb = Throw e →
       (getBrowserType amb None).2 = Ok ("0", Some "0"))
  ∧ (∀ amb sua e, getLowEntropySUA amb = Ok sua → nullish sua = true →
       read_navigator amb = Throw e →
       (getBrowserType amb None).2 = Ok ("0", Some "0"))
  ∧ (∀ amb sua navigator e, getLowEntropySUA amb = Ok sua → nullish sua = true →
       read_navigator amb = Ok navigator → nullish navigator = false →
       read_userAgent amb navigator = Throw e →
       (getBrowserType amb None).2 = Ok ("0", Some "0"))
  ∧ (∀ amb sua navigator userAgent, getLowEntropySUA amb = Ok sua → nullish sua = true →
       read_navigator amb = Ok navigator →
       (nullish navigator = true
        ∨ read_userAgent amb navigator = Ok userAgent ∧ truthy userAgent = false) →
       (getBrowserType amb None).2 = Ok ("0", Some "0"))
  ∧ (∀ amb e, read_window amb = Throw e → (getUtm amb None).2 = Ok ("0", Some "0"))
  ∧ (∀ amb window e, read_window amb = Ok window →
       (nullish window = true ∨ read_location amb window = Throw e) →
       (getUtm amb None).2 = Ok ("0", Some "0"))
  ∧ (∀ amb window location href e, read_window amb = Ok window → nullish window = false →
       read_location amb window = Ok location →
       (nullish location = true ∧ href = VUndefined
        ∨ nullish location = false ∧ read_href amb location = Ok href) →
       new_URL amb (or_else href (VStr "")) = Throw e →
       (getUtm amb None).2 = Ok ("0", Some "0")).
Proof.
  split_and!.
  - apply calls_results; [apply getBrowserType_fresh|apply getBrowserType_cached|done].
  - apply calls_results; [apply getUtm_fresh|apply getUtm_cached|done].
  - intros amb e Hsua. unfold getBrowserType. by rewrite Hsua.
  - intros amb sua e Hsua Hnull Hnav. unfold getBrowserType. rewrite Hsua.
    destruct sua; try discriminate; cbn; by rewrite Hnav.
  - intros amb sua navigator e Hsua Hnull Hnav Hnn Hua. unfold getBrowserType. rewrite Hsua.
    destruct sua; try discriminate; cbn; by rewrite Hnav, Hnn, Hua.
  - intros amb sua navigator userAgent Hsua Hnull Hnav Hua. unfold getBrowserType.
    rewrite Hsua.
    destruct sua; try discriminate; cbn; rewrite Hnav;
      (destruct Hua as [-> | [Hua Hf]]; [done|]);
      (destruct (nullish navigator); [done|]); cbn; by rewrite Hua, Hf.
  - intros amb e Hw. unfold getUtm. by rewrite Hw.
  - intros amb window e Hw Hloc. unfold getUtm. rewrite Hw. cbn.
    destruct Hloc as [-> | Hloc]; [done|].
    destruct (nullish window); [done|]. by rewrite Hloc.
  - intros amb window location href e Hw Hnw Hloc Hhref Hurl. unfold getUtm.
    rewrite Hw. cbn. rewrite Hnw, Hloc. cbn.
    destruct Hhref as [[-> ->] | [-> Hhref]].
    + cbn in Hurl |- *. by rewrite Hurl.
    + rewrite Hhref. cbn [of_outcome bind]. by rewrite Hurl.
Qed.

(** C10 in a browser where every read throws. *)
Lemma signals_total_witness :
  getLowEntropySUA hostile = Throw (Error "sua")
  ∧ read_window hostile = Throw (ReferenceError "window is not defined")
  ∧ (getBrowserType hostile None).2 = Ok ("0", Some "0")
  ∧ (getUtm hostile None).2 = Ok ("0", Some "0").
Proof.
  split; [reflexivity|]. split; [reflexivity|].
  pose proof (signals_total [hostile]) as (_ & _ & Hsua & _ & _ & _ & Hwindow & _).
  split.
  - apply (Hsua hostile (Error "sua")). reflexivity.
  - apply (Hwindow hostile (ReferenceError "window is not defined")). reflexivity.
Defined.

End signals.

(* ================================================================== *)
(** * The timeout race *)
(* ================================================================== *)

Section withTimeout_facts.
Local Open Scope Q_scope.

Lemma Qle_bool_false (a b : Q) : b < a → Qle_bool a b = false.
Proof.
  intros H. destruct (Qle_bool a b) eqn:E; [|done].
  apply Qle_bool_iff in E. lra.
Qed.

Lemma Qle_bool_true (a b : Q) : a <= b → Qle_bool a b = true.
Proof. apply Qle_bool_iff. Qed.




Lemma setTimeout_delay_bounds (ms : Q) :
  0 < ms → 0 <= setTimeout_delay ms ∧ setTimeout_delay ms <= ms.
Proof.
  intros Hms. unfold setTimeout_delay. destruct (Qle_bool ms 2147483647); lra.
Qed.

(** What [withTimeout] returns once the timer is armed. *)
Lemma withTimeout_armed (promise : Promise value) (ms : Q) (now : time) :
  0 < ms →
  (withTimeout promise ms now).1 =
    match promise with
    | Settles t r =>
        if Qle_bool (Qmax now t) (now + setTimeout_delay ms)
        then Settles (Qmax now (Qmax now t))
               (match r with
                | Fulfilled v => Fulfilled v
                | Rejected _ => Fulfilled VUndefined
                end)
        else Settles (Qmax now (now + setTimeout_delay ms)) (Fulfilled VUndefined)
    | Never => Settles (Qmax now (now + setTimeout_delay ms)) (Fulfilled VUndefined)
    end.
Proof.
  intros Hms. unfold withTimeout, timeout_promise. rewrite Qle_bool_false by done.
  generalize (setTimeout_delay ms). intros delay.
  destruct promise as [t r|]; cbn; [|reflexivity].
  destruct (Qle_bool (Qmax now t) (now + delay)) eqn:Hle; cbn.
  - destruct r; reflexivity.
  - rewrite Hle. reflexivity.
Qed.





(** C3, amended. With a positive ceiling, [withTimeout] never returns a
    promise that rejects: a rejection of the wrapped promise that comes
    before the timer fires is logged and turned into [undefined], and one
    that comes later is not waited for. *)
Theorem withTimeout_no_rejection (promise : Promise value) (ms : Q) (now : time) :
  0 < ms →
  ¬ rejects (withTimeout promise ms now).1
  ∧ (rejects promise →
       ∃ t', (withTimeout promise ms now).1 = Settles t' (Fulfilled VUndefined)).
Proof.
  intros Hms. rewrite withTimeout_armed by done. split.
  - intros (t' & e' & H).
    destruct promise as [t [v|e]|]; [| |discriminate];
      destruct (Qle_bool _ _); discriminate.
  - intros (t & e & ->). destruct (Qle_bool _ _); eauto.
Qed.

(** C3 for a promise rejected after 20 ms under a ceiling of 100 ms. *)
Lemma withTimeout_no_rejection_witness :
  0 < 100
  ∧ rejects (Settles 20 (Rejected (Error "HTTP error! status: 500")) : Promise value)
  ∧ ∃ t', (withTimeout (Settles 20 (Rejected (Error "HTTP error! status: 500"))) 100 0).1
            = Settles t' (Fulfilled VUndefined).
Proof.
  split; [reflexivity|]. split; [by eexists _, _|].
  apply (withTimeout_no_rejection _ 100 0); [reflexivity|by eexists _, _].
Defined.

(** C3, as stated, fails for a ceiling of zero: the wrapped promise comes
    back as it is, rejection included. *)
Lemma no_rejection_as_stated_fails :
  (withTimeout (Settles 20 (Rejected (Error "HTTP error! status: 500"))) 0 0).1
    = Settles 20 (Rejected (Error "HTTP error! status: 500"))
  ∧ ¬ no_rejection_as_stated (Settles 20 (Rejected (Error "HTTP error! status: 500"))) 0 0.
Proof.
  split; [reflexivity|].
  intros H. apply H; by eexists _, _.
Qed.

End withTimeout_facts.

(* ================================================================== *)
(** * Remote fetch with retry *)
(* ================================================================== *)

Section fetchData_facts.
Import AsyncMonad.
Local Open Scope Q_scope.

Variable net : network.
Variables publisherId profileId : string.
Variable type : fetch_type.

Lemma count_app (kind : event → bool) (tr tr' : trace) :
  count kind (tr ++ tr') = (count kind tr + count kind tr')%nat.
Proof. unfold count. by rewrite List.filter_app, length_app. Qed.

(** [fetchData], one attempt at a time. *)
Lemma fetchData_step (retries : nat) (now : time) :
  fetchData net publisherId profileId type retries now =
    match attempt net publisherId profileId type now with
    | (Settles t (Rejected e), tr) =>
        match retries with
        | S retries' =>
            let '(p, tr') := fetchData net publisherId profileId type retries' (t + 1000) in
            (p, tr ++ (t, LogInfo (CONSTANTS.LOG_PRE_FIX +:+ " Retrying " +:+ type_name type
                                   +:+ " fetch, attempts remaining: " +:+ pretty retries))
                   :: (t, SetTimeout 1000) :: tr')
        | O =>
            (Settles t (Fulfilled VUndefined),
             tr ++ [(t, LogError (CONSTANTS.LOG_PRE_FIX +:+ " Error while fetching "
                                  +:+ type_name type +:+ ":"))])
        end
    | r => r
    end.
Proof.
  destruct retries as [|retries']; cbn [fetchData]; fold (attempt net publisherId profileId type);
    unfold try_catch; destruct (attempt net publisherId profileId type now) as [[t [v|e]|] tr];
    try reflexivity.
  unfold bind, emit, sleep.
  destruct (fetchData net publisherId profileId type retries' (t + 1000)) as [p tr'].
  reflexivity.
Qed.

Lemma attempt_fetch_once (now : time) :
  count is_Fetch (attempt net publisherId profileId type now).2 = 1%nat.
Proof.
  unfold attempt, bind, await_call, await, throw, emit, ret.
  destruct (net _ now) as [t [response|e]|]; [|reflexivity..].
  destruct (negb (ok response)); [reflexivity|].
  destruct type; destruct (json response) as [tj rj|]; reflexivity.
Qed.

(** What the network makes of an attempt. *)
Lemma attempt_network_error (now t : time) (e : value) :
  net (url_of publisherId profileId type) now = Settles t (Rejected e) →
  (attempt net publisherId profileId type now).1 = Settles (Qmax now t) (Rejected e).
Proof.
  intros H. unfold attempt, bind, await_call, await. fold (url_of publisherId profileId type).
  by rewrite H.
Qed.

Lemma attempt_http_error (now t : time) (resp : response) :
  net (url_of publisherId profileId type) now = Settles t (Fulfilled resp) →
  ok resp = false →
  (attempt net publisherId profileId type now).1 =
    Settles (Qmax now t) (Rejected (Error ("HTTP error! status: " +:+ pretty (status resp)))).
Proof.
  intros H Hok. unfold attempt, bind, await_call, await. fold (url_of publisherId profileId type).
  by rewrite H, Hok.
Qed.

Lemma attempt_success (now t tj : time) (resp : response) (body : value) :
  net (url_of publisherId profileId type) now = Settles t (Fulfilled resp) →
  ok resp = true →
  json resp = Settles tj (Fulfilled body) →
  (attempt net publisherId profileId type now).1 =
    Settles (Qmax (Qmax now t) tj) (Fulfilled body).
Proof.
  intros H Hok Hjson. unfold attempt, bind, await_call, await, emit, ret.
  fold (url_of publisherId profileId type).
  rewrite H, Hok, Hjson. by destruct type.
Qed.

Lemma fetchData_never_rejects (retries : nat) (now : time) :
  ¬ rejects (fetchData net publisherId profileId type retries now).1.
Proof.
  revert now. induction retries as [|retries IH]; intros now (t' & e' & H);
    rewrite fetchData_step in H;
    destruct (attempt net publisherId profileId type now) as [[t [v|e]|] tr];
    try discriminate.
  specialize (IH (t + 1000)).
  destruct (fetchData net publisherId profileId type retries (t + 1000)) as [p tr'].
  apply IH. by exists t', e'.
Qed.

Lemma fetchData_attempts_bounded (retries : nat) (now : time) :
  (count is_Fetch (fetchData net publisherId profileId type retries now).2 ≤ S retries)%nat.
Proof.
  revert now. induction retries as [|retries IH]; intros now;
    rewrite fetchData_step;
    pose proof (attempt_fetch_once now) as Honce;
    destruct (attempt net publisherId profileId type now) as [[t [v|e]|] tr];
    cbn [snd] in *; try lia.
  - rewrite count_app, Honce. cbn. lia.
  - specialize (IH (t + 1000)).
    destruct (fetchData net publisherId profileId type retries (t + 1000)) as [p tr'].
    cbn [snd] in *. rewrite count_app, Honce.
    change (count is_Fetch (?a :: ?b :: tr')) with (count is_Fetch tr'). lia.
Qed.

Lemma fetchData_next_attempt (retries : nat) (now t : time) (e : value) :
  (attempt net publisherId profileId type now).1 = Settles t (Rejected e) →
  (fetchData net publisherId profileId type (S retries) now).1 =
    (fetchData net publisherId profileId type retries (t + 1000)).1.
Proof.
  intros H. rewrite (fetchData_step (S retries)).
  destruct (attempt net publisherId profileId type now) as [p tr]. cbn [fst] in H. subst p.
  by destruct (fetchData net publisherId profileId type retries (t + 1000)).
Qed.

Lemma fetchData_succeeds (retries : nat) (now t : time) (payload : value) :
  (attempt net publisherId profileId type now).1 = Settles t (Fulfilled payload) →
  (fetchData net publisherId profileId type retries now).1 = Settles t (Fulfilled payload).
Proof.
  intros H. rewrite fetchData_step.
  destruct (attempt net publisherId profileId type now) as [p tr]. cbn [fst] in H. by subst p.
Qed.

Lemma fetchData_exhausted (retries : nat) (now : time) :
  (∀ t, rejects (attempt net publisherId profileId type t).1) →
  (∃ t', (fetchData net publisherId profileId type retries now).1
         = Settles t' (Fulfilled VUndefined))
  ∧ count is_Fetch (fetchData net publisherId profileId type retries now).2 = S retries.
Proof.
  intros Hfail. revert now. induction retries as [|retries IH]; intros now;
    rewrite fetchData_step;
    pose proof (attempt_fetch_once now) as Honce;
    destruct (Hfail now) as (t & e & Hnow);
    destruct (attempt net publisherId profileId type now) as [p tr];
    cbn [fst snd] in *; subst p; cbn [fst snd] in *.
  - split; [eauto|]. rewrite count_app, Honce. reflexivity.
  - destruct (IH (t + 1000)) as [Hres Hcount].
    destruct (fetchData net publisherId profileId type retries (t + 1000)) as [p tr'].
    cbn [fst snd] in *. split; [exact Hres|].
    rewrite count_app, Honce.
    change (count is_Fetch (?a :: ?b :: tr')) with (count is_Fetch tr'). lia.
Qed.

(** C8. [fetchData] never rejects. It makes at most one attempt more than
    its retry count, and starts each retry 1000 ms after the failure of the
    attempt before. With the default count of 2, two failed attempts
    followed by a successful one give the payload of the third, and attempts
    that all fail give [undefined] after three of them. An attempt fails
    when the request is rejected or the response is not [ok]. *)
Theorem fetchData_retry :
  (∀ retries now, ¬ rejects (fetchData net publisherId profileId type retries now).1)
  ∧ (∀ retries now,
       (count is_Fetch (fetchData net publisherId profileId type retries now).2
        ≤ S retries)%nat)
  ∧ (∀ retries now t e,
       (attempt net publisherId profileId type now).1 = Settles t (Rejected e) →
       (fetchData net publisherId profileId type (S retries) now).1 =
         (fetchData net publisherId profileId type retries (t + 1000)).1)
  ∧ (∀ now t1 e1 t2 e2 t3 payload,
       (attempt net publisherId profileId type now).1 = Settles t1 (Rejected e1) →
       (attempt net publisherId profileId type (t1 + 1000)).1 = Settles t2 (Rejected e2) →
       (attempt net publisherId profileId type (t2 + 1000)).1
         = Settles t3 (Fulfilled payload) →
       (fetchData net publisherId profileId type default_retries now).1
         = Settles t3 (Fulfilled payload))
  ∧ (∀ now,
       (∀ t, rejects (attempt net publisherId profileId type t).1) →
       (∃ t', (fetchData net publisherId profileId type default_retries now).1
              = Settles t' (Fulfilled VUndefined))
       ∧ count is_Fetch (fetchData net publisherId profileId type default_retries now).2
         = 3%nat)
  ∧ (∀ now t e,
       net (url_of publisherId profileId type) now = Settles t (Rejected e) →
       rejects (attempt net publisherId profileId type now).1)
  ∧ (∀ now t resp,
       net (url_of publisherId profileId type) now = Settles t (Fulfilled resp) →
       ok resp = false →
       rejects (attempt net publisherId profileId type now).1)
  ∧ (∀ now t tj resp body,
       net (url_of publisherId profileId type) now = Settles t (Fulfilled resp) →
       ok resp = true →
       json resp = Settles tj (Fulfilled body) →
       (attempt net publisherId profileId type now).1
         = Settles (Qmax (Qmax now t) tj) (Fulfilled body)).
Proof.
  split_and!.
  - apply fetchData_never_rejects.
  - apply fetchData_attempts_bounded.
  - apply fetchData_next_attempt.
  - intros now t1 e1 t2 e2 t3 payload H1 H2 H3. unfold default_retries.
    rewrite (fetchData_next_attempt _ _ _ _ H1), (fetchData_next_attempt _ _ _ _ H2).
    by apply fetchData_succeeds.
  - intros now Hfail. by apply fetchData_exhausted.
  - intros now t e H. rewrite (attempt_network_error _ _ _ H). by eexists _, _.
  - intros now t resp H Hok. rewrite (attempt_http_error _ _ _ H Hok). by eexists _, _.
  - apply attempt_success.
Qed.

End fetchData_facts.

Section fetchData_examples.
Local Open Scope Q_scope.

(** C8 on a network that answers 503 twice and then serves the floors, and
    on a network where every request fails. *)
Lemma fetchData_retry_witness :
  ((attempt (Net.flaky 2000 Samples.fetched_floors) "5890" "1234" FLOORS 0).1
     = Settles 10 (Rejected (Error "HTTP error! status: 503"))
   ∧ (attempt (Net.flaky 2000 Samples.fetched_floors) "5890" "1234" FLOORS (10 + 1000)).1
     = Settles 1020 (Rejected (Error "HTTP error! status: 503"))
   ∧ (attempt (Net.flaky 2000 Samples.fetched_floors) "5890" "1234" FLOORS (1020 + 1000)).1
     = Settles 2035 (Fulfilled Samples.fetched_floors)
   ∧ (fetchData (Net.flaky 2000 Samples.fetched_floors) "5890" "1234" FLOORS
        default_retries 0).1
     = Settles 2035 (Fulfilled Samples.fetched_floors))
  ∧ ((∀ t, rejects (attempt Net.down "5890" "1234" CONFIGS t).1)
     ∧ (∃ t', (fetchData Net.down "5890" "1234" CONFIGS default_retries 0).1
              = Settles t' (Fulfilled VUndefined))
     ∧ count is_Fetch (fetchData Net.down "5890" "1234" CONFIGS default_retries 0).2
       = 3%nat).
Proof.
  split.
  - assert (H1 : (attempt (Net.flaky 2000 Samples.fetched_floors) "5890" "1234" FLOORS 0).1
                 = Settles 10 (Rejected (Error "HTTP error! status: 503")))
      by (vm_compute; reflexivity).
    assert (H2 : (attempt (Net.flaky 2000 Samples.fetched_floors) "5890" "1234" FLOORS
                    (10 + 1000)).1
                 = Settles 1020 (Rejected (Error "HTTP error! status: 503")))
      by (vm_compute; reflexivity).
    assert (H3 : (attempt (Net.flaky 2000 Samples.fetched_floors) "5890" "1234" FLOORS
                    (1020 + 1000)).1
                 = Settles 2035 (Fulfilled Samples.fetched_floors))
      by (vm_compute; reflexivity).
    split; [exact H1|]. split; [exact H2|]. split; [exact H3|].
    pose proof (fetchData_retry (Net.flaky 2000 Samples.fetched_floors) "5890" "1234" FLOORS)
      as (_ & _ & _ & Hthird & _).
    exact (Hthird 0 10 _ 1020 _ 2035 _ H1 H2 H3).
  - pose proof (fetchData_retry Net.down "5890" "1234" CONFIGS)
      as (_ & _ & _ & _ & Hall & Hreject & _).
    assert (Hdown : ∀ t, rejects (attempt Net.down "5890" "1234" CONFIGS t).1).
    { intros t. exact (Hreject t (t + 10) (TypeError "Failed to fetch") eq_refl). }
    split; [exact Hdown|]. exact (Hall 0 Hdown).
Defined.

End fetchData_examples.

(* ================================================================== *)
(** * The merge pipeline and the configuration gate *)
(* ================================================================== *)

Section pipeline_facts.
Import AsyncMonad.
Local Open Scope Q_scope.

Variable h : host.
Variable initTime : time.
Variable _fetchFloorRulesPromise : Promise value.

(** The merge step, in terms of the race it starts. *)
Lemma merge_step_eq (profileConfigs : value) (now : time) :
  merge_step h initTime _fetchFloorRulesPromise profileConfigs now =
    let ceiling :=
      remainingTime (config.getConfig (conf h now) CONSTANTS.REAL_TIME_MODULE) initTime now in
    let raced := withTimeout _fetchFloorRulesPromise ceiling now in
    match raced.1 with
    | Settles t (Fulfilled floorsData) =>
        (Settles (Qmax now t) (Fulfilled tt),
         raced.2 ++ merge_events (Qmax now t)
                      (getFloorsConfig (conf h (Qmax now t)) floorsData profileConfigs))
    | Settles t (Rejected e) =>
        (Settles (Qmax now t) (Fulfilled tt),
         raced.2 ++ [(Qmax now t,
                      LogError (CONSTANTS.LOG_PRE_FIX +:+ " Error processing floors data:"));
                     (Qmax now t, ConfigMerged)])
    | Never => (Never, raced.2)
    end.
Proof.
  unfold merge_step, try_finally, try_catch, bind, date_now, await_call, await, lift, emit, ret.
  cbv zeta.
  destruct (withTimeout _ _ now) as [[t [floorsData|e]|] wtr]; cbn [fst snd].
  - unfold merge_events.
    destruct (getFloorsConfig _ floorsData profileConfigs) as [evs [out|e]]; cbn [fst snd].
    + destruct (truthy out); cbn [fst snd app]; rewrite ?app_nil_r, <- ?app_assoc; reflexivity.
    + cbn [fst snd app]. rewrite ?app_nil_r, <- ?app_assoc. reflexivity.
  - rewrite ?app_nil_r, <- ?app_assoc. reflexivity.
  - rewrite ?app_nil_r. reflexivity.
Qed.

Lemma merge_step_never_rejects (profileConfigs : value) (now : time) :
  ¬ rejects (merge_step h initTime _fetchFloorRulesPromise profileConfigs now).1.
Proof.
  rewrite merge_step_eq. cbv zeta. intros (t' & e' & H).
  destruct (withTimeout _ _ now).1 as [t [floorsData|e]|]; discriminate.
Qed.

(** The pipeline once the configuration fetch has settled. *)
Lemma merge_pipeline_fulfilled (t : time) (profileConfigs : value) (start : time) :
  merge_pipeline h initTime _fetchFloorRulesPromise (Settles t (Fulfilled profileConfigs)) start
  = merge_step h initTime _fetchFloorRulesPromise profileConfigs (Qmax start t).
Proof.
  pose proof (merge_step_never_rejects profileConfigs (Qmax start t)) as Hnr.
  unfold merge_pipeline, try_catch, bind, await.
  destruct (merge_step _ _ _ _ _) as [[t' [[]|e]|] tr]; try reflexivity.
  exfalso. apply Hnr. by eexists _, _.
Qed.

Lemma merge_pipeline_rejected (t : time) (e : value) (start : time) :
  merge_pipeline h initTime _fetchFloorRulesPromise (Settles t (Rejected e)) start
  = (Settles (Qmax start t) (Fulfilled tt),
     [(Qmax start t, LogError (CONSTANTS.LOG_PRE_FIX +:+ " Error fetching configuration:"));
      (Qmax start t, ConfigMerged)]).
Proof. reflexivity. Qed.

Lemma merge_pipeline_pending (start : time) :
  merge_pipeline h initTime _fetchFloorRulesPromise Never start = (Never, []).
Proof. reflexivity. Qed.

(** C4, amended. Once the configuration fetch has settled, at [now], the
    merge step races the floor rules against a ceiling that is the larger
    of 0 and of 0.8 times [realTimeData.auctionDelay] (0 when missing or
    not a number), less the time elapsed since [init], and not below zero:
    the events of the pipeline begin with those of that race, whose timer,
    if the ceiling is positive, is set at [now] for the ceiling. *)
Theorem merge_wait_budget (t : time) (profileConfigs : value) (start : time) :
  let now := Qmax start t in
  let realTimeData := config.getConfig (conf h now) CONSTANTS.REAL_TIME_MODULE in
  let ceiling := remainingTime realTimeData initTime now in
  ceiling == Qmax (Qmax ((8 # 10) * auctionDelay_of realTimeData) 0 - (now - initTime)) 0
  ∧ (typeof_number (get_opt (or_else realTimeData (VObj ∅)) "auctionDelay") = false →
       auctionDelay_of realTimeData = 0)
  ∧ 0 <= ceiling
  ∧ (0 <= auctionDelay_of realTimeData →
       (now - initTime <= (8 # 10) * auctionDelay_of realTimeData →
          ceiling == (8 # 10) * auctionDelay_of realTimeData - (now - initTime))
       ∧ ((8 # 10) * auctionDelay_of realTimeData <= now - initTime → ceiling == 0))
  ∧ (∃ rest,
       (merge_pipeline h initTime _fetchFloorRulesPromise
          (Settles t (Fulfilled profileConfigs)) start).2
       = (withTimeout _fetchFloorRulesPromise ceiling now).2 ++ rest)
  ∧ (0 < ceiling →
       ∃ rest,
         (merge_pipeline h initTime _fetchFloorRulesPromise
            (Settles t (Fulfilled profileConfigs)) start).2
         = (now, SetTimeout ceiling) :: rest).
Proof.
  intros now realTimeData ceiling.
  assert (Hprefix : ∃ rest,
            (merge_pipeline h initTime _fetchFloorRulesPromise
               (Settles t (Fulfilled profileConfigs)) start).2
            = (withTimeout _fetchFloorRulesPromise ceiling now).2 ++ rest).
  { rewrite merge_pipeline_fulfilled, merge_step_eq. cbv zeta.
    fold now. fold realTimeData. fold ceiling.
    destruct (withTimeout _ ceiling now).1 as [t' [floorsData|e]|]; cbn [snd]; eauto.
    exists []. by rewrite app_nil_r. }
  split_and!.
  - reflexivity.
  - unfold auctionDelay_of. by destruct (get_opt _ "auctionDelay").
  - unfold ceiling, remainingTime. apply Q.le_max_r.
  - intros Hd. unfold ceiling, remainingTime. fold (auctionDelay_of realTimeData).
    split; intros Hel; qmax.
  - exact Hprefix.
  - intros Hpos. destruct Hprefix as [rest ->].
    unfold withTimeout. rewrite Qle_bool_false by done.
    destruct (try_finally _ _ now) as [finalized tr1].
    destruct (try_catch _ _ now) as [result tr2]. cbn [snd]. eauto.
Qed.

End pipeline_facts.

Section budget_examples.
Local Open Scope Q_scope.

(** C4, as stated, fails for an auction delay of 1000 ms and a
    configuration fetch that took 100 ms: the floor rules get 700 ms, not
    900 ms. *)
Lemma budget_as_stated_fails :
  remainingTime (VObj {[ "auctionDelay" := VNum 1000 ]}) 0 100 == 700
  ∧ Qmax (auctionDelay_of (VObj {[ "auctionDelay" := VNum 1000 ]}) - (100 - 0)) 0 == 900
  ∧ ¬ budget_as_stated (VObj {[ "auctionDelay" := VNum 1000 ]}) 0 100.
Proof.
  split; [reflexivity|]. split; [reflexivity|].
  unfold budget_as_stated. intros H. vm_compute in H. discriminate.
Qed.

(** C4 on the sample page: the configuration arrives 100 ms after [init]
    and the race gets a positive ceiling. *)
Lemma merge_wait_budget_witness :
  0 < remainingTime (config.getConfig (conf Page.host (Qmax 0 100)) CONSTANTS.REAL_TIME_MODULE)
        0 (Qmax 0 100)
  ∧ ∃ rest,
      (merge_pipeline Page.host 0 (Settles 45 (Fulfilled Samples.fetched_floors))
         (Settles 100 (Fulfilled (Samples.profile Samples.plugin_config))) 0).2
      = (Qmax 0 100,
         SetTimeout
           (remainingTime
              (config.getConfig (conf Page.host (Qmax 0 100)) CONSTANTS.REAL_TIME_MODULE)
              0 (Qmax 0 100))) :: rest.
Proof.
  split; [reflexivity|].
  apply (merge_wait_budget Page.host 0 (Settles 45 (Fulfilled Samples.fetched_floors))
           100 (Samples.profile Samples.plugin_config) 0).
  reflexivity.
Defined.

End budget_examples.

(* ================================================================== *)
(** * The gate and the enrichment callback *)
(* ================================================================== *)

Section gate_facts.
Import AsyncMonad.
Local Open Scope Q_scope.

Lemma count_stamped (kind : event → bool) (t : time) (evs : list event) :
  count kind ((λ e, (t, e)) <$> evs) = length (List.filter kind evs).
Proof.
  unfold count. induction evs as [|e evs IH]; [reflexivity|].
  cbn. destruct (kind e); cbn; by rewrite IH.
Qed.

Lemma gate_skip (tr tr' : trace) :
  count is_ConfigMerged tr = 0%nat →
  configMergedPromise (tr ++ tr') = configMergedPromise tr'.
Proof.
  unfold configMergedPromise, race, count.
  induction tr as [|[t e] tr IH]; [reflexivity|].
  cbn. destruct e; cbn; try discriminate; intros H; rewrite IH by done;
    by destruct (foldr earlier Never _).
Qed.

Lemma withTimeout_no_gate (promise : Promise value) (ms : Q) (now : time) :
  count is_ConfigMerged (withTimeout promise ms now).2 = 0%nat.
Proof.
  unfold withTimeout. destruct (Qle_bool ms 0); [reflexivity|].
  unfold try_finally, try_catch, await, emit, bind, ret.
  destruct promise as [t [v|e]|]; cbn; [| |reflexivity];
    destruct (Qle_bool _ _) eqn:Hle; cbn; rewrite ?Hle; reflexivity.
Qed.

Lemma getFloorsConfig_no_gate (conf : object) (floorsData profileConfigs : value) :
  List.filter is_ConfigMerged (getFloorsConfig conf floorsData profileConfigs).1 = [].
Proof.
  unfold getFloorsConfig, EffMonad.bind, EffMonad.of_outcome, EffMonad.emit, EffMonad.ret.
  destruct (negb _ || _); [reflexivity|].
  destruct (get_prop profileConfigs "plugins") as [plugins|]; [|reflexivity].
  destruct (negb _ || negb _); [reflexivity|].
  destruct (get_prop _ "config") as [cfg|]; [|reflexivity].
  destruct (negb _); [destruct (set_prop _ _ _)|]; reflexivity.
Qed.

Lemma merge_events_gate (t : time) (floorsConfig : Eff value) :
  List.filter is_ConfigMerged floorsConfig.1 = [] →
  count is_ConfigMerged (merge_events t floorsConfig) = 1%nat
  ∧ configMergedPromise (merge_events t floorsConfig) = Settles t (Fulfilled tt).
Proof.
  intros Hevs. unfold merge_events.
  assert (H1 : count is_ConfigMerged ((λ e, (t, e)) <$> floorsConfig.1) = 0%nat)
    by by rewrite count_stamped, Hevs.
  destruct floorsConfig as [evs [out|e]]; cbn [fst snd] in *;
    [destruct (truthy out)|]; rewrite count_app, gate_skip, H1 by done; done.
Qed.

Variable h : host.
Variable initTime : time.
Variable _fetchFloorRulesPromise : Promise value.

(** Every way the merge pipeline ends resolves the gate, once; while the
    pipeline is still waiting the gate stays closed. The pipeline itself
    never rejects. *)
Lemma merge_pipeline_gate (_fetchConfigPromise : Promise value) (start : time) :
  let run := merge_pipeline h initTime _fetchFloorRulesPromise _fetchConfigPromise start in
  match run.1 with
  | Settles t (Fulfilled _) =>
      configMergedPromise run.2 = Settles t (Fulfilled tt)
      ∧ count is_ConfigMerged run.2 = 1%nat
  | Settles _ (Rejected _) => False
  | Never =>
      configMergedPromise run.2 = Never ∧ count is_ConfigMerged run.2 = 0%nat
  end.
Proof.
  destruct _fetchConfigPromise as [t [profileConfigs|e]|]; cbv zeta.
  - rewrite merge_pipeline_fulfilled, merge_step_eq. cbv zeta.
    pose proof (withTimeout_no_gate _fetchFloorRulesPromise
                  (remainingTime
                     (config.getConfig (conf h (Qmax start t)) CONSTANTS.REAL_TIME_MODULE)
                     initTime (Qmax start t)) (Qmax start t)) as Hw.
    destruct (withTimeout _ _ (Qmax start t)) as [[t' [floorsData|e]|] wtr];
      cbn [fst snd] in *.
    + destruct (merge_events_gate (Qmax (Qmax start t) t')
                  (getFloorsConfig (conf h (Qmax (Qmax start t) t')) floorsData profileConfigs))
        as [Hcount Hgate]; [apply getFloorsConfig_no_gate|].
      by rewrite gate_skip, count_app, Hw, Hcount, Hgate.
    + rewrite gate_skip, count_app, Hw by done. done.
    + rewrite <- (app_nil_r wtr) at 1. by rewrite gate_skip.
  - rewrite merge_pipeline_rejected. done.
  - rewrite merge_pipeline_pending. done.
Qed.

End gate_facts.

Section init_facts.
Import AsyncMonad.
Local Open Scope Q_scope.

Variable h : host.

(** [init] either reports failure, having done nothing but log, or starts
    the two fetches and the merge pipeline and reports success. *)
Lemma init_cases (config : value) (now : time) :
  init h config now
  = (Settles now (Fulfilled false),
     [(now, LogError (CONSTANTS.LOG_PRE_FIX +:+ " Initialization error:"))])
  ∨ ∃ publisherId profileId,
      let floors := fetchData (net h) publisherId profileId FLOORS default_retries now in
      let configs := fetchData (net h) publisherId profileId CONFIGS default_retries now in
      init h config now
      = (Settles now (Fulfilled true),
         floors.2 ++ configs.2 ++ (merge_pipeline h now floors.1 configs.1 now).2).
Proof.
  unfold init, try_catch, bind, date_now, lift, throw, start, ret, emit, EffMonad.of_outcome.
  cbn [fst snd fmap list_fmap app].
  destruct (get_prop _ "publisherId") as [publisherId|]; [|left; reflexivity].
  destruct (get_prop _ "profileId") as [profileId|]; [|left; reflexivity].
  cbn [fst snd fmap list_fmap app].
  destruct (negb (truthy publisherId) || negb (utils.isStr publisherId));
    [left; reflexivity|].
  destruct (negb (truthy profileId) || negb (utils.isStr profileId));
    [left; reflexivity|].
  destruct (negb (utils.isFn (continueAuction h))); [left; reflexivity|].
  right. exists (str_of publisherId), (str_of profileId). cbv zeta.
  destruct (fetchData (net h) _ _ FLOORS _ now) as [floorPromise trF].
  destruct (fetchData (net h) _ _ CONFIGS _ now) as [configPromise trC].
  cbn [fst snd].
  destruct (merge_pipeline h now floorPromise configPromise now) as [p trP].
  cbn [fst snd app]. by rewrite ?app_nil_r.
Qed.

Lemma attempt_no_gate (publisherId profileId : string) (type : fetch_type) (now : time) :
  count is_ConfigMerged (attempt (net h) publisherId profileId type now).2 = 0%nat.
Proof.
  unfold attempt, bind, await_call, await, throw, emit, ret.
  destruct (net h _ now) as [t [response|e]|]; [|reflexivity..].
  destruct (negb (ok response)); [reflexivity|].
  destruct type; destruct (json response) as [tj rj|]; reflexivity.
Qed.

Lemma fetchData_no_gate (publisherId profileId : string) (type : fetch_type)
    (retries : nat) (now : time) :
  count is_ConfigMerged (fetchData (net h) publisherId profileId type retries now).2 = 0%nat.
Proof.
  revert now. induction retries as [|retries IH]; intros now;
    rewrite fetchData_step;
    pose proof (attempt_no_gate publisherId profileId type now) as Hatt;
    destruct (attempt (net h) publisherId profileId type now) as [[t [v|e]|] tr];
    cbn [snd] in *; try done.
  - by rewrite count_app, Hatt.
  - specialize (IH (t + 1000)).
    destruct (fetchData (net h) publisherId profileId type retries (t + 1000)) as [p tr'].
    cbn [snd] in *. rewrite count_app, Hatt.
    by change (count is_ConfigMerged (?a :: ?b :: tr')) with (count is_ConfigMerged tr').
Qed.

Hypothesis Hnet : responsive (net h).

Lemma attempt_settles (publisherId profileId : string) (type : fetch_type) (now : time) :
  (attempt (net h) publisherId profileId type now).1 ≠ Never.
Proof.
  unfold attempt, bind, await_call, await, throw, emit, ret.
  specialize (Hnet (url_of publisherId profileId type) now).
  fold (url_of publisherId profileId type).
  destruct (net h _ now) as [t [response|e]|]; [|done..].
  destruct (negb (ok response)); [done|].
  destruct type; destruct (json response) as [tj rj|]; done.
Qed.

(** On a responsive network [fetchData] settles, and it is fulfilled. *)
Lemma fetchData_settles (publisherId profileId : string) (type : fetch_type)
    (retries : nat) (now : time) :
  ∃ t v, (fetchData (net h) publisherId profileId type retries now).1
         = Settles t (Fulfilled v).
Proof.
  revert now. induction retries as [|retries IH]; intros now;
    rewrite fetchData_step;
    pose proof (attempt_settles publisherId profileId type now) as Hatt;
    destruct (attempt (net h) publisherId profileId type now) as [[t [v|e]|] tr];
    cbn [fst] in *; try done; eauto.
  destruct (IH (t + 1000)) as (t' & v & Hrec).
  destruct (fetchData (net h) publisherId profileId type retries (t + 1000)) as [p tr'].
  cbn [fst] in *. eauto.
Qed.

Lemma withTimeout_settles (t : time) (r : settled value) (ms : Q) (now : time) :
  (withTimeout (Settles t r) ms now).1 ≠ Never.
Proof.
  destruct (Qlt_le_dec 0 ms) as [Hms|Hms].
  - rewrite withTimeout_armed by done. by destruct (Qle_bool _ _).
  - unfold withTimeout. by rewrite Qle_bool_true.
Qed.

(** On a responsive network, an [init] that reports success opens the
    gate, once. *)
Lemma init_opens_gate (config : value) (now : time) :
  (init h config now).1 = Settles now (Fulfilled true) →
  (∃ t, configMergedPromise (init h config now).2 = Settles t (Fulfilled tt))
  ∧ count is_ConfigMerged (init h config now).2 = 1%nat.
Proof.
  destruct (init_cases config now) as [-> | (publisherId & profileId & ->)];
    [discriminate|]. intros _. cbv zeta. cbn [fst snd].
  destruct (fetchData_settles publisherId profileId FLOORS default_retries now)
    as (tF & floorsData & HF).
  destruct (fetchData_settles publisherId profileId CONFIGS default_retries now)
    as (tC & profileConfigs & HC).
  rewrite HF, HC.
  rewrite !gate_skip, !count_app, !fetchData_no_gate by apply fetchData_no_gate.
  pose proof (merge_pipeline_gate h now (Settles tF (Fulfilled floorsData))
                (Settles tC (Fulfilled profileConfigs)) now) as Hgate.
  cbv zeta in Hgate.
  assert (Hsettles : (merge_pipeline h now (Settles tF (Fulfilled floorsData))
                        (Settles tC (Fulfilled profileConfigs)) now).1 ≠ Never).
  { rewrite merge_pipeline_fulfilled, merge_step_eq. cbv zeta.
    pose proof (withTimeout_settles tF (Fulfilled floorsData)
                  (remainingTime
                     (config.getConfig (conf h (Qmax now tC)) CONSTANTS.REAL_TIME_MODULE)
                     now (Qmax now tC)) (Qmax now tC)) as Hw.
    by destruct (withTimeout _ _ (Qmax now tC)).1 as [t' [v|e]|]. }
  destruct (merge_pipeline _ _ _ _ _).1 as [t [[]|e]|]; [|done..].
  destruct Hgate as [-> ->]. eauto.
Qed.

End init_facts.

Section getBidRequestData_facts.
Import AsyncMonad.
Local Open Scope Q_scope.

Variable h : host.
Variable _country : value.

Lemma enrich_no_callback (reqBidsConfigObj : value) :
  List.filter is_Callback (enrich h _country reqBidsConfigObj).1 = [].
Proof.
  unfold enrich, EffMonad.bind, EffMonad.of_outcome, EffMonad.emit, EffMonad.ret.
  destruct (continueAuction_call h _); [|reflexivity].
  destruct (truthy _country); [|reflexivity].
  destruct (get_prop reqBidsConfigObj "ortb2Fragments") as [ortb2Fragments|]; [|reflexivity].
  destruct (get_prop ortb2Fragments "bidder") as [bidder|]; [|reflexivity].
  destruct (mergeDeep_call h _ _); reflexivity.
Qed.

(** The events of the handler attached to the gate, run at [t]: the
    enrichment, the log of its failure if it threw, the call of the callback
    in [finally], and, if that call threw, the log and the second call of
    the callback in the [catch] of the chain. *)
Lemma getBidRequestData_valid (gate : Promise unit) (reqBidsConfigObj reqBidsConfigObj' : value)
    (callback : outcome unit) (now : time) :
  negb (truthy reqBidsConfigObj) || negb (typeof_object reqBidsConfigObj) = false →
  ensure_fragments reqBidsConfigObj = Ok reqBidsConfigObj' →
  (getBidRequestData h gate _country reqBidsConfigObj callback now).2 =
    match gate with
    | Settles t (Fulfilled _) =>
        ((λ e, (Qmax now t, e)) <$> (enrich h _country reqBidsConfigObj').1)
        ++ match (enrich h _country reqBidsConfigObj').2 with
           | Ok _ => []
           | Throw _ =>
               [(Qmax now t, LogError (CONSTANTS.LOG_PRE_FIX
                                       +:+ " Error in processing bid request data:"))]
           end
        ++ (Qmax now t, Callback)
           :: match callback with
              | Ok _ => []
              | Throw _ =>
                  [(Qmax now t, LogError (CONSTANTS.LOG_PRE_FIX
                                          +:+ " Error in updating floors:"));
                   (Qmax now t, Callback)]
              end
    | Settles t (Rejected _) =>
        [(Qmax now t, LogError (CONSTANTS.LOG_PRE_FIX +:+ " Error in updating floors:"));
         (Qmax now t, Callback)]
    | Never => []
    end.
Proof.
  intros Hguard Hfrag. unfold getBidRequestData. rewrite Hguard.
  unfold try_catch, try_finally, bind, start, lift, await, emit, ret, call_callback,
    EffMonad.of_outcome.
  rewrite Hfrag. cbn [fst snd fmap list_fmap app].
  destruct gate as [t [[]|e]|]; [|reflexivity..].
  destruct (enrich h _country reqBidsConfigObj') as [evs [[]|e]], callback as [[]|e'];
    cbn [fst snd fmap list_fmap app]; rewrite ?app_nil_r, <- ?app_assoc; reflexivity.
Qed.

(** What holds of the callback when it returns normally: it is called once,
    at once for a request that is not an object, and when the gate opens
    otherwise; while the gate stays closed it is not called. *)
Lemma getBidRequestData_callback_once (gate : Promise unit)
    (reqBidsConfigObj : value) (now : time) :
  let run := getBidRequestData h gate _country reqBidsConfigObj (Ok tt) now in
  (negb (truthy reqBidsConfigObj) || negb (typeof_object reqBidsConfigObj) = true →
     count is_Callback run.2 = 1%nat)
  ∧ (∀ reqBidsConfigObj',
       negb (truthy reqBidsConfigObj) || negb (typeof_object reqBidsConfigObj) = false →
       ensure_fragments reqBidsConfigObj = Ok reqBidsConfigObj' →
       count is_Callback run.2 = match gate with Settles _ _ => 1%nat | Never => 0%nat end).
Proof.
  cbv zeta. split.
  - intros Hguard. unfold getBidRequestData. by rewrite Hguard.
  - intros req' Hguard Hfrag. rewrite (getBidRequestData_valid _ _ req') by done.
    destruct gate as [t [[]|e]|]; [|reflexivity..].
    rewrite !count_app, count_stamped, enrich_no_callback.
    by destruct (enrich h _country req').2.
Qed.

(** With a callback that throws, the handler calls it a second time. *)
Lemma getBidRequestData_callback_twice (t : time) (e : value)
    (reqBidsConfigObj reqBidsConfigObj' : value) (now : time) :
  negb (truthy reqBidsConfigObj) || negb (typeof_object reqBidsConfigObj) = false →
  ensure_fragments reqBidsConfigObj = Ok reqBidsConfigObj' →
  count is_Callback
    (getBidRequestData h (Settles t (Fulfilled tt)) _country reqBidsConfigObj (Throw e) now).2
  = 2%nat.
Proof.
  intros Hguard Hfrag. rewrite (getBidRequestData_valid _ _ reqBidsConfigObj') by done.
  rewrite !count_app, count_stamped, enrich_no_callback.
  by destruct (enrich h _country reqBidsConfigObj').2.
Qed.

End getBidRequestData_facts.

Section end_to_end.
Local Open Scope Q_scope.

(** C1, failing input. On the sample page [init] succeeds and its merge
    pipeline opens the gate at 100 ms; a bid request made at 50 ms with a
    callback that throws has its callback called twice: by the [finally] of
    the handler, and again by the [catch] of the chain, which receives what
    the first call threw. With a callback that returns, the same run calls
    it once. *)
Theorem callback_called_twice :
  Page.init_run.1 = Settles 0 (Fulfilled true)
  ∧ Page.gate = Settles 100 (Fulfilled tt)
  ∧ count is_ConfigMerged Page.init_run.2 = 1%nat
  ∧ count is_Callback
      (getBidRequestData Page.host Page.gate (VStr "IN") Page.request
         (Throw (Error "auction could not start")) 50).2 = 2%nat
  ∧ count is_Callback
      (getBidRequestData Page.host Page.gate (VStr "IN") Page.request (Ok tt) 50).2 = 1%nat.
Proof.
  split_and!; vm_compute; reflexivity.
Qed.

End end_to_end.

(* ================================================================== *)
(** * Further properties: initialisation *)
(* ================================================================== *)

Section init_more.
Import AsyncMonad.
Local Open Scope Q_scope.

Variable h : host.

Lemma count_none (kind : event → bool) (tr : trace) :
  Forall (λ te, kind te.2 = false) tr → count kind tr = 0%nat.
Proof.
  unfold count. induction 1 as [|te tr Hte _ IH]; [reflexivity|].
  cbn. by rewrite Hte.
Qed.

Lemma get_prop_truthy (v : value) (k : string) :
  truthy v = true → get_prop v k = Ok (get_opt v k).
Proof. by destruct v. Qed.

Lemma params_truthy (config : value) : truthy (params_of config) = true.
Proof. unfold params_of, or_else. by destruct (truthy (get_opt config "params")) eqn:E. Qed.

Lemma valid_id_string (v : value) :
  negb (truthy v) || negb (utils.isStr v) = false ↔ ∃ s, v = VStr s ∧ s ≠ "".
Proof.
  split.
  - intros H. apply orb_false_elim in H as [Ht Hs].
    destruct v as [| | | |s| | |]; try discriminate. exists s. split; [done|].
    intros ->. discriminate.
  - intros (s & -> & Hs). cbn. destruct s; [done|reflexivity].
Qed.

(** [init], by the three checks it makes. *)
Lemma init_eq (config : value) (now : time) :
  init h config now =
    if negb (truthy (publisherId_of config)) || negb (utils.isStr (publisherId_of config))
       || (negb (truthy (profileId_of config)) || negb (utils.isStr (profileId_of config)))
       || negb (utils.isFn (continueAuction h))
    then (Settles now (Fulfilled false),
          [(now, LogError (CONSTANTS.LOG_PRE_FIX +:+ " Initialization error:"))])
    else
      let floors := fetchData (net h) (str_of (publisherId_of config))
                      (str_of (profileId_of config)) FLOORS default_retries now in
      let configs := fetchData (net h) (str_of (publisherId_of config))
                       (str_of (profileId_of config)) CONFIGS default_retries now in
      (Settles now (Fulfilled true),
       floors.2 ++ configs.2 ++ (merge_pipeline h now floors.1 configs.1 now).2).
Proof.
  unfold init, try_catch, bind, date_now, lift, throw, start, ret, emit, EffMonad.of_outcome.
  fold (params_of config).
  rewrite !(get_prop_truthy (params_of config)) by apply params_truthy.
  fold (publisherId_of config). fold (profileId_of config).
  cbn [fst snd fmap list_fmap app].
  destruct (negb (truthy (publisherId_of config)) || negb (utils.isStr (publisherId_of config)));
    [reflexivity|].
  destruct (negb (truthy (profileId_of config)) || negb (utils.isStr (profileId_of config)));
    [reflexivity|].
  destruct (negb (utils.isFn (continueAuction h))); [reflexivity|].
  cbn [orb]. cbv zeta.
  destruct (fetchData (net h) _ _ FLOORS _ now) as [floorPromise trF].
  destruct (fetchData (net h) _ _ CONFIGS _ now) as [configPromise trC].
  cbn [fst snd].
  destruct (merge_pipeline h now floorPromise configPromise now) as [p trP].
  cbn [fst snd app]. by rewrite ?app_nil_r.
Qed.

Lemma init_accepts_checks (config : value) :
  init_accepts h config ↔
  negb (truthy (publisherId_of config)) || negb (utils.isStr (publisherId_of config))
  || (negb (truthy (profileId_of config)) || negb (utils.isStr (profileId_of config)))
  || negb (utils.isFn (continueAuction h)) = false.
Proof.
  unfold init_accepts. split.
  - intros (pub & prof & Hpub & Hpub' & Hprof & Hprof' & Hfn).
    rewrite (proj2 (valid_id_string _)), (proj2 (valid_id_string _)), Hfn by eauto. done.
  - intros H. apply orb_false_elim in H as [H Hfn]. apply orb_false_elim in H as [Hpub Hprof].
    apply valid_id_string in Hpub as (pub & ? & ?).
    apply valid_id_string in Hprof as (prof & ? & ?).
    apply negb_false_iff in Hfn. eauto 10.
Qed.

(** X1. [init] returns at once, with a boolean, and never throws, whatever
    it is given. It returns true exactly when [params.publisherId] and
    [params.profileId] are non-empty strings and [continueAuction] is a
    function; when it returns false it has logged one error and done
    nothing else: no request is made and the gate is not touched. *)
Theorem init_returns_boolean (config : value) (now : time) :
  (∃ b, (init h config now).1 = Settles now (Fulfilled b))
  ∧ ((init h config now).1 = Settles now (Fulfilled true) ↔ init_accepts h config)
  ∧ (¬ init_accepts h config →
       init h config now
       = (Settles now (Fulfilled false),
          [(now, LogError (CONSTANTS.LOG_PRE_FIX +:+ " Initialization error:"))])
       ∧ count is_Fetch (init h config now).2 = 0%nat
       ∧ configMergedPromise (init h config now).2 = Never).
Proof.
  rewrite init_accepts_checks, init_eq.
  destruct (_ || _ || _); cbn [fst snd].
  - split; [eauto|]. split; [split; discriminate|]. done.
  - split; [eauto|]. split; [done|]. intros []. done.
Qed.

Lemma fetches_app (tr tr' : trace) : fetches (tr ++ tr') = fetches tr ++ fetches tr'.
Proof. apply omap_app. Qed.

Lemma fetches_none (tr : trace) :
  Forall (λ te, is_Fetch te.2 = false) tr → fetches tr = [].
Proof.
  induction 1 as [|[t e] tr Hte _ IH]; [reflexivity|].
  cbn in *. by destruct e.
Qed.

Lemma fetches_count (tr : trace) : length (fetches tr) = count is_Fetch tr.
Proof.
  unfold count, fetches. induction tr as [|[t e] tr IH]; [reflexivity|].
  cbn. destruct e; cbn; by rewrite ?IH.
Qed.

Lemma attempt_fetches (net : network) (publisherId profileId : string) (type : fetch_type)
    (now : time) :
  fetches (attempt net publisherId profileId type now).2
  = [(now, url_of publisherId profileId type)].
Proof.
  unfold attempt, bind, await_call, await, throw, emit, ret.
  fold (url_of publisherId profileId type).
  destruct (net _ now) as [t [response|e]|]; [|reflexivity..].
  destruct (negb (ok response)); [reflexivity|].
  destruct type; destruct (json response) as [tj rj|]; reflexivity.
Qed.

(** An attempt does not settle before it starts. *)
Lemma attempt_after_start (net : network) (publisherId profileId : string)
    (type : fetch_type) (now t : time) (r : settled value) :
  (attempt net publisherId profileId type now).1 = Settles t r → now <= t.
Proof.
  unfold attempt, bind, await_call, await, throw, emit, ret.
  destruct (net _ now) as [t0 [response|e]|]; cbn [fst]; [| |discriminate].
  - destruct (negb (ok response)); cbn [fst].
    + intros [= <- _]. qmax.
    + destruct type; destruct (json response) as [tj rj|]; cbn [fst];
        try discriminate; intros [= <- _]; qmax.
  - intros [= <- _]. qmax.
Qed.

(** The requests of [fetchData]: its own URL, first at once, then at most
    [retries] times more, a second or more apart. *)
Lemma fetchData_fetches (net : network) (publisherId profileId : string) (type : fetch_type)
    (retries : nat) (now : time) :
  ∃ ts,
    fetches (fetchData net publisherId profileId type retries now).2
    = (λ t, (t, url_of publisherId profileId type)) <$> (now :: ts)
    ∧ (length ts ≤ retries)%nat
    ∧ spaced 1000 (now :: ts).
Proof.
  revert now. induction retries as [|retries IH]; intros now;
    rewrite fetchData_step;
    pose proof (attempt_fetches net publisherId profileId type now) as Hatt;
    pose proof (attempt_after_start net publisherId profileId type now) as Hafter;
    destruct (attempt net publisherId profileId type now) as [[t [v|e]|] tr];
    cbn [fst snd] in *;
    try (exists []; rewrite ?fetches_app, Hatt; split_and!; [done|cbn; lia|done]).
  destruct (IH (t + 1000)) as (ts & Hrec & Hlen & Hsp).
  destruct (fetchData net publisherId profileId type retries (t + 1000)) as [p tr'].
  cbn [snd] in *. exists (t + 1000 :: ts).
  rewrite fetches_app, Hatt.
  change (fetches (?a :: ?b :: tr')) with (fetches tr'). rewrite Hrec.
  split_and!; [done|cbn; lia|].
  split; [|exact Hsp]. specialize (Hafter t _ eq_refl). lra.
Qed.

Lemma withTimeout_events (promise : Promise value) (ms : Q) (now : time) :
  Forall (λ te, pipeline_event te.2 = true) (withTimeout promise ms now).2.
Proof.
  unfold withTimeout. destruct (Qle_bool ms 0); [constructor|].
  unfold try_finally, try_catch, await, emit, bind, ret.
  destruct promise as [t [v|e]|]; cbn; [| |by repeat constructor];
    destruct (Qle_bool _ _) eqn:Hle; cbn; rewrite ?Hle; by repeat constructor.
Qed.

Lemma getFloorsConfig_logs (conf : object) (floorsData profileConfigs : value) :
  Forall (λ e, is_LogError e = true) (getFloorsConfig conf floorsData profileConfigs).1.
Proof.
  unfold getFloorsConfig, EffMonad.bind, EffMonad.of_outcome, EffMonad.emit, EffMonad.ret.
  destruct (negb _ || _); [by repeat constructor|].
  destruct (get_prop profileConfigs "plugins") as [plugins|]; [|constructor].
  destruct (negb _ || negb _); [constructor|].
  destruct (get_prop _ "config") as [cfg|]; [|constructor].
  destruct (negb _); [destruct (set_prop _ _ _)|]; constructor.
Qed.

Lemma merge_events_kinds (t : time) (floorsConfig : Eff value) :
  Forall (λ e, is_LogError e = true) floorsConfig.1 →
  Forall (λ te, pipeline_event te.2 = true) (merge_events t floorsConfig).
Proof.
  intros Hlogs. unfold merge_events. rewrite !Forall_app. split_and!.
  - rewrite Forall_fmap. eapply Forall_impl; [exact Hlogs|].
    intros e He. cbn. unfold pipeline_event. rewrite He. by destruct (is_SetTimeout e), (is_ClearTimeout e).
  - destruct floorsConfig.2 as [out|]; [destruct (truthy out)|]; by repeat constructor.
  - by repeat constructor.
Qed.

Lemma merge_pipeline_events (initTime : time)
    (_fetchFloorRulesPromise _fetchConfigPromise : Promise value) (start : time) :
  Forall (λ te, pipeline_event te.2 = true)
    (merge_pipeline h initTime _fetchFloorRulesPromise _fetchConfigPromise start).2.
Proof.
  destruct _fetchConfigPromise as [t [profileConfigs|e]|].
  - rewrite merge_pipeline_fulfilled, merge_step_eq. cbv zeta.
    pose proof (withTimeout_events _fetchFloorRulesPromise
                  (remainingTime
                     (config.getConfig (conf h (Qmax start t)) CONSTANTS.REAL_TIME_MODULE)
                     initTime (Qmax start t)) (Qmax start t)) as Hw.
    destruct (withTimeout _ _ (Qmax start t)) as [[t' [floorsData|e]|] wtr];
      cbn [fst snd] in *; rewrite ?Forall_app; try done.
    + split; [done|]. apply merge_events_kinds, getFloorsConfig_logs.
    + split; [done|]. by repeat constructor.
  - rewrite merge_pipeline_rejected. by repeat constructor.
  - rewrite merge_pipeline_pending. constructor.
Qed.

(** X2. An [init] that accepts its parameters returns true at once, whatever
    the network does later, and the requests it makes are these and no
    others: the floors URL at the instant of the call and at most twice
    more, and the configuration URL at the instant of the call and at most
    twice more; the repeats of either come a second or more apart. *)
Theorem init_requests (config : value) (publisherId profileId : string) (now : time) :
  publisherId_of config = VStr publisherId → publisherId ≠ "" →
  profileId_of config = VStr profileId → profileId ≠ "" →
  utils.isFn (continueAuction h) = true →
  (init h config now).1 = Settles now (Fulfilled true)
  ∧ ∃ floors_again configs_again,
      fetches (init h config now).2
      = ((λ t, (t, url_of publisherId profileId FLOORS)) <$> (now :: floors_again))
        ++ ((λ t, (t, url_of publisherId profileId CONFIGS)) <$> (now :: configs_again))
      ∧ (length floors_again ≤ 2)%nat ∧ (length configs_again ≤ 2)%nat
      ∧ spaced 1000 (now :: floors_again) ∧ spaced 1000 (now :: configs_again).
Proof.
  intros Hpub Hpub' Hprof Hprof' Hfn.
  assert (Hacc : init_accepts h config) by (unfold init_accepts; eauto 10).
  rewrite init_accepts_checks in Hacc. rewrite init_eq, Hacc, Hpub, Hprof.
  cbv zeta. cbn [fst snd str_of]. split; [done|].
  destruct (fetchData_fetches (net h) publisherId profileId FLOORS default_retries now)
    as (tsF & HF & HlenF & HspF).
  destruct (fetchData_fetches (net h) publisherId profileId CONFIGS default_retries now)
    as (tsC & HC & HlenC & HspC).
  exists tsF, tsC. rewrite !fetches_app, HF, HC.
  rewrite (fetches_none (merge_pipeline _ _ _ _ _).2), app_nil_r; [done|].
  eapply Forall_impl; [apply merge_pipeline_events|].
  intros [t e] He. cbn in *. by destruct e.
Qed.

End init_more.

(** X2 on the sample page. *)
Lemma init_requests_witness :
  publisherId_of Page.module_config = VStr "5890" ∧ "5890" ≠ ""
  ∧ profileId_of Page.module_config = VStr "1234" ∧ "1234" ≠ ""
  ∧ utils.isFn (continueAuction Page.host) = true
  ∧ (init Page.host Page.module_config 0%Q).1 = Settles 0%Q (Fulfilled true).
Proof.
  assert (Hpub : publisherId_of Page.module_config = VStr "5890") by (vm_compute; reflexivity).
  assert (Hprof : profileId_of Page.module_config = VStr "1234") by (vm_compute; reflexivity).
  split; [exact Hpub|]. split; [done|]. split; [exact Hprof|]. split; [done|].
  split; [reflexivity|].
  exact (proj1 (init_requests Page.host Page.module_config "5890" "1234" 0%Q
                  Hpub ltac:(done) Hprof ltac:(done) eq_refl)).
Defined.

(* ================================================================== *)
(** * Further properties: the fetch *)
(* ================================================================== *)

Section fetchData_more.
Import AsyncMonad.
Local Open Scope Q_scope.

Variable net : network.
Variables publisherId profileId : string.

Lemma Q_of_nat_S (n : nat) : Q_of_nat (S n) == Q_of_nat n + 1.
Proof.
  unfold Q_of_nat. rewrite Nat2Z.inj_succ. unfold Z.succ.
  by rewrite inject_Z_plus.
Qed.

Lemma fetchData_after_start (type : fetch_type) (retries : nat) (now t : time)
    (r : settled value) :
  (fetchData net publisherId profileId type retries now).1 = Settles t r → now <= t.
Proof.
  revert now. induction retries as [|retries IH]; intros now;
    rewrite fetchData_step;
    pose proof (attempt_after_start net publisherId profileId type now) as Hafter;
    destruct (attempt net publisherId profileId type now) as [[t0 [v|e]|] tr];
    cbn [fst] in *; try discriminate;
    try exact (Hafter t r);
    try (intros H; injection H as Ht _; subst t; by apply (Hafter t0 (Rejected e))).
  specialize (IH (t0 + 1000)). specialize (Hafter t0 _ eq_refl).
  destruct (fetchData net publisherId profileId type retries (t0 + 1000)) as [p tr'].
  cbn [fst] in *. intros H. specialize (IH H). lra.
Qed.

Lemma fetchData_exhausted_time (type : fetch_type) (retries : nat) (now : time) :
  (∀ t, rejects (attempt net publisherId profileId type t).1) →
  ∃ T,
    (fetchData net publisherId profileId type retries now).1 = Settles T (Fulfilled VUndefined)
    ∧ now + 1000 * Q_of_nat retries <= T
    ∧ ∀ d, (∀ t t' r, (attempt net publisherId profileId type t).1 = Settles t' r →
                      t' <= t + d) →
           T <= now + Q_of_nat (S retries) * d + 1000 * Q_of_nat retries.
Proof.
  intros Hfail. revert now. induction retries as [|retries IH]; intros now;
    rewrite fetchData_step;
    pose proof (attempt_after_start net publisherId profileId type now) as Hafter;
    destruct (Hfail now) as (t & e & Hnow);
    destruct (attempt net publisherId profileId type now) as [p tr] eqn:Hatt;
    cbn [fst] in *; subst p; cbn [fst].
  - exists t. specialize (Hafter t _ eq_refl). split; [done|].
    assert (H0 : Q_of_nat 0 == 0) by reflexivity.
    assert (H1 : Q_of_nat 1 == 1) by reflexivity.
    split; [nra|].
    intros d Hd. specialize (Hd now t (Rejected e)). rewrite Hatt in Hd.
    specialize (Hd eq_refl). nra.
  - destruct (IH (t + 1000)) as (T & Hres & Hlow & Hup).
    destruct (fetchData net publisherId profileId type retries (t + 1000)) as [p tr'].
    cbn [fst] in *. exists T. specialize (Hafter t _ eq_refl).
    split; [done|]. split.
    + rewrite Q_of_nat_S. lra.
    + intros d Hd. specialize (Hup d Hd).
      specialize (Hd now t (Rejected e)). rewrite Hatt in Hd. specialize (Hd eq_refl).
      rewrite !Q_of_nat_S in *. nra.
Qed.

(** X3. The timing of [fetchData]. It requests its own URL only, first at
    the instant of the call and then at most [retries] times more, each
    time a second or more after the request before; it never settles before
    the call; and when every attempt fails it resolves to [undefined] no
    sooner than [retries] seconds after the call, and, if no attempt takes
    longer than [d], no later than [retries] seconds and [retries + 1] times
    [d] after the call. *)
Theorem fetchData_backoff (type : fetch_type) (retries : nat) (now : time) :
  (∃ again,
     fetches (fetchData net publisherId profileId type retries now).2
     = (λ t, (t, url_of publisherId profileId type)) <$> (now :: again)
     ∧ (length again ≤ retries)%nat
     ∧ spaced 1000 (now :: again))
  ∧ (∀ t r, (fetchData net publisherId profileId type retries now).1 = Settles t r →
            now <= t)
  ∧ ((∀ t, rejects (attempt net publisherId profileId type t).1) →
     ∃ T,
       (fetchData net publisherId profileId type retries now).1
       = Settles T (Fulfilled VUndefined)
       ∧ now + 1000 * Q_of_nat retries <= T
       ∧ ∀ d, (∀ t t' r, (attempt net publisherId profileId type t).1 = Settles t' r →
                         t' <= t + d) →
              T <= now + Q_of_nat (S retries) * d + 1000 * Q_of_nat retries).
Proof.
  split_and!.
  - apply fetchData_fetches.
  - apply fetchData_after_start.
  - apply fetchData_exhausted_time.
Qed.

Lemma attempt_country (now t : time) (resp : response) :
  net (url_of publisherId profileId FLOORS) now = Settles t (Fulfilled resp) →
  ok resp = true →
  ∃ rest,
    (attempt net publisherId profileId FLOORS now).2
    = (now, Fetch (url_of publisherId profileId FLOORS))
      :: (Qmax now t, SetCountry (country_of (country_code resp))) :: rest
    ∧ count is_SetCountry rest = 0%nat.
Proof.
  intros Hnet Hok. unfold attempt, bind, await_call, await, throw, emit, ret.
  fold (url_of publisherId profileId FLOORS). rewrite Hnet, Hok. cbn.
  destruct (json resp) as [tj rj|]; by eexists.
Qed.

Lemma attempt_no_country (type : fetch_type) (now : time) :
  type = CONFIGS
  ∨ (∀ t resp, net (url_of publisherId profileId type) now = Settles t (Fulfilled resp) →
               ok resp = false) →
  count is_SetCountry (attempt net publisherId profileId type now).2 = 0%nat.
Proof.
  intros H. unfold attempt, bind, await_call, await, throw, emit, ret.
  fold (url_of publisherId profileId type).
  destruct (net _ now) as [t [response|e]|] eqn:Hnet; [|reflexivity..].
  destruct (ok response) eqn:Hok; [|reflexivity].
  destruct H as [-> | H].
  - destruct (json response) as [tj rj|]; reflexivity.
  - specialize (H _ _ eq_refl). congruence.
Qed.

Lemma fetchData_configs_no_country (retries : nat) (now : time) :
  count is_SetCountry (fetchData net publisherId profileId CONFIGS retries now).2 = 0%nat.
Proof.
  revert now. induction retries as [|retries IH]; intros now;
    rewrite fetchData_step;
    pose proof (attempt_no_country CONFIGS now (or_introl eq_refl)) as Hatt;
    destruct (attempt net publisherId profileId CONFIGS now) as [[t [v|e]|] tr];
    cbn [snd] in *; try done.
  - by rewrite count_app, Hatt.
  - specialize (IH (t + 1000)).
    destruct (fetchData net publisherId profileId CONFIGS retries (t + 1000)) as [p tr'].
    cbn [snd] in *. rewrite count_app, Hatt.
    by change (count is_SetCountry (?a :: ?b :: tr')) with (count is_SetCountry tr').
Qed.

(** X4. The country code is a side effect of the floors fetch alone. A
    floors response that is [ok] assigns [_country] from its [country_code]
    header as soon as it arrives, before the body is read: also when the
    body then fails to parse, and with [undefined] when the header is
    missing. A response that is not [ok] assigns nothing, and the
    configuration fetch never assigns it. *)
Theorem fetchData_country (retries : nat) (now : time) :
  (∀ t resp,
     net (url_of publisherId profileId FLOORS) now = Settles t (Fulfilled resp) →
     ok resp = true →
     (Qmax now t, SetCountry (country_of (country_code resp)))
     ∈ (fetchData net publisherId profileId FLOORS retries now).2)
  ∧ (∀ t resp,
       net (url_of publisherId profileId FLOORS) now = Settles t (Fulfilled resp) →
       ok resp = true → country_code resp = None →
       (Qmax now t, SetCountry VUndefined)
       ∈ (fetchData net publisherId profileId FLOORS retries now).2)
  ∧ ((∀ t resp,
        net (url_of publisherId profileId FLOORS) now = Settles t (Fulfilled resp) →
        ok resp = false) →
     count is_SetCountry (attempt net publisherId profileId FLOORS now).2 = 0%nat)
  ∧ count is_SetCountry (fetchData net publisherId profileId CONFIGS retries now).2 = 0%nat.
Proof.
  assert (Hset : ∀ t resp,
            net (url_of publisherId profileId FLOORS) now = Settles t (Fulfilled resp) →
            ok resp = true →
            (Qmax now t, SetCountry (country_of (country_code resp)))
            ∈ (fetchData net publisherId profileId FLOORS retries now).2).
  { intros t resp Hnet Hok.
    destruct (attempt_country now t resp Hnet Hok) as (rest & Hatt & _).
    rewrite fetchData_step.
    destruct (attempt net publisherId profileId FLOORS now) as [[t' [v|e]|] tr];
      cbn [snd] in *; subst tr; try (right; left).
    destruct retries as [|retries'].
    - cbn [snd]. right; left.
    - destruct (fetchData _ _ _ _ retries' _) as [p tr']. cbn [snd]. right; left. }
  split_and!.
  - exact Hset.
  - intros t resp Hnet Hok Hcc. specialize (Hset t resp Hnet Hok). by rewrite Hcc in Hset.
  - intros H. apply attempt_no_country. by right.
  - apply fetchData_configs_no_country.
Qed.

End fetchData_more.

(* ================================================================== *)
(** * Further properties: the country header *)
(* ================================================================== *)

Section country_more.

Lemma append_cons (c : ascii) (a b : string) :
  String c a +:+ b = String c (a +:+ b).
Proof. reflexivity. Qed.

Lemma append_assoc (a b c : string) : (a +:+ b) +:+ c = a +:+ (b +:+ c).
Proof.
  induction a as [|x a IH]; [reflexivity|].
  by rewrite !append_cons, IH.
Qed.

Lemma first_segment_not_comma (s : string) :
  all_chars not_comma (first_segment s) = true.
Proof.
  induction s as [|c s IH]; [reflexivity|].
  cbn [first_segment]. destruct (Ascii.eqb c ",") eqn:Hc; [reflexivity|].
  cbn [all_chars]. unfold not_comma at 1. rewrite Hc. exact IH.
Qed.

Lemma first_segment_app (a rest : string) :
  all_chars not_comma a = true →
  first_segment (a +:+ String "," rest) = a.
Proof.
  induction a as [|c a IH]; [reflexivity|].
  rewrite append_cons. cbn [all_chars first_segment]. unfold not_comma at 1.
  intros [Hc Ha]%andb_true_iff.
  apply negb_true_iff in Hc. rewrite Hc. f_equal. by apply IH.
Qed.

Lemma first_segment_whole (a : string) :
  all_chars not_comma a = true → first_segment a = a.
Proof.
  induction a as [|c a IH]; [reflexivity|].
  cbn [all_chars first_segment]. unfold not_comma at 1.
  intros [Hc Ha]%andb_true_iff.
  apply negb_true_iff in Hc. rewrite Hc. f_equal. by apply IH.
Qed.

Lemma trim_start_all (P : ascii → bool) (s : string) :
  all_chars P s = true → all_chars P (trim_start s) = true.
Proof.
  induction s as [|c s IH]; [done|].
  cbn. intros [Hc Hs]%andb_true_iff. destruct (is_space c); [by apply IH|].
  cbn. by rewrite Hc, Hs.
Qed.

Lemma trim_end_all (P : ascii → bool) (s : string) :
  all_chars P s = true → all_chars P (trim_end s) = true.
Proof.
  induction s as [|c s IH]; [done|].
  cbn. intros [Hc Hs]%andb_true_iff. specialize (IH Hs).
  destruct (trim_end s) as [|c' s'].
  - destruct (is_space c); cbn; by rewrite ?Hc.
  - cbn in *. by rewrite Hc, IH.
Qed.

Lemma trim_start_first (s : string) (c : ascii) :
  first_char (trim_start s) = Some c → is_space c = false.
Proof.
  induction s as [|c0 s IH]; [done|].
  cbn. destruct (is_space c0) eqn:Hc0; [exact IH|].
  cbn. by intros [= <-].
Qed.

Lemma trim_end_first (s : string) (c : ascii) :
  (∀ c0, first_char s = Some c0 → is_space c0 = false) →
  first_char (trim_end s) = Some c → is_space c = false.
Proof.
  destruct s as [|c0 s]; [done|].
  intros Hfirst. specialize (Hfirst c0 eq_refl). cbn.
  destruct (trim_end s); [rewrite Hfirst|]; cbn; by intros [= <-].
Qed.

Lemma trim_end_last (s : string) (c : ascii) :
  last_char (trim_end s) = Some c → is_space c = false.
Proof.
  induction s as [|c0 s IH]; [done|].
  cbn. destruct (trim_end s) as [|c1 s1].
  - destruct (is_space c0) eqn:Hc0; cbn; [done|]. by intros [= <-].
  - exact IH.
Qed.

Lemma trim_trimmed (s : string) : trimmed (trim s).
Proof.
  unfold trimmed, trim. split; intros c.
  - apply trim_end_first. apply trim_start_first.
  - apply trim_end_last.
Qed.

Lemma trim_start_id (s : string) :
  (∀ c, first_char s = Some c → is_space c = false) → trim_start s = s.
Proof.
  destruct s as [|c s]; [done|].
  intros H. cbn. by rewrite (H c eq_refl).
Qed.

Lemma trim_end_id (s : string) :
  (∀ c, last_char s = Some c → is_space c = false) → trim_end s = s.
Proof.
  induction s as [|c s IH]; [done|].
  intros H. cbn. destruct s as [|c' s'].
  - cbn. by rewrite (H c eq_refl).
  - rewrite IH; [done|]. intros c0 Hc0. apply H. exact Hc0.
Qed.

Lemma trim_id (s : string) : trimmed s → trim s = s.
Proof.
  intros [Hfirst Hlast]. unfold trim. rewrite trim_start_id by done. by apply trim_end_id.
Qed.

Lemma all_chars_first (P : ascii → bool) (s : string) (c : ascii) :
  all_chars P s = true → first_char s = Some c → P c = true.
Proof.
  destruct s as [|c0 s]; [done|].
  cbn. intros [Hc _]%andb_true_iff [= <-]. exact Hc.
Qed.

Lemma all_chars_last (P : ascii → bool) (s : string) (c : ascii) :
  all_chars P s = true → last_char s = Some c → P c = true.
Proof.
  induction s as [|c0 s IH]; [done|].
  cbn. intros [Hc Hs]%andb_true_iff. destruct s as [|c1 s1].
  - by intros [= <-].
  - by apply IH.
Qed.

Lemma no_space_trimmed (a : string) :
  all_chars (λ c, negb (is_space c)) a = true → trimmed a.
Proof.
  intros Ha. split; intros c Hc; apply negb_true_iff.
  - exact (all_chars_first (λ c, negb (is_space c)) a c Ha Hc).
  - exact (all_chars_last (λ c, negb (is_space c)) a c Ha Hc).
Qed.

Lemma all_chars_app (P : ascii → bool) (a b : string) :
  all_chars P (a +:+ b) = all_chars P a && all_chars P b.
Proof.
  induction a as [|c a IH]; [reflexivity|].
  rewrite append_cons. cbn [all_chars]. by rewrite IH, andb_assoc.
Qed.

Lemma trim_end_space (a : string) :
  trimmed a → trim_end (a +:+ " ") = a.
Proof.
  intros [_ Hlast]. induction a as [|c a IH]; [reflexivity|].
  rewrite append_cons. cbn [trim_end]. destruct a as [|c' a'].
  - cbn. by rewrite (Hlast c eq_refl).
  - rewrite IH; [done|]. intros c0 Hc0. apply Hlast. exact Hc0.
Qed.

(** X5. How the [country_code] header is read. A missing or empty header
    gives [undefined]. Any other header gives a string, the part before
    the first comma without the white space around it: it holds no comma
    and neither starts nor ends with white space. So a code without commas
    or white space comes out as it is, alone, first in a list, or with
    white space around it; and a header whose first entry is empty gives
    the empty string, not [undefined]. *)
Theorem country_of_header :
  country_of None = VUndefined
  ∧ country_of (Some "") = VUndefined
  ∧ (∀ s, s ≠ "" →
       ∃ c, country_of (Some s) = VStr c ∧ all_chars not_comma c = true ∧ trimmed c)
  ∧ (∀ code rest,
       code ≠ "" →
       all_chars not_comma code = true →
       all_chars (λ c, negb (is_space c)) code = true →
       country_of (Some code) = VStr code
       ∧ country_of (Some (code +:+ String "," rest)) = VStr code
       ∧ country_of (Some (String " " (code +:+ String " " (String "," rest)))) = VStr code)
  ∧ (∀ rest, country_of (Some (String "," rest)) = VStr "").
Proof.
  split_and!; try reflexivity.
  - intros s Hs. unfold country_of.
    destruct (String.eqb_spec s ""); [done|]. cbn [negb].
    eexists. split; [reflexivity|]. split.
    + unfold trim. apply trim_end_all, trim_start_all, first_segment_not_comma.
    + apply trim_trimmed.
  - intros code rest Hcode Hcomma Hspace.
    pose proof (no_space_trimmed code Hspace) as Htrim.
    destruct code as [|c0 code']; [done|].
    split_and!.
    + unfold country_of. cbn [String.eqb negb].
      by rewrite first_segment_whole, trim_id.
    + unfold country_of. rewrite append_cons. cbn [String.eqb negb].
      rewrite <- append_cons.
      by rewrite first_segment_app, trim_id.
    + unfold country_of. cbn [String.eqb negb].
      replace (String " " (String c0 code' +:+ String " " (String "," rest)))
        with ((String " " (String c0 code' +:+ " ")) +:+ String "," rest)
        by (by rewrite (append_cons " "), append_assoc).
      rewrite first_segment_app.
      * f_equal. unfold trim.
        change (trim_start (String " " (String c0 code' +:+ " ")))
          with (trim_start (String c0 code' +:+ " ")).
        rewrite trim_start_id.
        -- apply trim_end_space. exact Htrim.
        -- intros c [= <-]. apply (proj1 Htrim c0 eq_refl).
      * cbn [all_chars]. rewrite all_chars_app, Hcomma. reflexivity.
Qed.

End country_more.

(* ================================================================== *)
(** * Further properties: the browser and UTM signals *)
(* ================================================================== *)

Section signals_more.
Import EffMonad.

Lemma find_first {A} (test : A → bool) (pre post : list A) (x : A) :
  Forall (λ e, test e = false) pre → test x = true →
  List.find test (pre ++ x :: post) = Some x.
Proof.
  intros Hpre Hx. induction Hpre as [|e pre He _ IH]; cbn.
  - by rewrite Hx.
  - by rewrite He.
Qed.

Lemma find_nothing {A} (test : A → bool) (l : list A) :
  Forall (λ e, test e = false) l → List.find test l = None.
Proof.
  induction 1 as [|e l He _ IH]; [reflexivity|]. cbn. by rewrite He.
Qed.

Lemma table_ids_nonzero : Forall (λ entry : string * Z, entry.2 ≠ 0%Z) BROWSER_REGEX_MAP.
Proof. unfold BROWSER_REGEX_MAP. repeat constructor; discriminate. Qed.

Lemma find_browser_first (amb : ambient) (subject : string)
    (pre post : list (string * Z)) (re : string) (id : Z) :
  BROWSER_REGEX_MAP = pre ++ (re, id) :: post →
  Forall (λ entry, RegExp_test amb entry.1 subject = false) pre →
  RegExp_test amb re subject = true →
  find_browser amb subject = Some (re, id) ∧ (id =? 0)%Z = false.
Proof.
  intros Htable Hpre Hre. unfold find_browser. rewrite Htable. split.
  - by apply (find_first (λ entry, RegExp_test amb entry.1 subject)).
  - pose proof table_ids_nonzero as Hids. rewrite Htable in Hids.
    apply Forall_app in Hids as [_ Hids]. apply Forall_cons in Hids as [Hid _].
    by apply Z.eqb_neq.
Qed.

Lemma find_browser_none (amb : ambient) (subject : string) :
  Forall (λ entry, RegExp_test amb entry.1 subject = false) BROWSER_REGEX_MAP →
  find_browser amb subject = None.
Proof. apply find_nothing. Qed.

Lemma brandName_of_brands (props : object) (browsers : list value) (brands : list string)
    (more : object) :
  props !! "browsers" = Some (VArr browsers more) →
  Forall2 (λ b brand, get_prop b "brand" = Ok (VStr brand)) browsers brands →
  brandName_of (VObj props) = Ok (String.concat " " (toLowerCase <$> brands)).
Proof.
  intros Hprops Hbrands.
  assert (Hmap : map_outcome brand_lower browsers = Ok (toLowerCase <$> brands)).
  { clear Hprops. induction Hbrands as [|b brand browsers brands Hb _ IH]; [reflexivity|].
    cbn [map_outcome fmap list_fmap]. unfold brand_lower at 1. by rewrite Hb, IH. }
  unfold brandName_of. cbn [get_opt]. rewrite Hprops. cbn [default nullish id from_option].
  by rewrite Hmap.
Qed.

(** X6. How [getBrowserType] picks the browser, on its first call. The
    brands of the client hints are lower-cased and joined with spaces. The
    first entry of the table whose pattern matches decides, and the brands
    go before the user agent: if an entry matches the brands, its id is the
    result and [navigator] is not read; if the brands are empty or match
    nothing, the first entry matching the user agent decides; and if
    nothing matches that either, the result is ['0']. *)
Theorem getBrowserType_first_match (amb : ambient) (sua : value) (brandName : string) :
  getLowEntropySUA amb = Ok sua →
  brandName_of sua = Ok brandName →
  (∀ props browsers brands more,
     sua = VObj props → props !! "browsers" = Some (VArr browsers more) →
     Forall2 (λ b brand, get_prop b "brand" = Ok (VStr brand)) browsers brands →
     brandName = String.concat " " (toLowerCase <$> brands))
  ∧ (∀ pre re id post,
       brandName ≠ "" →
       BROWSER_REGEX_MAP = pre ++ (re, id) :: post →
       Forall (λ entry, RegExp_test amb entry.1 brandName = false) pre →
       RegExp_test amb re brandName = true →
       (getBrowserType amb None).2 = Ok (pretty id, Some (pretty id)))
  ∧ (∀ navigator userAgent,
       brandName = ""
       ∨ Forall (λ entry, RegExp_test amb entry.1 brandName = false) BROWSER_REGEX_MAP →
       read_navigator amb = Ok navigator → nullish navigator = false →
       read_userAgent amb navigator = Ok (VStr userAgent) → userAgent ≠ "" →
       (∀ pre re id post,
          BROWSER_REGEX_MAP = pre ++ (re, id) :: post →
          Forall (λ entry, RegExp_test amb entry.1 userAgent = false) pre →
          RegExp_test amb re userAgent = true →
          (getBrowserType amb None).2 = Ok (pretty id, Some (pretty id)))
       ∧ (Forall (λ entry, RegExp_test amb entry.1 userAgent = false) BROWSER_REGEX_MAP →
          (getBrowserType amb None).2 = Ok ("0", Some "0"))).
Proof.
  intros Hsua Hbrand. split_and!.
  - intros props browsers brands more -> Hprops Hbrands.
    rewrite (brandName_of_brands props browsers brands more Hprops Hbrands) in Hbrand.
    congruence.
  - intros pre re id post Hne Htable Hpre Hre.
    destruct (find_browser_first amb brandName pre post re id Htable Hpre Hre) as [Hfind Hid].
    unfold getBrowserType, try_catch, bind, of_outcome, ret. rewrite Hsua, Hbrand.
    destruct (String.eqb_spec brandName ""); [done|]. cbn [negb].
    rewrite Hfind. cbn [entry_id]. by rewrite Hid.
  - intros navigator userAgent Hnone Hnav Hnn Hua Hne.
    assert (Hbm : entry_id (if negb (String.eqb brandName "")
                            then find_browser amb brandName else None) = 0%Z).
    { destruct Hnone as [-> | Hnone]; [reflexivity|].
      rewrite (find_browser_none amb brandName Hnone). by destruct (negb _). }
    assert (Htruthy : truthy (VStr userAgent) = true).
    { cbn. by destruct (String.eqb_spec userAgent ""). }
    split.
    + intros pre re id post Htable Hpre Hre.
      destruct (find_browser_first amb userAgent pre post re id Htable Hpre Hre)
        as [Hfind Hid].
      unfold getBrowserType, try_catch, bind, of_outcome, ret.
      rewrite Hsua, Hbrand, Hbm, Hnav, Hnn, Hua, Htruthy. cbn [Z.eqb negb].
      by rewrite Hfind.
    + intros Hnomatch.
      unfold getBrowserType, try_catch, bind, of_outcome, ret.
      rewrite Hsua, Hbrand, Hbm, Hnav, Hnn, Hua, Htruthy. cbn [Z.eqb negb].
      by rewrite (find_browser_none amb userAgent Hnomatch).
Qed.

(** X6 for Firefox without client hints: the twelfth entry is the first to
    match the user agent. *)
Lemma getBrowserType_first_match_witness :
  getLowEntropySUA Browser.firefox = Ok VUndefined
  ∧ brandName_of VUndefined = Ok ""
  ∧ (getBrowserType Browser.firefox None).2 = Ok ("12", Some "12").
Proof.
  split; [reflexivity|]. split; [reflexivity|].
  pose proof (getBrowserType_first_match Browser.firefox VUndefined "" eq_refl eq_refl)
    as (_ & _ & Hua).
  destruct (Hua (VObj ∅)
              "Mozilla/5.0 (X11; Linux x86_64; rv:109.0) Gecko/20100101 Firefox/115.0"
              (or_introl eq_refl) eq_refl eq_refl eq_refl ltac:(discriminate))
    as [Hmatch _].
  apply (Hmatch (take 11 BROWSER_REGEX_MAP) "(firefox)\/([-\w\.]+)" 12%Z []).
  - reflexivity.
  - repeat constructor.
  - reflexivity.
Defined.

Lemma calls_cached (f : ambient → option string → Eff (string * option string))
    (s : string) (ambs : list ambient) :
  (∀ amb, f amb (Some s) = ([], Ok (s, Some s))) →
  calls f (Some s) ambs = replicate (length ambs) (Ok s).
Proof.
  intros Hcached. induction ambs as [|amb ambs IH]; [reflexivity|].
  cbn [calls length replicate]. rewrite Hcached. cbn. by rewrite IH.
Qed.

(** X7. Both signals are computed once. Whatever the browser states of the
    later calls, every call of [getBrowserType], and every call of
    [getUtm], returns what the first call returned; this holds for the
    fallback too, so a first call made while a read throws fixes ['0']. A
    call that finds a cached value reads nothing and logs nothing. *)
Theorem signals_memoized (amb : ambient) (ambs : list ambient) :
  (∃ s, (getBrowserType amb None).2 = Ok (s, Some s)
        ∧ calls getBrowserType None (amb :: ambs) = replicate (S (length ambs)) (Ok s))
  ∧ (∃ s, (getUtm amb None).2 = Ok (s, Some s)
          ∧ calls getUtm None (amb :: ambs) = replicate (S (length ambs)) (Ok s))
  ∧ (∀ e, getLowEntropySUA amb = Throw e →
          calls getBrowserType None (amb :: ambs) = replicate (S (length ambs)) (Ok "0"))
  ∧ (∀ e, read_window amb = Throw e →
          calls getUtm None (amb :: ambs) = replicate (S (length ambs)) (Ok "0"))
  ∧ (∀ amb' s, getBrowserType amb' (Some s) = ([], Ok (s, Some s))
               ∧ getUtm amb' (Some s) = ([], Ok (s, Some s))).
Proof.
  assert (HB : ∃ s, (getBrowserType amb None).2 = Ok (s, Some s)
                    ∧ calls getBrowserType None (amb :: ambs)
                      = replicate (S (length ambs)) (Ok s)).
  { destruct (getBrowserType_fresh amb) as (evs & s & Hs & _). exists s.
    cbn [calls]. rewrite Hs. cbn [snd]. split; [done|].
    cbn [replicate]. f_equal. by apply calls_cached. }
  assert (HU : ∃ s, (getUtm amb None).2 = Ok (s, Some s)
                    ∧ calls getUtm None (amb :: ambs) = replicate (S (length ambs)) (Ok s)).
  { destruct (getUtm_fresh amb) as (evs & s & Hs & _). exists s.
    cbn [calls]. rewrite Hs. cbn [snd]. split; [done|].
    cbn [replicate]. f_equal. by apply calls_cached. }
  split_and!; [exact HB|exact HU| | |done].
  - intros e Hsua. destruct HB as (s & Hs & ->).
    unfold getBrowserType in Hs. rewrite Hsua in Hs. cbn in Hs. congruence.
  - intros e Hw. destruct HU as (s & Hs & ->).
    unfold getUtm in Hs. rewrite Hw in Hs. cbn in Hs. by injection Hs as <- _.
Qed.

Lemma prefix_spec (sub s : string) :
  String.prefix sub s = true ↔ ∃ post, s = sub +:+ post.
Proof.
  revert s. induction sub as [|c sub IH]; intros s.
  - split; [intros _; by exists s|by destruct s].
  - destruct s as [|c' s]; cbn [String.prefix].
    + split; [done|]. intros [post Hpost]. by rewrite append_cons in Hpost.
    + destruct (ascii_dec c c') as [<- | Hne].
      * rewrite IH. split; intros [post Hpost]; exists post.
        -- by rewrite append_cons, Hpost.
        -- rewrite append_cons in Hpost. congruence.
      * split; [done|]. intros [post Hpost]. rewrite append_cons in Hpost. congruence.
Qed.

(** [includes] finds a substring wherever it stands. *)
Lemma includes_spec (s sub : string) :
  includes s sub = true ↔ ∃ pre post, s = pre +:+ sub +:+ post.
Proof.
  induction s as [|c s IH].
  - cbn [includes]. rewrite orb_false_r, prefix_spec. split.
    + intros [post Hpost]. by exists "", post.
    + intros (pre & post & Hpre). destruct pre as [|c pre]; [by exists post|].
      by rewrite append_cons in Hpre.
  - cbn [includes]. rewrite orb_true_iff, prefix_spec, IH. split.
    + intros [[post Hpost] | (pre & post & Hpre)].
      * by exists "", post.
      * exists (String c pre), post. by rewrite append_cons, Hpre.
    + intros (pre & post & Hpre). destruct pre as [|c' pre].
      * left. by exists post.
      * right. rewrite append_cons in Hpre. injection Hpre as _ Hpre. by exists pre, post.
Qed.

(** X8. What [getUtm] looks for, on its first call. When the page address
    can be read and parsed, the result is ['1'] exactly when the serialised
    query parameters hold the text [utm_] somewhere, in a name or in a
    value, and ['0'] otherwise. *)
Theorem getUtm_detects (amb : ambient) (window location href url : value) (query : string) :
  read_window amb = Ok window → nullish window = false →
  read_location amb window = Ok location → nullish location = false →
  read_href amb location = Ok href →
  new_URL amb (or_else href (VStr "")) = Ok url →
  URLSearchParams_toString amb (get_opt url "search") = Ok query →
  ((∃ pre post, query = pre +:+ "utm_" +:+ post) →
     (getUtm amb None).2 = Ok ("1", Some "1"))
  ∧ (¬ (∃ pre post, query = pre +:+ "utm_" +:+ post) →
       (getUtm amb None).2 = Ok ("0", Some "0")).
Proof.
  intros Hw Hnw Hloc Hnl Hhref Hurl Hquery.
  assert (Hrun : (getUtm amb None).2
                 = Ok (if includes query CONSTANTS.UTM then "1" else "0",
                       Some (if includes query CONSTANTS.UTM then "1" else "0"))).
  { unfold getUtm, try_catch, bind, of_outcome, ret.
    rewrite Hw, Hnw, Hloc, Hnl, Hhref, Hurl, Hquery. by destruct (includes _ _). }
  rewrite Hrun. split; intros H.
  - apply includes_spec in H. unfold CONSTANTS.UTM. by rewrite H.
  - destruct (includes query CONSTANTS.UTM) eqn:Hinc; [|done].
    exfalso. apply H. by apply includes_spec.
Qed.

(** X8 on a landing page reached from a newsletter. *)
Lemma getUtm_detects_witness :
  read_window Browser.firefox = Ok (VObj ∅) ∧ nullish (VObj ∅) = false
  ∧ read_location Browser.firefox (VObj ∅) = Ok (VObj ∅)
  ∧ read_href Browser.firefox (VObj ∅)
    = Ok (VStr "https://example.com/article?id=7&utm_source=newsletter")
  ∧ new_URL Browser.firefox
      (or_else (VStr "https://example.com/article?id=7&utm_source=newsletter") (VStr ""))
    = Ok (VObj {[ "search" := VStr "?id=7&utm_source=newsletter" ]})
  ∧ URLSearchParams_toString Browser.firefox
      (get_opt (VObj {[ "search" := VStr "?id=7&utm_source=newsletter" ]}) "search")
    = Ok "id=7&utm_source=newsletter"
  ∧ (∃ pre post, "id=7&utm_source=newsletter" = pre +:+ "utm_" +:+ post)
  ∧ (getUtm Browser.firefox None).2 = Ok ("1", Some "1").
Proof.
  assert (Hsub : ∃ pre post, "id=7&utm_source=newsletter" = pre +:+ "utm_" +:+ post)
    by (by exists "id=7&", "source=newsletter").
  do 6 (split; [reflexivity|]). split; [exact Hsub|].
  exact (proj1 (getUtm_detects Browser.firefox (VObj ∅) (VObj ∅)
                  (VStr "https://example.com/article?id=7&utm_source=newsletter")
                  (VObj {[ "search" := VStr "?id=7&utm_source=newsletter" ]})
                  "id=7&utm_source=newsletter"
                  eq_refl eq_refl eq_refl eq_refl eq_refl eq_refl eq_refl) Hsub).
Defined.

End signals_more.

(* ================================================================== *)
(** * Further properties: the timeout race *)
(* ================================================================== *)

Section withTimeout_more.
Import AsyncMonad.
Local Open Scope Q_scope.

Variable promise : Promise value.
Variable ms : Q.
Variable now : time.

(** The events of a call that arms the timer. *)
Lemma withTimeout_armed_events :
  0 < ms →
  (withTimeout promise ms now).2 =
    (now, SetTimeout ms)
    :: match promise with
       | Settles t r =>
           (Qmax now t, ClearTimeout)
           :: match r with
              | Rejected _ =>
                  if Qle_bool (Qmax now t) (now + setTimeout_delay ms)
                  then [(Qmax now (Qmax now t),
                         LogError (CONSTANTS.LOG_PRE_FIX +:+ " Timeout error:"))]
                  else []
              | Fulfilled _ => []
              end
       | Never => []
       end.
Proof.
  intros Hms. unfold withTimeout, timeout_promise. rewrite Qle_bool_false by done.
  generalize (setTimeout_delay ms). intros delay.
  unfold try_finally, try_catch, await, emit, bind, ret.
  destruct promise as [t [v|e]|]; cbn; [| |reflexivity];
    destruct (Qle_bool _ _) eqn:Hle; cbn; rewrite ?Hle; reflexivity.
Qed.



End withTimeout_more.


(* ================================================================== *)
(** * Further properties: the merge pipeline *)
(* ================================================================== *)

Section pipeline_more.
Import AsyncMonad.
Local Open Scope Q_scope.

Lemma withTimeout_deadline (promise : Promise value) (ms : Q) (now : time) :
  0 < ms →
  ∃ t' v, (withTimeout promise ms now).1 = Settles t' (Fulfilled v)
          ∧ now <= t' ∧ t' <= now + ms.
Proof.
  intros Hms. rewrite withTimeout_armed by done.
  destruct (setTimeout_delay_bounds ms Hms) as [Hlo Hhi].
  revert Hlo Hhi. generalize (setTimeout_delay ms). intros delay Hlo Hhi.
  destruct promise as [t r|].
  - destruct (Qle_bool (Qmax now t) (now + delay)) eqn:Hle.
    + apply Qle_bool_iff in Hle.
      exists (Qmax now (Qmax now t)),
        (match r with Fulfilled v => v | Rejected _ => VUndefined end).
      split; [by destruct r|]. split; qmax.
    + eexists _, _. split; [reflexivity|]. split; qmax.
  - eexists _, _. split; [reflexivity|]. split; qmax.
Qed.

(** A value that comes out of [withTimeout] is [undefined] or the value of
    the wrapped promise. *)
Lemma withTimeout_value (promise : Promise value) (ms : Q) (now t' : time) (v : value) :
  (withTimeout promise ms now).1 = Settles t' (Fulfilled v) →
  v = VUndefined ∨ ∃ t, promise = Settles t (Fulfilled v).
Proof.
  destruct (Qlt_le_dec 0 ms) as [Hms|Hms].
  - rewrite withTimeout_armed by done.
    destruct promise as [t [v0|e]|]; [| |intros [= _ <-]; by left];
      destruct (Qle_bool _ _); intros [= _ <-]; eauto.
  - unfold withTimeout. rewrite Qle_bool_true by done. cbn [fst]. intros ->. eauto.
Qed.

(** A positive ceiling ends 0.8 times the auction delay after [init]. *)
Lemma remainingTime_deadline (conf_realTimeData : value) (initTime now : time) :
  0 < remainingTime conf_realTimeData initTime now →
  now + remainingTime conf_realTimeData initTime now
  == initTime + Qmax ((8 # 10) * auctionDelay_of conf_realTimeData) 0.
Proof.
  unfold remainingTime. fold (auctionDelay_of conf_realTimeData).
  generalize (Qmax ((8 # 10) * auctionDelay_of conf_realTimeData) 0).
  intros w Hpos. qmax.
Qed.

Variable h : host.
Variable initTime : time.
Variable _fetchFloorRulesPromise : Promise value.

(** The merge step ends when the race it starts ends. *)
Lemma merge_step_result (profileConfigs : value) (now : time) :
  let ceiling :=
    remainingTime (config.getConfig (conf h now) CONSTANTS.REAL_TIME_MODULE) initTime now in
  (merge_step h initTime _fetchFloorRulesPromise profileConfigs now).1 =
    match (withTimeout _fetchFloorRulesPromise ceiling now).1 with
    | Settles t _ => Settles (Qmax now t) (Fulfilled tt)
    | Never => Never
    end.
Proof.
  rewrite merge_step_eq. cbv zeta.
  by destruct (withTimeout _ _ now).1 as [t [floorsData|e]|].
Qed.

(** X11. How long the merge holds the gate, once the profile configuration
    has arrived at [now]. With a positive ceiling the gate opens within the
    ceiling, whatever the floor rules do, so no later than 0.8 times the
    auction delay after [init]. With a ceiling of zero (no auction delay
    configured, or the configuration arrived after 0.8 times the delay)
    there is no bound: the gate opens when the fetch of the floor rules
    settles, and stays closed if that never happens. *)
Theorem merge_gate_deadline (t : time) (profileConfigs : value) (start : time) :
  let now := Qmax start t in
  let realTimeData := config.getConfig (conf h now) CONSTANTS.REAL_TIME_MODULE in
  let ceiling := remainingTime realTimeData initTime now in
  let run := merge_pipeline h initTime _fetchFloorRulesPromise
               (Settles t (Fulfilled profileConfigs)) start in
  (0 < ceiling →
     ∃ T, run.1 = Settles T (Fulfilled tt)
          ∧ configMergedPromise run.2 = Settles T (Fulfilled tt)
          ∧ now <= T ∧ T <= now + ceiling
          ∧ T <= initTime + Qmax ((8 # 10) * auctionDelay_of realTimeData) 0)
  ∧ (ceiling == 0 →
       (∀ tF r, _fetchFloorRulesPromise = Settles tF r →
          run.1 = Settles (Qmax now tF) (Fulfilled tt)
          ∧ configMergedPromise run.2 = Settles (Qmax now tF) (Fulfilled tt))
       ∧ (_fetchFloorRulesPromise = Never →
            run = (Never, []) ∧ configMergedPromise run.2 = Never)).
Proof.
  intros now realTimeData ceiling run.
  pose proof (merge_pipeline_gate h initTime _fetchFloorRulesPromise
                (Settles t (Fulfilled profileConfigs)) start) as Hgate.
  cbv zeta in Hgate. fold run in Hgate.
  assert (Hrun : run.1 = match (withTimeout _fetchFloorRulesPromise ceiling now).1 with
                         | Settles t' _ => Settles (Qmax now t') (Fulfilled tt)
                         | Never => Never
                         end).
  { unfold run. rewrite merge_pipeline_fulfilled. apply merge_step_result. }
  split.
  - intros Hpos.
    destruct (withTimeout_deadline _fetchFloorRulesPromise ceiling now Hpos)
      as (t' & v & Hw & Hlo & Hhi).
    rewrite Hw in Hrun. rewrite Hrun in Hgate. destruct Hgate as [Hopen _].
    pose proof (remainingTime_deadline realTimeData initTime now Hpos) as Hceil.
    fold ceiling in Hceil. clearbody run ceiling realTimeData now.
    exists (Qmax now t'). split_and!; [done|done| | |].
    1, 2: qmax.
    revert Hceil. generalize (Qmax ((8 # 10) * auctionDelay_of realTimeData) 0).
    intros w Hceil. qmax.
  - intros Hzero.
    assert (Hoff : withTimeout _fetchFloorRulesPromise ceiling now
                   = (_fetchFloorRulesPromise, [])).
    { unfold withTimeout. rewrite Qle_bool_true; [done|]. by rewrite Hzero. }
    split.
    + intros tF r Hp. rewrite Hoff, Hp in Hrun. cbn [fst] in Hrun.
      rewrite Hrun in Hgate. destruct Hgate as [Hopen _].
      done.
    + intros Hp. split;
        [|rewrite Hoff, Hp in Hrun; cbn [fst] in Hrun; rewrite Hrun in Hgate;
          by destruct Hgate].
      unfold run. rewrite merge_pipeline_fulfilled, merge_step_eq. cbv zeta.
      fold now. fold realTimeData. fold ceiling. by rewrite Hoff, Hp.
Qed.

Lemma withTimeout_no_setConfig (promise : Promise value) (ms : Q) (now : time) :
  Forall (λ te, is_SetConfig te.2 = false) (withTimeout promise ms now).2.
Proof.
  unfold withTimeout. destruct (Qle_bool ms 0); [constructor|].
  unfold try_finally, try_catch, await, emit, bind, ret.
  destruct promise as [t [v|e]|]; cbn; [| |by repeat constructor];
    destruct (Qle_bool _ _) eqn:Hle; cbn; rewrite ?Hle; by repeat constructor.
Qed.

Lemma no_setConfig_elem (tr : trace) (T : time) (cfg : value) :
  Forall (λ te, is_SetConfig te.2 = false) tr → (T, SetConfig cfg) ∉ tr.
Proof.
  intros Hall Hin. rewrite Forall_forall in Hall. by specialize (Hall _ Hin).
Qed.

(** What the end of the merge step hands to [setConfig]. *)
Lemma merge_events_setConfig (T : time) (floorsConfig : Eff value) :
  Forall (λ e, is_LogError e = true) floorsConfig.1 →
  (count is_SetConfig (merge_events T floorsConfig) <= 1)%nat
  ∧ (∀ T' cfg, (T', SetConfig cfg) ∈ merge_events T floorsConfig →
       T' = T ∧ floorsConfig.2 = Ok cfg ∧ truthy cfg = true)
  ∧ (∀ cfg, floorsConfig.2 = Ok cfg → truthy cfg = true →
       (T, SetConfig cfg) ∈ merge_events T floorsConfig)
  ∧ (T, ConfigMerged) ∈ merge_events T floorsConfig
  ∧ (∀ t e, (t, e) ∈ merge_events T floorsConfig → t = T).
Proof.
  intros Hlogs. unfold merge_events.
  assert (Hnone : Forall (λ te : time * event, is_SetConfig te.2 = false)
                    ((λ e, (T, e)) <$> floorsConfig.1)).
  { rewrite Forall_fmap. eapply Forall_impl; [exact Hlogs|].
    intros e He. cbn. by destruct e. }
  split_and!.
  - rewrite !count_app, (count_none _ _ Hnone).
    destruct floorsConfig.2 as [out|e]; [destruct (truthy out)|]; cbn; lia.
  - intros T' cfg Hin. rewrite !elem_of_app in Hin.
    destruct Hin as [Hin|[Hin|Hin]].
    + by destruct (no_setConfig_elem _ _ _ Hnone Hin).
    + destruct floorsConfig.2 as [out|e]; [destruct (truthy out) eqn:Hout|].
      * rewrite list_elem_of_singleton in Hin. by injection Hin as -> ->.
      * by rewrite elem_of_nil in Hin.
      * rewrite list_elem_of_singleton in Hin. discriminate.
    + rewrite list_elem_of_singleton in Hin. discriminate.
  - intros cfg -> ->. rewrite !elem_of_app, list_elem_of_singleton. auto.
  - rewrite !elem_of_app, list_elem_of_singleton. auto.
  - intros t e Hin. rewrite !elem_of_app in Hin.
    destruct Hin as [Hin|[Hin|Hin]].
    + rewrite list_elem_of_fmap in Hin. destruct Hin as (e' & Heq & _). congruence.
    + destruct floorsConfig.2 as [out|e0]; [destruct (truthy out)|].
      * rewrite list_elem_of_singleton in Hin. congruence.
      * by rewrite elem_of_nil in Hin.
      * rewrite list_elem_of_singleton in Hin. congruence.
    + rewrite list_elem_of_singleton in Hin. congruence.
Qed.

(** Whatever the race does before its result is known is done by then:
    only clearing the timer can come later. *)
Lemma withTimeout_event_times (promise : Promise value) (ms : Q) (now : time) :
  ∀ t' r, (withTimeout promise ms now).1 = Settles t' r →
    ∀ t e, (t, e) ∈ (withTimeout promise ms now).2 → is_ClearTimeout e = false →
      t <= Qmax now t'.
Proof.
  intros t' r Hrun t e Hin Hkind.
  destruct (Qlt_le_dec 0 ms) as [Hms|Hms].
  - rewrite withTimeout_armed in Hrun by done.
    rewrite withTimeout_armed_events in Hin by done.
    revert Hrun Hin. generalize (setTimeout_delay ms). intros delay Hrun Hin.
    rewrite elem_of_cons in Hin. destruct Hin as [[= -> ->]|Hin]; [qmax|].
    destruct promise as [tF [v|e0]|].
    + rewrite elem_of_cons, elem_of_nil in Hin.
      destruct Hin as [[= -> ->]|[]]. discriminate.
    + rewrite elem_of_cons in Hin. destruct Hin as [[= -> ->]|Hin]; [discriminate|].
      destruct (Qle_bool _ _); [|by rewrite elem_of_nil in Hin].
      rewrite list_elem_of_singleton in Hin. injection Hin as -> ->.
      injection Hrun as <- _. qmax.
    + by rewrite elem_of_nil in Hin.
  - unfold withTimeout in Hin. rewrite Qle_bool_true in Hin by done.
    by rewrite elem_of_nil in Hin.
Qed.

(** X12. What the merge pipeline writes to the process-wide configuration.
    A run calls [setConfig] at most once. What it writes is what
    [getFloorsConfig] returned, a [floors] block and nothing else, computed
    from the profile configuration that was fetched and from the floor
    rules that were fetched, or from [undefined] in their place. The call
    comes at the instant the gate opens, and so does everything else the
    pipeline does, or earlier: only the [clearTimeout] of floor rules that
    settle after the race was decided can come later. *)
Theorem merge_pipeline_setConfig (_fetchConfigPromise : Promise value) (start : time) :
  let run := merge_pipeline h initTime _fetchFloorRulesPromise _fetchConfigPromise start in
  (count is_SetConfig run.2 <= 1)%nat
  ∧ (∀ T cfg, (T, SetConfig cfg) ∈ run.2 →
       run.1 = Settles T (Fulfilled tt)
       ∧ ∃ t profileConfigs floorsData data,
           _fetchConfigPromise = Settles t (Fulfilled profileConfigs)
           ∧ (floorsData = VUndefined
              ∨ ∃ tF, _fetchFloorRulesPromise = Settles tF (Fulfilled floorsData))
           ∧ (getFloorsConfig (conf h T) floorsData profileConfigs).2 = Ok cfg
           ∧ cfg = merged (conf h T) profileConfigs data)
  ∧ (∀ T, run.1 = Settles T (Fulfilled tt) →
       (T, ConfigMerged) ∈ run.2
       ∧ ∀ t e, (t, e) ∈ run.2 → is_ClearTimeout e = false → t <= T).
Proof.
  cbv zeta. destruct _fetchConfigPromise as [t [profileConfigs|e]|].
  - rewrite merge_pipeline_fulfilled, merge_step_eq. cbv zeta.
    set (now := Qmax start t).
    set (ceiling := remainingTime _ initTime now).
    pose proof (withTimeout_no_setConfig _fetchFloorRulesPromise ceiling now) as Hns.
    pose proof (withTimeout_value _fetchFloorRulesPromise ceiling now) as Hv.
    pose proof (withTimeout_event_times _fetchFloorRulesPromise ceiling now) as Htimes.
    destruct (withTimeout _fetchFloorRulesPromise ceiling now) as [[t' [floorsData|e]|] wtr];
      cbn [fst snd] in *.
    + destruct (merge_events_setConfig (Qmax now t')
                  (getFloorsConfig (conf h (Qmax now t')) floorsData profileConfigs)
                  (getFloorsConfig_logs _ _ _)) as (Hcount & Hin & _ & Hopen & Hat).
      split_and!.
      * rewrite count_app, (count_none _ _ Hns). exact Hcount.
      * intros T cfg Hmem. rewrite elem_of_app in Hmem.
        destruct Hmem as [Hmem|Hmem]; [by destruct (no_setConfig_elem _ _ _ Hns Hmem)|].
        destruct (Hin _ _ Hmem) as (-> & Hcfg & Htruthy). split; [done|].
        destruct (getFloorsConfig_returns _ _ _ _ Hcfg) as [-> | (data & -> & _)];
          [discriminate|].
        exists t, profileConfigs, floorsData, data. split_and!; try done.
        exact (Hv t' floorsData eq_refl).
      * intros T [= <-]. split; [rewrite elem_of_app; by right|].
        intros t0 e0 Hmem Hkind. rewrite elem_of_app in Hmem.
        destruct Hmem as [Hmem|Hmem]; [exact (Htimes _ _ eq_refl _ _ Hmem Hkind)|].
        rewrite (Hat _ _ Hmem). lra.
    + split_and!.
      * rewrite count_app, (count_none _ _ Hns). cbn. lia.
      * intros T cfg Hmem. rewrite elem_of_app in Hmem.
        destruct Hmem as [Hmem|Hmem]; [by destruct (no_setConfig_elem _ _ _ Hns Hmem)|].
        rewrite !elem_of_cons, elem_of_nil in Hmem. by destruct Hmem as [?|[?|?]].
      * intros T [= <-]. split; [rewrite elem_of_app, !elem_of_cons; auto|].
        intros t0 e0 Hmem Hkind. rewrite elem_of_app in Hmem.
        destruct Hmem as [Hmem|Hmem]; [exact (Htimes _ _ eq_refl _ _ Hmem Hkind)|].
        rewrite !elem_of_cons, elem_of_nil in Hmem.
        destruct Hmem as [[= -> _]|[[= -> _]|[]]]; lra.
    + split_and!.
      * rewrite (count_none _ _ Hns). lia.
      * intros T cfg Hmem. by destruct (no_setConfig_elem _ _ _ Hns Hmem).
      * discriminate.
  - rewrite merge_pipeline_rejected. cbn [fst snd]. split_and!.
    + cbn. lia.
    + intros T cfg Hmem. rewrite !elem_of_cons, elem_of_nil in Hmem.
      by destruct Hmem as [?|[?|?]].
    + intros T [= <-]. split; [rewrite !elem_of_cons; auto|].
      intros t0 e0 Hmem _. rewrite !elem_of_cons, elem_of_nil in Hmem.
      destruct Hmem as [[= -> _]|[[= -> _]|[]]]; lra.
  - rewrite merge_pipeline_pending. cbn [fst snd]. split_and!.
    + cbn. lia.
    + intros T cfg Hmem. by rewrite elem_of_nil in Hmem.
    + discriminate.
Qed.

End pipeline_more.

(* ================================================================== *)
(** * Further properties: the merge without floor rules *)
(* ================================================================== *)

Section getFloorsConfig_more.

Variable conf : object.
Variables floorsData profileConfigs : value.

Lemma defaultValueTemplate_keys (k : string) :
  k ≠ "currency" → k ≠ "skipRate" → k ≠ "schema" → defaultValueTemplate !! k = None.
Proof.
  intros H1 H2 H3. unfold defaultValueTemplate.
  by rewrite !lookup_insert_ne, lookup_singleton_ne.
Qed.

(** The default that stands in for floor rules that are missing. *)
Lemma getFloorsConfig_fallback :
  utils.isPlainObject profileConfigs = true →
  utils.isEmpty profileConfigs = false →
  truthy (get_opt (plugin_of profileConfigs) "enabled") = true →
  truthy (get_opt (plugin_of profileConfigs) "config") = true →
  nullish floorsData = true →
  ∃ data,
    (getFloorsConfig conf floorsData profileConfigs).2
    = Ok (merged conf profileConfigs (VObj data))
    ∧ data !! "currency" = Some (VStr "USD")
    ∧ data !! "schema"
      = Some (VObj {[ "fields" := VArr [VStr "mediaType"; VStr "size"] ∅ ]})
    ∧ data !! "values" = Some (VObj (spread_props (plugin_defaultValues profileConfigs)))
    ∧ data !! "skipRate"
      = Some (if is_undefined (plugin_skipRate profileConfigs)
              then VNum 0 else plugin_skipRate profileConfigs)
    ∧ (∀ k, k ≠ "currency" → k ≠ "schema" → k ≠ "values" → k ≠ "skipRate" →
         data !! k = None).
Proof.
  intros Hplain Hempty Hen Hcfg Hnull. rewrite getFloorsConfig_enabled by done.
  assert (Hbase : base_floorsData floorsData profileConfigs
                  = VObj (<["values" := VObj (spread_props (plugin_defaultValues profileConfigs))]>
                            defaultValueTemplate)).
  { unfold base_floorsData, coalesce at 1. by rewrite Hnull. }
  rewrite Hbase.
  destruct (is_undefined (plugin_skipRate profileConfigs)); cbn [set_prop];
    (eexists; split; [reflexivity|]); split_and!.
  - by rewrite lookup_insert_ne.
  - by rewrite lookup_insert_ne.
  - by rewrite lookup_insert_eq.
  - by rewrite lookup_insert_ne.
  - intros k H1 H2 H3 H4. rewrite lookup_insert_ne by done.
    by apply defaultValueTemplate_keys.
  - by rewrite !lookup_insert_ne.
  - by rewrite !lookup_insert_ne.
  - by rewrite lookup_insert_ne, lookup_insert_eq.
  - by rewrite lookup_insert_eq.
  - intros k H1 H2 H3 H4. rewrite !lookup_insert_ne by done.
    by apply defaultValueTemplate_keys.
Qed.

(** X13. The merge without fetched floor rules. With a usable profile and
    an enabled plugin, floor rules that are [undefined] or [null] (the
    fetch failed or came too late) are replaced by a default: currency USD,
    the schema fields [mediaType] and [size], a copy of the plugin's
    [defaultValues] as [values] (none if it has none), and the plugin's
    [skipRate] if it is defined, else 0; nothing else. Floor rules of any
    other kind are used as they are; if that is a primitive (a number, a
    string or a boolean) and the plugin defines a [skipRate], the merge
    throws. *)
Theorem getFloorsConfig_defaults :
  utils.isPlainObject profileConfigs = true →
  utils.isEmpty profileConfigs = false →
  truthy (get_opt (plugin_of profileConfigs) "enabled") = true →
  truthy (get_opt (plugin_of profileConfigs) "config") = true →
  (nullish floorsData = true →
     ∃ data,
       (getFloorsConfig conf floorsData profileConfigs).2
       = Ok (merged conf profileConfigs (VObj data))
       ∧ data !! "currency" = Some (VStr "USD")
       ∧ data !! "schema"
         = Some (VObj {[ "fields" := VArr [VStr "mediaType"; VStr "size"] ∅ ]})
       ∧ data !! "values" = Some (VObj (spread_props (plugin_defaultValues profileConfigs)))
       ∧ data !! "skipRate"
         = Some (if is_undefined (plugin_skipRate profileConfigs)
                 then VNum 0 else plugin_skipRate profileConfigs)
       ∧ (∀ k, k ≠ "currency" → k ≠ "schema" → k ≠ "values" → k ≠ "skipRate" →
            data !! k = None))
  ∧ (nullish floorsData = false →
       (is_undefined (plugin_skipRate profileConfigs) = true →
          (getFloorsConfig conf floorsData profileConfigs).2
          = Ok (merged conf profileConfigs floorsData))
       ∧ (is_undefined (plugin_skipRate profileConfigs) = false →
          is_object floorsData = false →
          ∃ e, (getFloorsConfig conf floorsData profileConfigs).2 = Throw e)).
Proof.
  intros Hplain Hempty Hen Hcfg. split.
  - by apply getFloorsConfig_fallback.
  - intros Hnull. rewrite getFloorsConfig_enabled by done.
    assert (Hbase : base_floorsData floorsData profileConfigs = floorsData).
    { unfold base_floorsData, coalesce. by rewrite Hnull. }
    rewrite Hbase. split.
    + by intros ->.
    + intros -> Hobj. destruct floorsData; try discriminate; cbn [set_prop]; eauto.
Qed.

End getFloorsConfig_more.

(** X13 on the sample profile, for floor rules that did not arrive. *)
Lemma getFloorsConfig_defaults_witness :
  utils.isPlainObject (Samples.profile Samples.plugin_config) = true
  ∧ utils.isEmpty (Samples.profile Samples.plugin_config) = false
  ∧ nullish VUndefined = true
  ∧ ∃ data,
      (getFloorsConfig Samples.page_conf VUndefined (Samples.profile Samples.plugin_config)).2
      = Ok (merged Samples.page_conf (Samples.profile Samples.plugin_config) (VObj data))
      ∧ data !! "values" = Some (VObj {[ "*|*" := VNum (1 # 2) ]})
      ∧ data !! "skipRate" = Some (VNum 25).
Proof.
  split; [reflexivity|]. split; [reflexivity|]. split; [reflexivity|].
  destruct (getFloorsConfig_defaults Samples.page_conf VUndefined
              (Samples.profile Samples.plugin_config)
              eq_refl eq_refl eq_refl eq_refl) as [Hdefault _].
  destruct (Hdefault eq_refl) as (data & Hrun & _ & _ & Hvalues & Hskip & _).
  exists data. split; [exact Hrun|]. split; [exact Hvalues|exact Hskip].
Defined.

Section fallback_more.
Import AsyncMonad.
Local Open Scope Q_scope.

Lemma withTimeout_gives_up (promise : Promise value) (ms : Q) (now : time) :
  0 < ms →
  promise = Never
  ∨ (∃ t r, promise = Settles t r ∧ now + ms < t)
  ∨ (∃ t e, promise = Settles t (Rejected e)) →
  ∃ t', (withTimeout promise ms now).1 = Settles t' (Fulfilled VUndefined)
        ∧ now <= t' ∧ t' <= now + ms.
Proof.
  intros Hms Hcase.
  destruct (withTimeout_deadline promise ms now Hms) as (t' & v & Hw & Hlo & Hhi).
  exists t'. split; [|done]. rewrite Hw. do 2 f_equal.
  rewrite withTimeout_armed in Hw by done.
  destruct (setTimeout_delay_bounds ms Hms) as [_ Hdelay].
  revert Hw Hdelay. generalize (setTimeout_delay ms). intros delay Hw Hdelay.
  destruct Hcase as [-> | [(t & r & -> & Hlate) | (t & e & ->)]].
  - by injection Hw as _ <-.
  - rewrite Qle_bool_false in Hw by qmax. by injection Hw as _ <-.
  - destruct (Qle_bool _ _); by injection Hw as _ <-.
Qed.

Variable h : host.
Variable initTime : time.
Variable _fetchFloorRulesPromise : Promise value.

(** X14. Floor rules that fail or come too late do not cost the page its
    floors. Once a usable profile configuration with the plugin enabled
    has arrived and the ceiling is positive, floor rules that stay
    pending, that settle after the ceiling, or whose fetch rejects, lead
    to one [setConfig] within the ceiling, at the instant the gate opens:
    it installs the [floors] block built on the default floor data, with
    the plugin's [defaultValues] as its values. *)
Theorem merge_falls_back (t : time) (profileConfigs : value) (start : time) :
  let now := Qmax start t in
  let ceiling :=
    remainingTime (config.getConfig (conf h now) CONSTANTS.REAL_TIME_MODULE) initTime now in
  let run := merge_pipeline h initTime _fetchFloorRulesPromise
               (Settles t (Fulfilled profileConfigs)) start in
  utils.isPlainObject profileConfigs = true →
  utils.isEmpty profileConfigs = false →
  truthy (get_opt (plugin_of profileConfigs) "enabled") = true →
  truthy (get_opt (plugin_of profileConfigs) "config") = true →
  0 < ceiling →
  _fetchFloorRulesPromise = Never
  ∨ (∃ tF r, _fetchFloorRulesPromise = Settles tF r ∧ now + ceiling < tF)
  ∨ (∃ tF e, _fetchFloorRulesPromise = Settles tF (Rejected e)) →
  ∃ T data,
    (T, SetConfig (merged (conf h T) profileConfigs (VObj data))) ∈ run.2
    ∧ count is_SetConfig run.2 = 1%nat
    ∧ configMergedPromise run.2 = Settles T (Fulfilled tt)
    ∧ now <= T ∧ T <= now + ceiling
    ∧ data !! "currency" = Some (VStr "USD")
    ∧ data !! "values" = Some (VObj (spread_props (plugin_defaultValues profileConfigs))).
Proof.
  intros now ceiling run Hplain Hempty Hen Hcfg Hpos Hcase.
  destruct (withTimeout_gives_up _fetchFloorRulesPromise ceiling now Hpos Hcase)
    as (t' & Hw & Hlo & Hhi).
  pose proof (merge_pipeline_gate h initTime _fetchFloorRulesPromise
                (Settles t (Fulfilled profileConfigs)) start) as Hgate.
  cbv zeta in Hgate. fold run in Hgate.
  pose proof (withTimeout_no_setConfig _fetchFloorRulesPromise ceiling now) as Hns.
  assert (Hrun : run = (Settles (Qmax now t') (Fulfilled tt),
                        (withTimeout _fetchFloorRulesPromise ceiling now).2
                        ++ merge_events (Qmax now t')
                             (getFloorsConfig (conf h (Qmax now t')) VUndefined profileConfigs))).
  { unfold run. rewrite merge_pipeline_fulfilled, merge_step_eq. cbv zeta.
    fold now. fold ceiling. by rewrite Hw. }
  destruct (getFloorsConfig_fallback (conf h (Qmax now t')) VUndefined profileConfigs
              Hplain Hempty Hen Hcfg eq_refl)
    as (data & Hdata & Hcur & _ & Hvalues & _).
  destruct (merge_events_setConfig (Qmax now t')
              (getFloorsConfig (conf h (Qmax now t')) VUndefined profileConfigs)
              (getFloorsConfig_logs _ _ _)) as (Hcount & _ & Hin & _ & _).
  specialize (Hin _ Hdata eq_refl).
  rewrite Hrun in Hgate |- *. cbn [fst snd] in Hgate |- *. destruct Hgate as [Hopen _].
  exists (Qmax now t'), data. split_and!.
  - rewrite elem_of_app. by right.
  - rewrite count_app, (count_none _ _ Hns).
    assert (1 <= count is_SetConfig
                   (merge_events (Qmax now t')
                      (getFloorsConfig (conf h (Qmax now t')) VUndefined profileConfigs)))%nat;
      [|lia].
    unfold merge_events. rewrite Hdata, !count_app. cbn. lia.
  - exact Hopen.
  - clearbody run ceiling now. qmax.
  - clearbody run ceiling now. qmax.
  - exact Hcur.
  - exact Hvalues.
Qed.

End fallback_more.

(** X14 on the sample page, for floor rules that never arrive. *)
Lemma merge_falls_back_witness :
  (0 < remainingTime (config.getConfig (conf Page.host (Qmax 0 100)) CONSTANTS.REAL_TIME_MODULE)
         0 (Qmax 0 100))%Q
  ∧ ∃ T data,
      (T, SetConfig (merged (conf Page.host T) (Samples.profile Samples.plugin_config)
                       (VObj data)))
      ∈ (merge_pipeline Page.host 0%Q Never
           (Settles 100%Q (Fulfilled (Samples.profile Samples.plugin_config))) 0%Q).2
      ∧ (T <= 800)%Q
      ∧ data !! "values" = Some (VObj {[ "*|*" := VNum (1 # 2) ]}).
Proof.
  split; [reflexivity|].
  destruct (merge_falls_back Page.host 0%Q Never 100%Q
              (Samples.profile Samples.plugin_config) 0%Q
              eq_refl eq_refl eq_refl eq_refl eq_refl (or_introl eq_refl))
    as (T & data & Hin & _ & _ & _ & Hhi & _ & Hvalues).
  exists T, data. split; [exact Hin|]. split; [|exact Hvalues].
  eapply Qle_trans; [exact Hhi|]. by vm_compute.
Defined.

(* ================================================================== *)
(** * Further properties: the bid request *)
(* ================================================================== *)

Section request_more.
Import AsyncMonad.
Local Open Scope Q_scope.

Lemma set_prop_object (v : value) (k : string) (x : value) :
  is_object v = true → ∃ v', set_prop v k x = Ok v'.
Proof. destruct v; try discriminate; cbn; eauto. Qed.

Lemma set_prop_Ok (v : value) (k : string) (x v' : value) :
  set_prop v k x = Ok v' →
  is_object v = true ∧ is_object v' = true
  ∧ get_opt v' k = x
  ∧ (∀ k', k' ≠ k → get_opt v' k' = get_opt v k').
Proof.
  destruct v; try discriminate; intros [= <-]; cbn;
    (split_and!; [done|done|by rewrite lookup_insert_eq|]);
    intros k' Hk'; by rewrite lookup_insert_ne.
Qed.

Lemma is_object_truthy (v : value) : is_object v = true → truthy v = true.
Proof. by destruct v. Qed.

Lemma get_opt_falsy (v : value) (k : string) : truthy v = false → get_opt v k = VUndefined.
Proof. by destruct v. Qed.

Lemma get_opt_primitive (v : value) (k : string) :
  is_object v = false → get_opt v k = VUndefined.
Proof. by destruct v. Qed.

Lemma set_prop_primitive (v : value) (k : string) (x : value) :
  is_object v = false → ∃ e, set_prop v k x = Throw e.
Proof. destruct v; try discriminate; cbn; eauto. Qed.

Lemma ensure_fragments_fixed (reqBidsConfigObj : value) :
  truthy (bidder_of reqBidsConfigObj) = true →
  ensure_fragments reqBidsConfigObj = Ok reqBidsConfigObj.
Proof.
  unfold bidder_of, ensure_fragments. intros Hb.
  destruct (truthy (get_opt reqBidsConfigObj "ortb2Fragments")) eqn:Hf; cbn [negb].
  - by rewrite Hb.
  - by rewrite (get_opt_falsy _ _ Hf) in Hb.
Qed.

(** What [ensure_fragments] leaves behind when it returns. *)
Lemma ensure_fragments_Ok (reqBidsConfigObj reqBidsConfigObj' : value) :
  ensure_fragments reqBidsConfigObj = Ok reqBidsConfigObj' →
  truthy (bidder_of reqBidsConfigObj') = true
  ∧ is_object (get_opt reqBidsConfigObj' "ortb2Fragments") = true
  ∧ (∀ k, k ≠ "ortb2Fragments" →
       get_opt reqBidsConfigObj' k = get_opt reqBidsConfigObj k)
  ∧ (truthy (get_opt reqBidsConfigObj "ortb2Fragments") = true →
       ∀ k, k ≠ "bidder" →
         get_opt (get_opt reqBidsConfigObj' "ortb2Fragments") k
         = get_opt (get_opt reqBidsConfigObj "ortb2Fragments") k)
  ∧ (truthy (bidder_of reqBidsConfigObj) = true → reqBidsConfigObj' = reqBidsConfigObj).
Proof.
  intros Hrun. pose proof Hrun as Hrun'. unfold ensure_fragments in Hrun.
  destruct (truthy (get_opt reqBidsConfigObj "ortb2Fragments")) eqn:Hf; cbn [negb] in Hrun.
  - destruct (truthy (get_opt (get_opt reqBidsConfigObj "ortb2Fragments") "bidder")) eqn:Hb;
      cbn [negb] in Hrun.
    + injection Hrun as <-. unfold bidder_of. split_and!; try done.
      destruct (get_opt reqBidsConfigObj "ortb2Fragments"); try done.
      all: by rewrite get_opt_primitive in Hb.
    + destruct (set_prop (get_opt reqBidsConfigObj "ortb2Fragments") "bidder" (VObj ∅))
        as [fragments'|e] eqn:Hset; [|discriminate].
      apply set_prop_Ok in Hset as (_ & Hobj & Hbidder & Hrest).
      apply set_prop_Ok in Hrun as (_ & _ & Hfrag & Hother).
      unfold bidder_of. rewrite Hfrag, Hbidder. split_and!; try done.
      intros Hb'. unfold bidder_of in Hb'. congruence.
  - apply set_prop_Ok in Hrun as (_ & _ & Hfrag & Hother).
    unfold bidder_of. rewrite Hfrag. split_and!; try done.
    intros Hb'. unfold bidder_of in Hb'. by rewrite (get_opt_falsy _ _ Hf) in Hb'.
Qed.

(** X15. Preparing the request. When [getBidRequestData] gets past its
    first statements, the request has an [ortb2Fragments] object with a
    [bidder] entry; every other field of the request, and every other field
    of fragments that were there, is as it was, and a request that had the
    entry is not changed at all, so preparing twice changes nothing more.
    On a request that is an object the statements throw in one case only:
    [ortb2Fragments] is a truthy primitive (a number, a string, [true]). *)
Theorem ensure_fragments_prepares (reqBidsConfigObj : value) :
  (∀ reqBidsConfigObj',
     ensure_fragments reqBidsConfigObj = Ok reqBidsConfigObj' →
     truthy (bidder_of reqBidsConfigObj') = true
     ∧ is_object (get_opt reqBidsConfigObj' "ortb2Fragments") = true
     ∧ (∀ k, k ≠ "ortb2Fragments" →
          get_opt reqBidsConfigObj' k = get_opt reqBidsConfigObj k)
     ∧ (truthy (get_opt reqBidsConfigObj "ortb2Fragments") = true →
          ∀ k, k ≠ "bidder" →
            get_opt (get_opt reqBidsConfigObj' "ortb2Fragments") k
            = get_opt (get_opt reqBidsConfigObj "ortb2Fragments") k)
     ∧ (truthy (bidder_of reqBidsConfigObj) = true → reqBidsConfigObj' = reqBidsConfigObj)
     ∧ ensure_fragments reqBidsConfigObj' = Ok reqBidsConfigObj')
  ∧ (is_object reqBidsConfigObj = true →
       ((∃ e, ensure_fragments reqBidsConfigObj = Throw e)
        ↔ truthy (get_opt reqBidsConfigObj "ortb2Fragments") = true
          ∧ is_object (get_opt reqBidsConfigObj "ortb2Fragments") = false)).
Proof.
  split.
  - intros req' Hrun.
    destruct (ensure_fragments_Ok _ _ Hrun) as (Hb & Hobj & Hother & Hrest & Hsame).
    split_and!; try done. by apply ensure_fragments_fixed.
  - intros Hreq. unfold ensure_fragments.
    set (fragments := get_opt reqBidsConfigObj "ortb2Fragments").
    destruct (truthy fragments) eqn:Hf; cbn [negb].
    + destruct (is_object fragments) eqn:Hobj.
      * split; [|by intros [_ ?]]. intros [e He]. exfalso.
        destruct (truthy (get_opt fragments "bidder")); cbn [negb] in He; [discriminate|].
        destruct (set_prop_object fragments "bidder" (VObj ∅) Hobj) as [fragments' Hset].
        rewrite Hset in He.
        destruct (set_prop_object reqBidsConfigObj "ortb2Fragments" fragments' Hreq)
          as [req' Hset'].
        congruence.
      * split; [done|]. intros _. rewrite (get_opt_primitive _ _ Hobj). cbn [truthy negb].
        destruct (set_prop_primitive fragments "bidder" (VObj ∅) Hobj) as [e ->]. eauto.
    + split; [|by intros [? _]]. intros [e He]. exfalso.
      destruct (set_prop_object reqBidsConfigObj "ortb2Fragments"
                  (VObj {[ "bidder" := VObj ∅ ]}) Hreq) as [req' Hset'].
      congruence.
Qed.

Variable h : host.
Variable _country : value.

Lemma fragments_holder (v : value) (k : string) :
  is_object (get_opt v k) = true → truthy v = true.
Proof. by destruct v. Qed.

(** The enrichment of a prepared request. *)
Lemma enrich_prepared (reqBidsConfigObj : value) :
  is_object (get_opt reqBidsConfigObj "ortb2Fragments") = true →
  enrich h _country reqBidsConfigObj =
    match continueAuction_call h (hookConfig_of reqBidsConfigObj) with
    | Throw e => ([ContinueAuction (hookConfig_of reqBidsConfigObj)], Throw e)
    | Ok _ =>
        if truthy _country
        then ([ContinueAuction (hookConfig_of reqBidsConfigObj);
               MergeDeep (bidder_of reqBidsConfigObj) (country_source _country)],
              mergeDeep_call h (bidder_of reqBidsConfigObj) (country_source _country))
        else ([ContinueAuction (hookConfig_of reqBidsConfigObj)], Ok tt)
    end.
Proof.
  intros Hobj. unfold enrich, EffMonad.bind, EffMonad.of_outcome, EffMonad.emit, EffMonad.ret.
  fold (hookConfig_of reqBidsConfigObj).
  destruct (continueAuction_call h _) as [[]|e]; [|reflexivity].
  destruct (truthy _country); [|reflexivity].
  rewrite (get_prop_truthy reqBidsConfigObj) by by eapply fragments_holder.
  rewrite (get_prop_truthy (get_opt reqBidsConfigObj "ortb2Fragments"))
    by by apply is_object_truthy.
  fold (bidder_of reqBidsConfigObj). fold (country_source _country).
  by destruct (mergeDeep_call h _ _).
Qed.

Lemma valid_request_guard (reqBidsConfigObj : value) :
  valid_request reqBidsConfigObj = true →
  negb (truthy reqBidsConfigObj) || negb (typeof_object reqBidsConfigObj) = false.
Proof. unfold valid_request. by intros ?%negb_true_iff. Qed.

(** X16. The gate of [getBidRequestData]. For a request that is not an
    object the callback is called at once, without looking at the gate.
    For a request that is an object, the call returns at once; nothing
    more happens while the gate is closed, and everything the handler does
    happens at the instant the gate opens, or at the call if the gate is
    open by then. If preparing the request throws, the call itself throws
    and the callback is never called. *)
Theorem getBidRequestData_gated (gate : Promise unit) (reqBidsConfigObj : value)
    (callback : outcome unit) (now : time) :
  let run := getBidRequestData h gate _country reqBidsConfigObj callback now in
  (valid_request reqBidsConfigObj = false →
     run = (Settles now (match callback with
                         | Ok _ => Fulfilled tt
                         | Throw e => Rejected e
                         end),
            [(now, LogError (CONSTANTS.LOG_PRE_FIX +:+ " Invalid bid request config object"));
             (now, Callback)]))
  ∧ (valid_request reqBidsConfigObj = true →
       (∀ e, ensure_fragments reqBidsConfigObj = Throw e →
          run = (Settles now (Rejected e), []))
       ∧ (∀ reqBidsConfigObj', ensure_fragments reqBidsConfigObj = Ok reqBidsConfigObj' →
            run.1 = Settles now (Fulfilled tt)
            ∧ (gate = Never → run.2 = [])
            ∧ (∀ t r, gate = Settles t r →
                 Forall (λ te, te.1 = Qmax now t) run.2
                 ∧ (1 <= count is_Callback run.2)%nat))).
Proof.
  cbv zeta. split.
  - intros Hguard. apply negb_false_iff in Hguard.
    unfold getBidRequestData. rewrite Hguard.
    unfold bind, emit, lift, call_callback. cbn. by destruct callback as [[]|e].
  - intros Hguard%valid_request_guard. split.
    + intros e Hthrow. unfold getBidRequestData. rewrite Hguard.
      unfold bind, lift, EffMonad.of_outcome. by rewrite Hthrow.
    + intros req' Hprep. split_and!.
      * unfold getBidRequestData. rewrite Hguard.
        unfold bind, lift, start, ret, EffMonad.of_outcome. rewrite Hprep. cbn [fst snd].
        by destruct (try_catch _ _ now).
      * intros ->. by rewrite (getBidRequestData_valid _ _ _ _ req').
      * intros t r ->. rewrite (getBidRequestData_valid _ _ _ _ req') by done.
        destruct r as [[]|e].
        -- split.
           ++ rewrite !Forall_app, Forall_fmap. split_and!.
              ** by apply Forall_true.
              ** destruct (enrich h _country req').2; by repeat constructor.
              ** destruct callback; by repeat constructor.
           ++ rewrite !count_app.
              change (count is_Callback ((Qmax now t, Callback) :: ?l))
                with (S (count is_Callback l)). lia.
        -- split; [by repeat constructor|]. cbn. lia.
Qed.

(** X17. The country on the request. Once the gate has opened on a
    prepared request, the handler calls [continueAuction] once, first of
    all, with a hook configuration that holds the request. The country is
    merged exactly when one is known and [continueAuction] returned: then
    there is one [mergeDeep], into the bidder fragments of the request,
    of the country under [pubmatic.user.ext.ctr]. Without a country, or
    when [continueAuction] throws, nothing is merged. *)
Theorem getBidRequestData_country (t : time) (reqBidsConfigObj reqBidsConfigObj' : value)
    (callback : outcome unit) (now : time) :
  let run := getBidRequestData h (Settles t (Fulfilled tt)) _country reqBidsConfigObj
               callback now in
  valid_request reqBidsConfigObj = true →
  ensure_fragments reqBidsConfigObj = Ok reqBidsConfigObj' →
  (∃ rest, run.2 = (Qmax now t, ContinueAuction (hookConfig_of reqBidsConfigObj')) :: rest
           ∧ count is_ContinueAuction rest = 0%nat)
  ∧ get_opt (hookConfig_of reqBidsConfigObj') "reqBidsConfigObj" = reqBidsConfigObj'
  ∧ (truthy _country = true →
     (∃ u, continueAuction_call h (hookConfig_of reqBidsConfigObj') = Ok u) →
       (Qmax now t, MergeDeep (bidder_of reqBidsConfigObj') (country_source _country)) ∈ run.2
       ∧ count is_MergeDeep run.2 = 1%nat
       ∧ truthy (bidder_of reqBidsConfigObj') = true)
  ∧ (truthy _country = false
     ∨ (∃ e, continueAuction_call h (hookConfig_of reqBidsConfigObj') = Throw e) →
       count is_MergeDeep run.2 = 0%nat).
Proof.
  intros run Hguard%valid_request_guard Hprep.
  destruct (ensure_fragments_Ok _ _ Hprep) as (Hb & Hobj & _).
  unfold run. rewrite (getBidRequestData_valid _ _ _ _ reqBidsConfigObj') by done.
  rewrite (enrich_prepared _ Hobj).
  split_and!.
  - destruct (continueAuction_call h _) as [[]|e]; [destruct (truthy _country)|];
      cbn [fst snd fmap list_fmap app].
    + eexists. split; [reflexivity|].
      destruct (mergeDeep_call h _ _), callback; reflexivity.
    + eexists. split; [reflexivity|]. destruct callback; reflexivity.
    + eexists. split; [reflexivity|]. destruct callback; reflexivity.
  - reflexivity.
  - intros -> [[] ->]. cbn [fst snd fmap list_fmap app]. split_and!; [|  |done].
    + rewrite !elem_of_cons. auto.
    + destruct (mergeDeep_call h _ _), callback; reflexivity.
  - intros [-> | [e ->]].
    + destruct (continueAuction_call h _) as [[]|e]; destruct callback; reflexivity.
    + destruct callback; reflexivity.
Qed.

Lemma getBidRequestData_continueAuction_once (t : time)
    (reqBidsConfigObj reqBidsConfigObj' : value) (callback : outcome unit) (now : time) :
  valid_request reqBidsConfigObj = true →
  ensure_fragments reqBidsConfigObj = Ok reqBidsConfigObj' →
  count is_ContinueAuction
    (getBidRequestData h (Settles t (Fulfilled tt)) _country reqBidsConfigObj callback now).2
  = 1%nat.
Proof.
  intros Hguard%valid_request_guard Hprep.
  destruct (ensure_fragments_Ok _ _ Hprep) as (_ & Hobj & _).
  rewrite (getBidRequestData_valid _ _ _ _ reqBidsConfigObj') by done.
  rewrite (enrich_prepared _ Hobj).
  destruct (continueAuction_call h _) as [[]|e]; [destruct (truthy _country)|];
    cbn [fst snd fmap list_fmap app];
    try destruct (mergeDeep_call h _ _); destruct callback; reflexivity.
Qed.

End request_more.

(** X17 on the sample page, for a visitor from India. *)
Lemma getBidRequestData_country_witness :
  valid_request Page.request = true
  ∧ ensure_fragments Page.request = Ok Page.request
  ∧ truthy (VStr "IN") = true
  ∧ count is_MergeDeep
      (getBidRequestData Page.host (Settles 100%Q (Fulfilled tt)) (VStr "IN") Page.request
         (Ok tt) 50%Q).2 = 1%nat.
Proof.
  split; [reflexivity|]. split; [reflexivity|]. split; [reflexivity|].
  destruct (getBidRequestData_country Page.host (VStr "IN") 100%Q Page.request Page.request
              (Ok tt) 50%Q eq_refl eq_refl) as (_ & _ & Hmerge & _).
  exact (proj1 (proj2 (Hmerge eq_refl (ex_intro _ tt eq_refl)))).
Defined.

(* ================================================================== *)
(** * Further properties: from initialisation to the callback *)
(* ================================================================== *)

Section release_more.
Import AsyncMonad.
Local Open Scope Q_scope.

Variable h : host.

Lemma init_accepted (config : value) (now : time) :
  init_accepts h config →
  init h config now =
    let floors := fetchData (net h) (str_of (publisherId_of config))
                    (str_of (profileId_of config)) FLOORS default_retries now in
    let configs := fetchData (net h) (str_of (publisherId_of config))
                     (str_of (profileId_of config)) CONFIGS default_retries now in
    (Settles now (Fulfilled true),
     floors.2 ++ configs.2 ++ (merge_pipeline h now floors.1 configs.1 now).2).
Proof.
  intros Hacc%init_accepts_checks. by rewrite init_eq, Hacc.
Qed.

(** X18. From [init] to the callback. On a network where no request and no
    body stays pending, an [init] with valid parameters opens the gate,
    once; every bid request that is an object and can be prepared then
    has [continueAuction] called once and, if the callback returns, its
    callback called once, whenever the request is made. *)
Theorem auction_released (config : value) (now : time) (_country : value)
    (reqBidsConfigObj reqBidsConfigObj' : value) (now' : time) :
  let gate := configMergedPromise (init h config now).2 in
  let run := getBidRequestData h gate _country reqBidsConfigObj (Ok tt) now' in
  responsive (net h) →
  init_accepts h config →
  valid_request reqBidsConfigObj = true →
  ensure_fragments reqBidsConfigObj = Ok reqBidsConfigObj' →
  (init h config now).1 = Settles now (Fulfilled true)
  ∧ (∃ t, gate = Settles t (Fulfilled tt))
  ∧ count is_ConfigMerged (init h config now).2 = 1%nat
  ∧ count is_ContinueAuction run.2 = 1%nat
  ∧ count is_Callback run.2 = 1%nat.
Proof.
  intros gate run Hnet Hacc Hguard Hprep.
  assert (Hinit : (init h config now).1 = Settles now (Fulfilled true))
    by by rewrite init_accepted.
  destruct (init_opens_gate h Hnet config now Hinit) as [[t Hopen] Hcount].
  fold gate in Hopen. split_and!; [done|by exists t|done| |].
  - unfold run. rewrite Hopen.
    by apply (getBidRequestData_continueAuction_once h _country t _ reqBidsConfigObj').
  - destruct (getBidRequestData_callback_once h _country gate reqBidsConfigObj now')
      as [_ Honce].
    unfold run. rewrite (Honce reqBidsConfigObj') by by try apply valid_request_guard.
    by rewrite Hopen.
Qed.

Lemma fetchData_pending (publisherId profileId : string) (type : fetch_type)
    (retries : nat) (now : time) :
  net h (url_of publisherId profileId type) now = Never →
  fetchData (net h) publisherId profileId type retries now
  = (Never, [(now, Fetch (url_of publisherId profileId type))]).
Proof.
  intros Hpending.
  assert (Hatt : attempt (net h) publisherId profileId type now
                 = (Never, [(now, Fetch (url_of publisherId profileId type))])).
  { unfold attempt, bind, await_call, await.
    fold (url_of publisherId profileId type). by rewrite Hpending. }
  rewrite fetchData_step, Hatt. by destruct retries.
Qed.

Lemma attempt_no_setConfig (publisherId profileId : string) (type : fetch_type)
    (now : time) :
  count is_SetConfig (attempt (net h) publisherId profileId type now).2 = 0%nat.
Proof.
  unfold attempt, bind, await_call, await, throw, emit, ret.
  destruct (net h _ now) as [t [response|e]|]; [|reflexivity..].
  destruct (negb (ok response)); [reflexivity|].
  destruct type; destruct (json response) as [tj rj|]; reflexivity.
Qed.

Lemma fetchData_no_setConfig (publisherId profileId : string) (type : fetch_type)
    (retries : nat) (now : time) :
  count is_SetConfig (fetchData (net h) publisherId profileId type retries now).2 = 0%nat.
Proof.
  revert now. induction retries as [|retries IH]; intros now;
    rewrite fetchData_step;
    pose proof (attempt_no_setConfig publisherId profileId type now) as Hatt;
    destruct (attempt (net h) publisherId profileId type now) as [[t [v|e]|] tr];
    cbn [snd] in *; try done.
  - by rewrite count_app, Hatt.
  - specialize (IH (t + 1000)).
    destruct (fetchData (net h) publisherId profileId type retries (t + 1000)) as [p tr'].
    cbn [snd] in *. rewrite count_app, Hatt.
    by change (count is_SetConfig (?a :: ?b :: tr')) with (count is_SetConfig tr').
Qed.

(** X19. The wait for the profile configuration has no ceiling. If the
    request for the profile configuration is never answered, an [init]
    with valid parameters still reports success, but the gate never opens,
    whatever the auction delay and whatever becomes of the floor rules: no
    configuration is written, and a bid request that is an object gets
    neither [continueAuction] nor its callback. *)
Theorem config_fetch_unbounded (config : value) (now : time) (publisherId profileId : string) :
  let gate := configMergedPromise (init h config now).2 in
  publisherId_of config = VStr publisherId → publisherId ≠ "" →
  profileId_of config = VStr profileId → profileId ≠ "" →
  utils.isFn (continueAuction h) = true →
  net h (url_of publisherId profileId CONFIGS) now = Never →
  (init h config now).1 = Settles now (Fulfilled true)
  ∧ gate = Never
  ∧ count is_ConfigMerged (init h config now).2 = 0%nat
  ∧ count is_SetConfig (init h config now).2 = 0%nat
  ∧ (∀ _country reqBidsConfigObj reqBidsConfigObj' callback now',
       valid_request reqBidsConfigObj = true →
       ensure_fragments reqBidsConfigObj = Ok reqBidsConfigObj' →
       (getBidRequestData h gate _country reqBidsConfigObj callback now').2 = []).
Proof.
  intros gate Hpub Hpub' Hprof Hprof' Hfn Hpending.
  assert (Hacc : init_accepts h config) by (exists publisherId, profileId; done).
  assert (Hrun : (init h config now).2
                 = (fetchData (net h) publisherId profileId FLOORS default_retries now).2
                   ++ [(now, Fetch (url_of publisherId profileId CONFIGS))]).
  { rewrite init_accepted by done. cbv zeta. rewrite Hpub, Hprof. cbn [str_of].
    rewrite (fetchData_pending _ _ CONFIGS) by done. cbn [fst snd].
    by rewrite merge_pipeline_pending. }
  assert (Hgate : gate = Never).
  { unfold gate. rewrite Hrun, gate_skip by apply fetchData_no_gate. reflexivity. }
  split_and!.
  - by rewrite init_accepted.
  - exact Hgate.
  - rewrite Hrun, count_app, fetchData_no_gate. reflexivity.
  - rewrite Hrun, count_app, fetchData_no_setConfig. reflexivity.
  - intros c req req' callback now' Hguard%valid_request_guard Hprep.
    by rewrite Hgate, (getBidRequestData_valid _ _ _ _ req').
Qed.

End release_more.

(** X18 on the sample page, for a request made 50 ms after [init]. *)
Lemma auction_released_witness :
  responsive (net Page.host)
  ∧ init_accepts Page.host Page.module_config
  ∧ valid_request Page.request = true
  ∧ ensure_fragments Page.request = Ok Page.request
  ∧ count is_Callback
      (getBidRequestData Page.host Page.gate (VStr "IN") Page.request (Ok tt) 50%Q).2 = 1%nat.
Proof.
  assert (Hnet : responsive (net Page.host)).
  { intros url t. cbn. unfold Page.site. by destruct (String.eqb url _). }
  assert (Hacc : init_accepts Page.host Page.module_config).
  { exists "5890", "1234". by split_and!. }
  split; [exact Hnet|]. split; [exact Hacc|]. split; [reflexivity|]. split; [reflexivity|].
  exact (proj2 (proj2 (proj2 (proj2
           (auction_released Page.host Page.module_config 0%Q (VStr "IN")
              Page.request Page.request 50%Q Hnet Hacc eq_refl eq_refl))))).
Defined.

(** X19 on the sample page, on a network that never answers. *)
Lemma config_fetch_unbounded_witness :
  net Stalled.host (url_of "5890" "1234" CONFIGS) 0%Q = Never
  ∧ (init Stalled.host Page.module_config 0%Q).1 = Settles 0%Q (Fulfilled true)
  ∧ configMergedPromise (init Stalled.host Page.module_config 0%Q).2 = Never.
Proof.
  split; [reflexivity|].
  destruct (config_fetch_unbounded Stalled.host Page.module_config 0%Q "5890" "1234"
              eq_refl ltac:(discriminate) eq_refl ltac:(discriminate) eq_refl eq_refl)
    as (Hinit & Hgate & _).
  split; [exact Hinit|exact Hgate].
Defined.
